(** * Delisted-Stock-Scraper

    A shallow embedding of [Delisted_Stock_Scraper.py]: the market-cap
    resolution cascade ([OptimizedMarketCapFetcher]) and the Form 25 filing
    collection ([SECDelistingScraperOptimized]), followed by the properties
    the specification states about them.

    Conventions of the embedding.
    - Python floats are IEEE binary64 values, here Rocq's primitive floats.
      Numbers read from JSON are taken as already converted to binary64
      (exact for integers below 2^53).
    - Every remote collaborator (Yahoo Finance, Financial Modeling Prep, the
      SEC endpoints) is an oracle of the [World]: a function of the number of
      external calls issued so far and of the request, so that the same
      request may be answered differently at different times.
    - Instance fields and the written files live in a [State] record that is
      threaded through a state-and-exception monad [M]. *)

From Stdlib Require Import ZArith String Ascii List Bool Lia PrimFloat Permutation Sorted.
From stdpp Require Import gmap strings list pretty sorting.
Import ListNotations.
Open Scope string_scope.
Open Scope list_scope.

(** ** The Python runtime pieces the program relies on *)

Module Py.

(** Values found in the JSON-like dictionaries returned by the providers. *)
Inductive pyval :=
| PyNone
| PyNum (x : float)
| PyStr (s : string).

Inductive Exn :=
| ValueError
| TypeError
| IndexError
| AttributeError
| RequestException.

(** [bool(v)]: [None], [0], [0.0] and [''] are false; NaN is true. *)
Definition truthy (v : pyval) : bool :=
  match v with
  | PyNone => false
  | PyNum x => negb (PrimFloat.eqb x 0%float)
  | PyStr s => negb (String.eqb s "")
  end.

Definition str_truthy (s : string) : bool := negb (String.eqb s "").

(** [d.get(k)] and [d.get(k, default)]. *)
Definition dict_get (d : gmap string pyval) (k : string) : pyval :=
  default PyNone (d !! k).

Definition dict_get_default (d : gmap string pyval) (k : string) (dflt : pyval) : pyval :=
  default dflt (d !! k).

(** [str.upper] on ASCII strings. *)
Definition upper_ascii (c : ascii) : ascii :=
  let n := nat_of_ascii c in
  if Nat.leb 97 n && Nat.leb n 122 then ascii_of_nat (n - 32) else c.

Fixpoint upper (s : string) : string :=
  match s with
  | EmptyString => EmptyString
  | String c s' => String (upper_ascii c) (upper s')
  end.

(** [str.zfill(width)]: zeros go after a leading sign. *)
Fixpoint zeros (n : nat) : string :=
  match n with
  | O => EmptyString
  | S n' => String "0" (zeros n')
  end.

Definition zfill (width : nat) (s : string) : string :=
  let pad := zeros (width - String.length s) in
  match s with
  | String c s' =>
      if Ascii.eqb c "+" || Ascii.eqb c "-" then String c (pad +:+ s') else pad +:+ s
  | EmptyString => pad
  end.

(** [s.replace(old, new)]: every non-overlapping occurrence, left to right.
    [old] is non-empty at the only call site. *)
Fixpoint replace_go (fuel : nat) (old new s : string) : string :=
  match fuel with
  | O => s
  | S fuel' =>
      if String.prefix old s
      then new +:+ replace_go fuel' old new
                    (String.substring (String.length old)
                       (String.length s - String.length old) s)
      else match s with
           | EmptyString => EmptyString
           | String c s' => String c (replace_go fuel' old new s')
           end
  end.

Definition replace (old new s : string) : string :=
  replace_go (S (String.length s)) old new s.

(** *** [datetime.strptime(s, '%Y-%m-%d')] *)

Record datetime := { year : nat; month : nat; day : nat }.

Definition digit (c : ascii) : option nat :=
  let n := nat_of_ascii c in
  if Nat.leb 48 n && Nat.leb n 57 then Some (n - 48) else None.

Definition dv (c : ascii) : nat := default 0 (digit c).

Definition in_range (lo hi : nat) (c : ascii) : bool :=
  match digit c with
  | Some n => Nat.leb lo n && Nat.leb n hi
  | None => false
  end.

Definition alt {A} (x y : option A) : option A :=
  match x with
  | Some _ => x
  | None => y
  end.

Definition two (p q : ascii -> bool) (cs : list ascii) : option (nat * list ascii) :=
  match cs with
  | a :: b :: rest => if p a && q b then Some (10 * dv a + dv b, rest) else None
  | _ => None
  end.

Definition one (p : ascii -> bool) (cs : list ascii) : option (nat * list ascii) :=
  match cs with
  | a :: rest => if p a then Some (dv a, rest) else None
  | _ => None
  end.

(** [%Y] is [\d\d\d\d]. *)
Definition parse_year (cs : list ascii) : option (nat * list ascii) :=
  match cs with
  | a :: b :: c :: d :: rest =>
      match digit a, digit b, digit c, digit d with
      | Some a, Some b, Some c, Some d => Some (1000 * a + 100 * b + 10 * c + d, rest)
      | _, _, _, _ => None
      end
  | _ => None
  end.

(** [%m] is [1[0-2]|0[1-9]|[1-9]]. *)
Definition parse_month (cs : list ascii) : option (nat * list ascii) :=
  alt (two (Ascii.eqb "1") (in_range 0 2) cs)
    (alt (two (Ascii.eqb "0") (in_range 1 9) cs)
       (one (in_range 1 9) cs)).

(** [%d] is [3[01]|[12]\d|0[1-9]|[1-9]| [1-9]]. *)
Definition parse_day (cs : list ascii) : option (nat * list ascii) :=
  alt (two (Ascii.eqb "3") (in_range 0 1) cs)
    (alt (two (in_range 1 2) (in_range 0 9) cs)
       (alt (two (Ascii.eqb "0") (in_range 1 9) cs)
          (alt (one (in_range 1 9) cs)
             (two (Ascii.eqb " ") (in_range 1 9) cs)))).

Definition expect_dash (cs : list ascii) : option (list ascii) :=
  match cs with
  | c :: rest => if Ascii.eqb c "-" then Some rest else None
  | [] => None
  end.

Definition is_leap (y : nat) : bool :=
  (Nat.eqb (y mod 4) 0 && negb (Nat.eqb (y mod 100) 0)) || Nat.eqb (y mod 400) 0.

Definition days_in_month (y m : nat) : nat :=
  match m with
  | 2 => if is_leap y then 29 else 28
  | 4 | 6 | 9 | 11 => 30
  | _ => 31
  end.

(** [None] stands for the [ValueError] the library raises. *)
Definition strptime (s : string) : option datetime :=
  match parse_year (list_ascii_of_string s) with
  | None => None
  | Some (y, cs1) =>
  match expect_dash cs1 with
  | None => None
  | Some cs2 =>
  match parse_month cs2 with
  | None => None
  | Some (m, cs3) =>
  match expect_dash cs3 with
  | None => None
  | Some cs4 =>
  match parse_day cs4 with
  | None => None
  | Some (d, cs5) =>
      match cs5 with
      | [] =>
          if Nat.leb 1 y && Nat.leb d (days_in_month y m)
          then Some {| year := y; month := m; day := d |}
          else None
      | _ :: _ => None
      end
  end end end end end.

(** [a <= b] on datetimes. *)
Definition datetime_leb (a b : datetime) : bool :=
  if Nat.ltb (year a) (year b) then true
  else if Nat.ltb (year b) (year a) then false
  else if Nat.ltb (month a) (month b) then true
  else if Nat.ltb (month b) (month a) then false
  else Nat.leb (day a) (day b).

End Py.

Import Py.

(** ** External collaborators *)

(** Outcome of [session.get]: the request raises, or a response comes back
    with its status code and what [response.json()] yields ([None] when the
    body does not parse). *)
Inductive HttpResult (A : Type) :=
| ConnectionError
| Response (status_code : Z) (json : option A).

Arguments ConnectionError {A}.
Arguments Response {A} status_code json.

(** Body of the secondary quote API. *)
Inductive FmpJson :=
| FmpList (items : list (gmap string pyval))
| FmpDict (d : gmap string pyval).

(** One value of the company registry object; [None] in the list of values
    stands for a record on which one of the three field reads raises. *)
Record RegistryItem := {
  cik_str : Z;
  item_ticker : string;
  item_title : string
}.

(** [filings.recent] of a submissions document: four parallel sequences. *)
Record Recent := {
  form : list string;
  filingDate : list string;
  accessionNumber : list string;
  primaryDocument : list string
}.

(** A submissions document. [filings = None]: the document is empty or has
    no ['filings'] key. [Some None]: no (or an empty) ['recent'] object. *)
Record Submissions := {
  filings : option (option Recent)
}.

Record World := {
  (** [yf.Ticker(t).history(start, end)] for the window of [days] days before
      the date up to one day after it; the closing prices, oldest first.
      [None]: the window computation or the request raises. *)
  yf_history : nat -> string -> datetime -> nat -> option (list float);
  (** [yf.Ticker(t).info]. *)
  yf_info : nat -> string -> option (gmap string pyval);
  (** [session.get] on the secondary quote API. *)
  fmp_get : nat -> string -> HttpResult FmpJson;
  (** [session.get] on a company registry endpoint. *)
  sec_get : nat -> string -> HttpResult (list (option RegistryItem));
  (** [session.get], [raise_for_status] and [json] on a submissions URL. *)
  sec_submissions : nat -> string -> option Submissions
}.

(** ** Program state *)

(** What a test double would record: [EvStrategy n] when the strategy method
    named [n] is entered, the other events when a request is sent to a
    provider. *)
Inductive Event :=
| EvStrategy (name : string)
| EvHistory (ticker : string)
| EvInfo (ticker : string)
| EvFmpGet (url : string)
| EvSecGet (url : string)
| EvSubmissions (url : string).

(** [OptimizedMarketCapFetcher.stats]. *)
Record Stats := {
  yahoo_current : Z;
  yahoo_historical : Z;
  fmp_api : Z;
  calculated : Z;
  failed : Z;
  total : Z
}.

(** One row of the result lists. *)
Record Filing := {
  ticker : string;
  company_name : string;
  cik : string;
  exchange : string;
  form_type : string;
  filing_date : string;
  accession_number : string;
  primary_document : string;
  market_cap : option float;
  market_cap_source : string
}.

(** What [to_csv] is given: the rows of the frame, or a single ticker column. *)
Inductive Csv :=
| CsvRows (rows : list Filing)
| CsvTickers (tickers : list string).

Record State := {
  (** number of external calls issued so far *)
  clock : nat;
  (** external calls and strategy entries, oldest first *)
  log : list Event;
  fmp_api_working : bool;
  stats : Stats;
  ticker_to_exchange : gmap string string;
  (** the files written, oldest first *)
  files : list (string * Csv)
}.

Inductive Res (A : Type) :=
| Ok (a : A)
| Raise (e : Exn).

Arguments Ok {A} a.
Arguments Raise {A} e.

Definition M (A : Type) : Type := State -> Res A * State.

Definition ret {A} (a : A) : M A := fun st => (Ok a, st).

Definition raise {A} (e : Exn) : M A := fun st => (Raise e, st).

Definition bind {A B} (m : M A) (k : A -> M B) : M B :=
  fun st =>
    match m st with
    | (Ok a, st') => k a st'
    | (Raise e, st') => (Raise e, st')
    end.

Notation "'let*' x ':=' c1 'in' c2" := (bind c1 (fun x => c2))
  (at level 10, x name, c1 at level 100, c2 at level 200).
Notation "c1 ';;;' c2" := (bind c1 (fun _ => c2))
  (at level 100, c2 at level 200, right associativity).

(** [try: body except Exception: handler]. *)
Definition try_except {A} (body : M A) (handler : M A) : M A :=
  fun st =>
    match body st with
    | (Ok a, st') => (Ok a, st')
    | (Raise _, st') => handler st'
    end.

Definition lift_option {A} (e : Exn) (o : option A) : M A :=
  match o with
  | Some a => ret a
  | None => raise e
  end.

Fixpoint for_each {A B} (l : list A) (body : A -> B -> M B) (acc : B) : M B :=
  match l with
  | [] => ret acc
  | x :: xs => let* acc' := body x acc in for_each xs body acc'
  end.

Definition emit (e : Event) : M unit :=
  fun st =>
    (Ok tt, {| clock := clock st; log := log st ++ [e];
               fmp_api_working := fmp_api_working st; stats := stats st;
               ticker_to_exchange := ticker_to_exchange st; files := files st |}).

(** An external call: the oracle is asked at the current clock, the call is
    logged and the clock advances. *)
Definition external {A} (e : Event) (oracle : nat -> A) : M A :=
  fun st =>
    (Ok (oracle (clock st)),
     {| clock := S (clock st); log := log st ++ [e];
        fmp_api_working := fmp_api_working st; stats := stats st;
        ticker_to_exchange := ticker_to_exchange st; files := files st |}).

Definition set_fmp_api_working (b : bool) : M unit :=
  fun st =>
    (Ok tt, {| clock := clock st; log := log st;
               fmp_api_working := b; stats := stats st;
               ticker_to_exchange := ticker_to_exchange st; files := files st |}).

Definition update_stats (f : Stats -> Stats) : M unit :=
  fun st =>
    (Ok tt, {| clock := clock st; log := log st;
               fmp_api_working := fmp_api_working st; stats := f (stats st);
               ticker_to_exchange := ticker_to_exchange st; files := files st |}).

Definition cache_store (t e : string) : M unit :=
  fun st =>
    (Ok tt, {| clock := clock st; log := log st;
               fmp_api_working := fmp_api_working st; stats := stats st;
               ticker_to_exchange := <[t := e]> (ticker_to_exchange st);
               files := files st |}).

Definition write_file (path : string) (content : Csv) : M unit :=
  fun st =>
    (Ok tt, {| clock := clock st; log := log st;
               fmp_api_working := fmp_api_working st; stats := stats st;
               ticker_to_exchange := ticker_to_exchange st;
               files := files st ++ [(path, content)] |}).

Definition get_state : M State := fun st => (Ok st, st).

(** [v > 0] on a dictionary value; comparing a string with a number raises. *)
Definition py_gt0 (v : pyval) : M bool :=
  match v with
  | PyNum x => ret (PrimFloat.ltb 0%float x)
  | _ => raise TypeError
  end.

(** [float(v)] for a value already known to be a number. *)
Definition py_float (v : pyval) : M float :=
  match v with
  | PyNum x => ret x
  | _ => raise TypeError
  end.

(** ** class OptimizedMarketCapFetcher *)

Module OptimizedMarketCapFetcher.

Definition stats0 : Stats :=
  {| yahoo_current := 0; yahoo_historical := 0; fmp_api := 0;
     calculated := 0; failed := 0; total := 0 |}.

Definition incr_total (s : Stats) : Stats :=
  {| yahoo_current := yahoo_current s; yahoo_historical := yahoo_historical s;
     fmp_api := fmp_api s; calculated := calculated s; failed := failed s;
     total := total s + 1 |}.

Definition incr_yahoo_historical (s : Stats) : Stats :=
  {| yahoo_current := yahoo_current s; yahoo_historical := yahoo_historical s + 1;
     fmp_api := fmp_api s; calculated := calculated s; failed := failed s;
     total := total s |}.

Definition incr_fmp_api (s : Stats) : Stats :=
  {| yahoo_current := yahoo_current s; yahoo_historical := yahoo_historical s;
     fmp_api := fmp_api s + 1; calculated := calculated s; failed := failed s;
     total := total s |}.

Definition incr_calculated (s : Stats) : Stats :=
  {| yahoo_current := yahoo_current s; yahoo_historical := yahoo_historical s;
     fmp_api := fmp_api s; calculated := calculated s + 1; failed := failed s;
     total := total s |}.

Definition incr_yahoo_current (s : Stats) : Stats :=
  {| yahoo_current := yahoo_current s + 1; yahoo_historical := yahoo_historical s;
     fmp_api := fmp_api s; calculated := calculated s; failed := failed s;
     total := total s |}.

Definition incr_failed (s : Stats) : Stats :=
  {| yahoo_current := yahoo_current s; yahoo_historical := yahoo_historical s;
     fmp_api := fmp_api s; calculated := calculated s; failed := failed s + 1;
     total := total s |}.

(** The inline test [1_000 < market_cap < 1_000_000_000_000] of
    [_get_yahoo_historical] and [_calculate_from_yahoo_data]. *)
Definition sanity_check (market_cap : float) : bool :=
  PrimFloat.ltb 1000%float market_cap && PrimFloat.ltb market_cap 1000000000000%float.

Section Fetcher.

Variable w : World.
Variable fmp_api_key : option string.

(** [if self.fmp_api_key]: a key was given and is not empty. *)
Definition key_supplied : bool :=
  match fmp_api_key with
  | Some k => str_truthy k
  | None => false
  end.

Definition stock_history (t : string) (date_obj : datetime) (days : nat) : M (list float) :=
  let* r := external (EvHistory t) (fun n => yf_history w n t date_obj days) in
  lift_option RequestException r.

Definition stock_info (t : string) : M (gmap string pyval) :=
  let* r := external (EvInfo t) (fun n => yf_info w n t) in
  lift_option RequestException r.

Definition fmp_quote_url (t : string) : string :=
  "https://financialmodelingprep.com/api/v3/quote/" +:+ t.

Definition _validate_fmp_api_key : M bool :=
  try_except
    (let* response := external (EvFmpGet (fmp_quote_url "AAPL"))
                        (fun n => fmp_get w n (fmp_quote_url "AAPL")) in
     match response with
     | ConnectionError => raise RequestException
     | Response status_code json =>
         if Z.eqb status_code 200 then
           let* data := lift_option ValueError json in
           match data with
           | FmpList (q :: _) =>
               match q !! "marketCap" with
               | Some _ => ret true
               | None => ret false
               end
           | _ => ret false
           end
         else ret false
     end)
    (ret false).

(** [__init__]: the flag starts false and is raised only by a successful
    validation of a supplied key. *)
Definition init : M unit :=
  set_fmp_api_working false ;;;
  update_stats (fun _ => stats0) ;;;
  if key_supplied then
    let* ok := _validate_fmp_api_key in
    if ok then set_fmp_api_working true else ret tt
  else ret tt.

Definition _get_yahoo_historical (t date : string) : M (option float) :=
  emit (EvStrategy "yahoo_historical") ;;;
  try_except
    (let* date_obj := lift_option ValueError (strptime date) in
     let* hist := stock_history t date_obj 60 in
     match last hist with
     | None => ret None
     | Some close_price =>
         let* info := stock_info t in
         let shares := dict_get info "sharesOutstanding" in
         let* positive :=
           (if truthy shares then
              let* b := py_gt0 shares in
              ret (b && PrimFloat.ltb 0%float close_price)
            else ret false) in
         if positive then
           let* s := py_float shares in
           let market_cap := PrimFloat.mul close_price s in
           if sanity_check market_cap then ret (Some market_cap) else ret None
         else ret None
     end)
    (ret None).

Definition _get_yahoo_current (t : string) : M (option float) :=
  emit (EvStrategy "yahoo_current") ;;;
  try_except
    (let* info := stock_info t in
     let market_cap := dict_get info "marketCap" in
     let* positive :=
       (if truthy market_cap then py_gt0 market_cap else ret false) in
     if positive then
       let* x := py_float market_cap in ret (Some x)
     else ret None)
    (ret None).

Definition _get_from_fmp (t date : string) : M (option float) :=
  emit (EvStrategy "fmp_api") ;;;
  if negb key_supplied then ret None else
  try_except
    (let* response := external (EvFmpGet (fmp_quote_url t))
                        (fun n => fmp_get w n (fmp_quote_url t)) in
     match response with
     | ConnectionError => raise RequestException
     | Response status_code json =>
         if Z.eqb status_code 401 then
           set_fmp_api_working false ;;; ret None
         else if Z.eqb status_code 403 then
           ret None
         else if Z.eqb status_code 429 then
           set_fmp_api_working false ;;; ret None
         else if Z.eqb status_code 200 then
           let* data := lift_option ValueError json in
           match data with
           | FmpList (q :: _) =>
               let market_cap := dict_get_default q "marketCap" (PyNum 0%float) in
               let* positive :=
                 (if truthy market_cap then py_gt0 market_cap else ret false) in
               if positive then
                 let* x := py_float market_cap in ret (Some x)
               else ret None
           | _ => ret None
           end
         else ret None
     end)
    (ret None).

Definition _calculate_from_yahoo_data (t date : string) : M (option float) :=
  emit (EvStrategy "calculated") ;;;
  try_except
    (let* date_obj := lift_option ValueError (strptime date) in
     let* hist := stock_history t date_obj 90 in
     match last hist with
     | None => ret None
     | Some close_price =>
         let* info := stock_info t in
         let shares0 := dict_get info "sharesOutstanding" in
         let shares :=
           if negb (truthy shares0)
           then dict_get_default info "shares" (dict_get info "impliedSharesOutstanding")
           else shares0 in
         let* positive :=
           (if truthy shares then
              let* b := py_gt0 shares in
              ret (b && PrimFloat.ltb 0%float close_price)
            else ret false) in
         if positive then
           let* s := py_float shares in
           let market_cap := PrimFloat.mul close_price s in
           if sanity_check market_cap then ret (Some market_cap) else ret None
         else ret None
     end)
    (ret None).

Definition get_market_cap (t date company : string) : M (option float * string) :=
  update_stats incr_total ;;;
  let* result := _get_yahoo_historical t date in
  match result with
  | Some x => update_stats incr_yahoo_historical ;;; ret (Some x, "yahoo_historical")
  | None =>
  let* st := get_state in
  let* result :=
    (if key_supplied && fmp_api_working st
     then _get_from_fmp t date
     else ret None) in
  match result with
  | Some x => update_stats incr_fmp_api ;;; ret (Some x, "fmp_api")
  | None =>
  let* result := _calculate_from_yahoo_data t date in
  match result with
  | Some x => update_stats incr_calculated ;;; ret (Some x, "calculated")
  | None =>
  let* result := _get_yahoo_current t in
  match result with
  | Some x => update_stats incr_yahoo_current ;;; ret (Some x, "yahoo_current")
  | None => update_stats incr_failed ;;; ret (None, "none")
  end end end end.

End Fetcher.

End OptimizedMarketCapFetcher.

(** ** class SECDelistingScraperOptimized *)

Module SECDelistingScraperOptimized.

Import OptimizedMarketCapFetcher.

(** A value of the [cik_to_ticker] dictionary. *)
Record CompanyInfo := {
  info_ticker : string;
  info_title : string;
  info_cik : string
}.

(** The loop variables of [find_form25_filings_with_market_cap]. *)
Record Acc := {
  all_filings : list Filing;
  filings_with_market_cap : list Filing;
  skipped_exchange : Z;
  skipped_no_exchange : Z
}.

Definition base_url : string := "https://data.sec.gov".

Definition default_target_exchanges : list string := ["NYSE"; "NASDAQ"; "AMEX"].

(** [target_exchanges or ['NYSE', 'NASDAQ', 'AMEX']]. *)
Definition resolve_target_exchanges (arg : option (list string)) : list string :=
  match arg with
  | Some (x :: l) => x :: l
  | _ => default_target_exchanges
  end.

Definition exchange_mapping : gmap string string :=
  list_to_map
    [ ("NYQ", "NYSE");
      ("NYSE", "NYSE");
      ("NMS", "NASDAQ");
      ("NASDAQ", "NASDAQ");
      ("NGM", "NASDAQ");
      ("NAS", "NASDAQ");
      ("ASE", "AMEX");
      ("AMEX", "AMEX");
      ("PCX", "NYSE ARCA");
      ("NYE", "NYSE") ].

(** [d[k] = v] on an insertion-ordered dictionary. *)
Fixpoint dict_set {V} (d : list (string * V)) (k : string) (v : V) : list (string * V) :=
  match d with
  | [] => [(k, v)]
  | (k', v') :: d' =>
      if String.eqb k' k then (k', v) :: d' else (k', v') :: dict_set d' k v
  end.

(** [df.sort_values(key)]: an insertion sort. pandas leaves the order of
    rows with equal keys to its sorting routine; the properties below are
    proved for every sorted rearrangement, this one included. *)
Fixpoint insert_sorted {A} (le : A -> A -> bool) (x : A) (l : list A) : list A :=
  match l with
  | [] => [x]
  | y :: l' => if le x y then x :: y :: l' else y :: insert_sorted le x l'
  end.

Fixpoint sort_values {A} (le : A -> A -> bool) (l : list A) : list A :=
  match l with
  | [] => []
  | x :: l' => insert_sorted le x (sort_values le l')
  end.

(** Order of [sort_values('filing_date', ascending=False)]. *)
Definition date_desc (a b : Filing) : bool :=
  String.leb (filing_date b) (filing_date a).

(** [df.drop_duplicates(subset=['ticker'], keep='first')]. *)
Fixpoint drop_duplicates_from (seen : list string) (rows : list Filing) : list Filing :=
  match rows with
  | [] => []
  | r :: rest =>
      if bool_decide (ticker r ∈ seen)
      then drop_duplicates_from seen rest
      else r :: drop_duplicates_from (ticker r :: seen) rest
  end.

Definition drop_duplicates (rows : list Filing) : list Filing :=
  drop_duplicates_from [] rows.

Definition skip_exchange (acc : Acc) : Acc :=
  {| all_filings := all_filings acc;
     filings_with_market_cap := filings_with_market_cap acc;
     skipped_exchange := skipped_exchange acc + 1;
     skipped_no_exchange := skipped_no_exchange acc |}.

Definition skip_no_exchange (acc : Acc) : Acc :=
  {| all_filings := all_filings acc;
     filings_with_market_cap := filings_with_market_cap acc;
     skipped_exchange := skipped_exchange acc;
     skipped_no_exchange := skipped_no_exchange acc + 1 |}.

(** [all_filings.append(filing_info)] followed by the small-cap test. *)
Definition record_filing (max_market_cap : float) (filing_info : Filing) (acc : Acc) : Acc :=
  {| all_filings := all_filings acc ++ [filing_info];
     filings_with_market_cap :=
       match market_cap filing_info with
       | Some mc =>
           if PrimFloat.ltb mc max_market_cap
           then filings_with_market_cap acc ++ [filing_info]
           else filings_with_market_cap acc
       | None => filings_with_market_cap acc
       end;
     skipped_exchange := skipped_exchange acc;
     skipped_no_exchange := skipped_no_exchange acc |}.

Definition acc0 : Acc :=
  {| all_filings := []; filings_with_market_cap := [];
     skipped_exchange := 0; skipped_no_exchange := 0 |}.

Definition set_cache (m : gmap string string) : M unit :=
  fun st =>
    (Ok tt, {| clock := clock st; log := log st;
               fmp_api_working := fmp_api_working st; stats := stats st;
               ticker_to_exchange := m; files := files st |}).

Section Scraper.

Variable w : World.
Variable fmp_api_key : option string.
Variable target_exchanges : list string.

(** [__init__]: the fetcher is built and the exchange cache starts empty
    ([_build_ticker_exchange_mapping] returns [{}]). *)
Definition init : M unit :=
  OptimizedMarketCapFetcher.init w fmp_api_key ;;;
  set_cache ∅.

Definition _get_ticker_exchange (t : string) : M (option string) :=
  let* st := get_state in
  match ticker_to_exchange st !! t with
  | Some e => ret (Some e)
  | None =>
      try_except
        (let* info := stock_info w t in
         let* exchange_raw :=
           match dict_get_default info "exchange" (PyStr "") with
           | PyStr s => ret (upper s)
           | _ => raise AttributeError
           end in
         match exchange_mapping !! exchange_raw with
         | Some e =>
             if str_truthy e then cache_store t e ;;; ret (Some e) else ret None
         | None => ret None
         end)
        (ret None)
  end.

Definition endpoints : list string :=
  [ "https://www.sec.gov/files/company_tickers.json";
    base_url +:+ "/files/company_tickers.json";
    "https://www.sec.gov/files/company_tickers_exchange.json" ].

Definition add_company (item : option RegistryItem)
    (cik_to_ticker : list (string * CompanyInfo)) : M (list (string * CompanyInfo)) :=
  match item with
  | None => raise TypeError
  | Some it =>
      let c := zfill 10 (pretty (cik_str it)) in
      ret (dict_set cik_to_ticker c
             {| info_ticker := item_ticker it; info_title := item_title it;
                info_cik := c |})
  end.

(** One round of the loop over the endpoints: [Some] mapping when the
    endpoint answered and the loop returns, [None] to go on. *)
Definition try_endpoint (url : string) : M (option (list (string * CompanyInfo))) :=
  try_except
    (let* response := external (EvSecGet url) (fun n => sec_get w n url) in
     match response with
     | ConnectionError => raise RequestException
     | Response status_code json =>
         if Z.eqb status_code 200 then
           let* data := lift_option ValueError json in
           let* cik_to_ticker := for_each data add_company [] in
           ret (Some cik_to_ticker)
         else ret None
     end)
    (ret None).

Fixpoint try_endpoints (urls : list string) : M (list (string * CompanyInfo)) :=
  match urls with
  | [] => ret []
  | url :: rest =>
      let* r := try_endpoint url in
      match r with
      | Some cik_to_ticker => ret cik_to_ticker
      | None => try_endpoints rest
      end
  end.

Definition get_company_tickers : M (list (string * CompanyInfo)) :=
  try_endpoints endpoints.

Definition get_submissions_for_cik (c : string) : M Submissions :=
  try_except
    (let url := base_url +:+ "/submissions/CIK" +:+ c +:+ ".json" in
     let* r := external (EvSubmissions url) (fun n => sec_submissions w n url) in
     lift_option RequestException r)
    (ret {| filings := None |}).

(** Body of the loop over the entries of one filing history. *)
Definition check_filing (start_dt end_dt : datetime) (max_market_cap : float)
    (c : string) (company_info : CompanyInfo) (recent_filings : Recent)
    (i : nat) (acc : Acc) : M Acc :=
  let* form_type' := lift_option IndexError (form recent_filings !! i) in
  let* filing_date' := lift_option IndexError (filingDate recent_filings !! i) in
  if negb (bool_decide (form_type' ∈ ["25"; "25-NSE"])) then ret acc else
  let* filing_dt := lift_option ValueError (strptime filing_date') in
  if negb (datetime_leb start_dt filing_dt && datetime_leb filing_dt end_dt)
  then ret acc else
  let t := info_ticker company_info in
  let* exchange' := _get_ticker_exchange t in
  match exchange' with
  | None => ret (skip_no_exchange acc)
  | Some e =>
      if str_truthy e && negb (bool_decide (e ∈ target_exchanges))
      then ret (skip_exchange acc)
      else if negb (str_truthy e) then ret (skip_no_exchange acc)
      else
        let* accession := lift_option IndexError (accessionNumber recent_filings !! i) in
        let* document := lift_option IndexError (primaryDocument recent_filings !! i) in
        let* r := get_market_cap w fmp_api_key t filing_date' (info_title company_info) in
        let filing_info :=
          {| ticker := t;
             company_name := info_title company_info;
             cik := c;
             exchange := e;
             form_type := form_type';
             filing_date := filing_date';
             accession_number := accession;
             primary_document := document;
             market_cap := fst r;
             market_cap_source := snd r |} in
        ret (record_filing max_market_cap filing_info acc)
  end.

(** Body of the loop over the companies. *)
Definition check_company (start_dt end_dt : datetime) (max_market_cap : float)
    (entry : string * CompanyInfo) (acc : Acc) : M Acc :=
  let* submissions := get_submissions_for_cik (fst entry) in
  match filings submissions with
  | None => ret acc
  | Some None => ret acc
  | Some (Some recent_filings) =>
      for_each (seq 0 (length (form recent_filings)))
        (check_filing start_dt end_dt max_market_cap (fst entry) (snd entry) recent_filings)
        acc
  end.

Definition find_form25_filings_with_market_cap (start_date end_date : string)
    (max_market_cap : float) : M (list Filing * list Filing) :=
  let* cik_to_ticker := get_company_tickers in
  let* start_dt := lift_option ValueError (strptime start_date) in
  let* end_dt := lift_option ValueError (strptime end_date) in
  let* acc := for_each cik_to_ticker (check_company start_dt end_dt max_market_cap) acc0 in
  ret (all_filings acc, filings_with_market_cap acc).

(** [save_to_csv]; creating the output directory writes no file and is
    left out. *)
Definition save_to_csv (rows : list Filing) (output_file : string) : M unit :=
  match rows with
  | [] => ret tt
  | _ :: _ =>
      let df := sort_values date_desc rows in
      let df_unique := drop_duplicates df in
      write_file output_file (CsvRows df_unique) ;;;
      let symbols_file := replace ".csv" "_symbols_only.csv" output_file in
      let df_symbols := sort_values String.leb (map ticker df_unique) in
      write_file symbols_file (CsvTickers df_symbols)
  end.

End Scraper.

End SECDelistingScraperOptimized.

(** ** main *)

Section Main.

Import SECDelistingScraperOptimized.

Variable w : World.
(** [os.path.join(script_dir, "outputs")] *)
Variable output_dir : string.

Definition START_DATE : string := "2015-01-01".
Definition END_DATE : string := "2024-12-31".
Definition MAX_MARKET_CAP : float := 2000000000%float.
Definition TARGET_EXCHANGES : list string := ["NYSE"; "NASDAQ"; "AMEX"; "NYSE AMERICAN"].
Definition FMP_API_KEY : option string := None.

Definition OUTPUT_ALL : string := output_dir +:+ "/delisted_all_2015_2024.csv".
Definition OUTPUT_SMALL_CAPS : string := output_dir +:+ "/delisted_small_caps_2015_2024.csv".

(** [main]; the summaries printed at the end are left out. *)
Definition main : M unit :=
  let targets := resolve_target_exchanges (Some TARGET_EXCHANGES) in
  init w FMP_API_KEY ;;;
  let* r := find_form25_filings_with_market_cap w FMP_API_KEY targets
              START_DATE END_DATE MAX_MARKET_CAP in
  match fst r with
  | [] => ret tt
  | _ :: _ =>
      save_to_csv (fst r) OUTPUT_ALL ;;;
      match snd r with
      | [] => ret tt
      | _ :: _ => save_to_csv (snd r) OUTPUT_SMALL_CAPS
      end
  end.

End Main.

(** The state of a process that has just started. *)
Definition fresh : State :=
  {| clock := 0; log := []; fmp_api_working := false;
     stats := OptimizedMarketCapFetcher.stats0;
     ticker_to_exchange := ∅; files := [] |}.

(** ** Notions used to state the properties *)

(** The strategy entries of a log, in order. *)
Definition strategy_name (e : Event) : option string :=
  match e with
  | EvStrategy n => Some n
  | _ => None
  end.

Definition strategy_names (l : list Event) : list string := omap strategy_name l.

(** The requests sent to the secondary quote API. *)
Definition fmp_request (e : Event) : option string :=
  match e with
  | EvFmpGet u => Some u
  | _ => None
  end.

Definition fmp_requests (l : list Event) : list string := omap fmp_request l.

(** The requests for a ticker's [info]. *)
Definition info_request (e : Event) : option string :=
  match e with
  | EvInfo t => Some t
  | _ => None
  end.

Definition info_requests (l : list Event) : list string := omap info_request l.

Definition strategy_list : list string :=
  ["yahoo_historical"; "fmp_api"; "calculated"; "yahoo_current"].

(** A resolver result is a value with the name of a strategy, or nothing
    with ["none"]. *)
Definition resolved (r : option float * string) : Prop :=
  match fst r with
  | Some _ => snd r ∈ strategy_list
  | None => snd r = "none"
  end.

(** On a row: the market cap is present exactly when a strategy is named. *)
Definition cap_iff_source (e : Filing) : Prop :=
  is_Some (market_cap e) <-> market_cap_source e <> "none".

(** The small-cap test of the collector on a finished row. *)
Definition is_small_cap (max_market_cap : float) (e : Filing) : bool :=
  match market_cap e with
  | Some mc => PrimFloat.ltb mc max_market_cap
  | None => false
  end.

Section Cascade.

Import OptimizedMarketCapFetcher.

Variable w : World.
Variable fmp_api_key : option string.

(** Try the strategies from left to right and stop at the first value. *)
Fixpoint first_success (strategies : list (string * M (option float)))
    : M (option float * string) :=
  match strategies with
  | [] => ret (None, "none")
  | (name, attempt) :: rest =>
      let* r := attempt in
      match r with
      | Some x => ret (Some x, name)
      | None => first_success rest
      end
  end.

(** Strategy 2 behind its guard. *)
Definition fmp_if_enabled (t date : string) : M (option float) :=
  fun st =>
    if key_supplied fmp_api_key && fmp_api_working st
    then _get_from_fmp w fmp_api_key t date st
    else (Ok None, st).

Definition cascade (t date : string) : list (string * M (option float)) :=
  [ ("yahoo_historical", _get_yahoo_historical w t date);
    ("fmp_api", fmp_if_enabled t date);
    ("calculated", _calculate_from_yahoo_data w t date);
    ("yahoo_current", _get_yahoo_current w t) ].

(** The counter that belongs to an outcome. *)
Definition record_outcome (r : option float * string) : M (option float * string) :=
  let bump :=
    if String.eqb (snd r) "yahoo_historical" then incr_yahoo_historical
    else if String.eqb (snd r) "fmp_api" then incr_fmp_api
    else if String.eqb (snd r) "calculated" then incr_calculated
    else if String.eqb (snd r) "yahoo_current" then incr_yahoo_current
    else incr_failed in
  update_stats bump ;;; ret r.

(** The strategies a call may enter, in order, given the state it starts in. *)
Definition plan (st : State) : list string :=
  "yahoo_historical" ::
  (if key_supplied fmp_api_key && fmp_api_working st then ["fmp_api"] else [])
  ++ ["calculated"; "yahoo_current"].

(** States linked by a sequence of the calls the collection makes once the
    registry is loaded: resolver calls, exchange lookups and fetches of
    filing histories, in any order. *)
Inductive run_steps : State -> State -> Prop :=
| run_steps_nil st : run_steps st st
| run_steps_resolve st t date company r st1 st2 :
    get_market_cap w fmp_api_key t date company st = (r, st1) ->
    run_steps st1 st2 ->
    run_steps st st2
| run_steps_lookup st t r st1 st2 :
    SECDelistingScraperOptimized._get_ticker_exchange w t st = (r, st1) ->
    run_steps st1 st2 ->
    run_steps st st2
| run_steps_fetch st c r st1 st2 :
    SECDelistingScraperOptimized.get_submissions_for_cik w c st = (r, st1) ->
    run_steps st1 st2 ->
    run_steps st st2.

End Cascade.

(** The counters add up. *)
Definition stats_balanced (s : Stats) : Prop :=
  total s = (yahoo_historical s + fmp_api s + calculated s + yahoo_current s + failed s)%Z.

(** [update_stats f] as a state transformer. *)
Definition bump (f : Stats -> Stats) (st : State) : State :=
  snd (update_stats f st).

(** What a strategy may do to the state: it enters once, issues external
    calls, and touches neither the counters, nor the cache, nor the files;
    the flag can only go down. *)
Record strategy_step (name : string) (st st' : State) : Prop := {
  step_stats : stats st' = stats st;
  step_cache : ticker_to_exchange st' = ticker_to_exchange st;
  step_files : files st' = files st;
  step_flag : fmp_api_working st' = true -> fmp_api_working st = true;
  step_log : exists evs, log st' = log st ++ EvStrategy name :: evs
                         /\ strategy_names evs = []
}.

(** A Yahoo strategy moreover leaves the flag alone and sends nothing to
    the secondary API. *)
Record yahoo_step (name : string) (st st' : State) : Prop := {
  ystep_stats : stats st' = stats st;
  ystep_cache : ticker_to_exchange st' = ticker_to_exchange st;
  ystep_files : files st' = files st;
  ystep_flag : fmp_api_working st' = fmp_api_working st;
  ystep_log : exists evs, log st' = log st ++ EvStrategy name :: evs
                          /\ strategy_names evs = [] /\ fmp_requests evs = []
}.

Section CascadeRun.

Import OptimizedMarketCapFetcher.

Variable w : World.
Variable fmp_api_key : option string.

(** The five ways a resolver call can end, with the states in between. *)
Inductive cascade_run (t date : string) (st : State)
    : option float * string -> State -> Prop :=
| run_yahoo_historical x s1 :
    _get_yahoo_historical w t date (bump incr_total st) = (Ok (Some x), s1) ->
    cascade_run t date st (Some x, "yahoo_historical") (bump incr_yahoo_historical s1)
| run_fmp_api x s1 s2 :
    _get_yahoo_historical w t date (bump incr_total st) = (Ok None, s1) ->
    fmp_if_enabled w fmp_api_key t date s1 = (Ok (Some x), s2) ->
    cascade_run t date st (Some x, "fmp_api") (bump incr_fmp_api s2)
| run_calculated x s1 s2 s3 :
    _get_yahoo_historical w t date (bump incr_total st) = (Ok None, s1) ->
    fmp_if_enabled w fmp_api_key t date s1 = (Ok None, s2) ->
    _calculate_from_yahoo_data w t date s2 = (Ok (Some x), s3) ->
    cascade_run t date st (Some x, "calculated") (bump incr_calculated s3)
| run_yahoo_current x s1 s2 s3 s4 :
    _get_yahoo_historical w t date (bump incr_total st) = (Ok None, s1) ->
    fmp_if_enabled w fmp_api_key t date s1 = (Ok None, s2) ->
    _calculate_from_yahoo_data w t date s2 = (Ok None, s3) ->
    _get_yahoo_current w t s3 = (Ok (Some x), s4) ->
    cascade_run t date st (Some x, "yahoo_current") (bump incr_yahoo_current s4)
| run_failed s1 s2 s3 s4 :
    _get_yahoo_historical w t date (bump incr_total st) = (Ok None, s1) ->
    fmp_if_enabled w fmp_api_key t date s1 = (Ok None, s2) ->
    _calculate_from_yahoo_data w t date s2 = (Ok None, s3) ->
    _get_yahoo_current w t s3 = (Ok None, s4) ->
    cascade_run t date st (None, "none") (bump incr_failed s4).

End CascadeRun.

(** ** Notions used to state the properties of the collector *)

(** The values of [exchange_mapping]. *)
Definition exchange_names : list string := ["NYSE"; "NASDAQ"; "AMEX"; "NYSE ARCA"].

(** Every cached exchange is a value of the table. *)
Definition cache_ok (st : State) : Prop :=
  forall t e, ticker_to_exchange st !! t = Some e -> e ∈ exchange_names.

(** A registry endpoint fails: the request raises, the status is not 200, or
    the body does not parse. *)
Definition endpoint_fails (r : HttpResult (list (option RegistryItem))) : Prop :=
  match r with
  | ConnectionError => True
  | Response status_code json => status_code <> 200%Z \/ json = None
  end.

(** The loop invariant of the collection: the small-cap list is the
    all-events list filtered by the small-cap test, and every row has an
    exchange of the target set and consistent market-cap fields. *)
Definition row_ok (target_exchanges : list string) (e : Filing) : Prop :=
  exchange e ∈ target_exchanges /\ cap_iff_source e.

Definition collected (target_exchanges : list string) (max_market_cap : float)
    (acc : SECDelistingScraperOptimized.Acc) : Prop :=
  SECDelistingScraperOptimized.filings_with_market_cap acc
  = List.filter (is_small_cap max_market_cap) (SECDelistingScraperOptimized.all_filings acc)
  /\ Forall (row_ok target_exchanges) (SECDelistingScraperOptimized.all_filings acc).

(** Later, by the order in which the [filing_date] column is sorted. *)
Definition date_lt (a b : Filing) : Prop :=
  String.ltb (filing_date a) (filing_date b) = true.

Definition date_le (a b : Filing) : Prop :=
  String.leb (filing_date a) (filing_date b) = true.

(** All three configured registry endpoints fail when they are asked, one
    after the other, from state [st] on. *)
Definition registry_unavailable (w : World) (st : State) : Prop :=
  forall k url,
    SECDelistingScraperOptimized.endpoints !! k = Some url ->
    endpoint_fails (sec_get w (clock st + k) url).

(** [a < b] on datetimes. *)
Definition datetime_ltb (a b : datetime) : bool := negb (datetime_leb b a).

Definition is_digit (c : ascii) : bool :=
  match digit c with
  | Some _ => true
  | None => false
  end.

(** A date written as YYYY-MM-DD with every field zero-padded, the form in
    which the filing source gives its dates. *)
Definition iso_date (s : string) : bool :=
  match list_ascii_of_string s with
  | [c0; c1; c2; c3; h1; c5; c6; h2; c8; c9] =>
      is_digit c0 && is_digit c1 && is_digit c2 && is_digit c3
      && Ascii.eqb h1 "-" && is_digit c5 && is_digit c6
      && Ascii.eqb h2 "-" && is_digit c8 && is_digit c9
  | _ => false
  end.

(** From [st] to [st'] the fmp-working flag stayed cleared, no request went
    to the secondary API and strategy 2 was not entered. *)
Definition fmp_silent (st st' : State) : Prop :=
  fmp_api_working st' = false
  /\ exists evs, log st' = log st ++ evs
       /\ fmp_requests evs = [] /\ "fmp_api" ∉ strategy_names evs.

(** ** Sample worlds *)

(** One company whose history holds one Form 25 and one annual report. *)
Definition sample_registry : list (option RegistryItem) :=
  [ Some {| cik_str := 1; item_ticker := "ABCD"; item_title := "Acme Corp" |} ].

Definition sample_recent : Recent :=
  {| form := ["25"; "10-K"];
     filingDate := ["2020-06-15"; "2020-01-01"];
     accessionNumber := ["0000000001-20-000001"; "0000000001-20-000002"];
     primaryDocument := ["form25.xml"; "annual.htm"] |}.

Definition sample_submissions : Submissions :=
  {| filings := Some (Some sample_recent) |}.

(** A world in which a ticker closes at [price] on every window, has
    [shares] shares outstanding and is listed under the code [code]; the
    secondary API answers [fmp]; the first registry endpoint is down and the
    second one serves [sample_registry]. *)
Definition world_with (price shares : float) (code : string)
    (fmp : HttpResult FmpJson) : World :=
  {| yf_history := fun _ _ _ _ => Some [price];
     yf_info := fun _ _ =>
       Some (<["sharesOutstanding" := PyNum shares]> (<["exchange" := PyStr code]> ∅));
     fmp_get := fun _ _ => fmp;
     sec_get := fun n _ =>
       if Nat.eqb n 0 then ConnectionError else Response 200 (Some sample_registry);
     sec_submissions := fun _ _ => Some sample_submissions |}.

(** The 60-day window is empty and only the 90-day window has prices:
    strategy 1 misses and strategy 3 answers. *)
Definition world_calculated (code : string) (fmp : HttpResult FmpJson) : World :=
  {| yf_history := fun _ _ _ days =>
       if Nat.eqb days 90 then Some [9%float; 10%float] else Some [];
     yf_info := fun _ _ =>
       Some (<["sharesOutstanding" := PyNum 5000000%float]>
               (<["exchange" := PyStr code]> ∅));
     fmp_get := fun _ _ => fmp;
     sec_get := fun n _ =>
       if Nat.eqb n 0 then ConnectionError else Response 200 (Some sample_registry);
     sec_submissions := fun _ _ => Some sample_submissions |}.

(** Every registry endpoint fails, each in its own way. *)
Definition world_registry_down : World :=
  {| yf_history := fun _ _ _ _ => None;
     yf_info := fun _ _ => None;
     fmp_get := fun _ _ => ConnectionError;
     sec_get := fun n _ =>
       match n with
       | 0 => Response 503 None
       | 1 => Response 200 None
       | _ => ConnectionError
       end;
     sec_submissions := fun _ _ => None |}.

(** A state in which the secondary API is enabled. *)
Definition fresh_enabled : State :=
  {| clock := 0; log := []; fmp_api_working := true;
     stats := OptimizedMarketCapFetcher.stats0;
     ticker_to_exchange := ∅; files := [] |}.

(** The row the collection builds for the Form 25 of the sample company in
    [world_calculated "NMS" _]: 10.0 x 5,000,000 from strategy 3. *)
Definition sample_row : Filing :=
  {| ticker := "ABCD";
     company_name := "Acme Corp";
     cik := "0000000001";
     exchange := "NASDAQ";
     form_type := "25";
     filing_date := "2020-06-15";
     accession_number := "0000000001-20-000001";
     primary_document := "form25.xml";
     market_cap := Some 50000000%float;
     market_cap_source := "calculated" |}.

Definition sample_company : SECDelistingScraperOptimized.CompanyInfo :=
  {| SECDelistingScraperOptimized.info_ticker := "ABCD";
     SECDelistingScraperOptimized.info_title := "Acme Corp";
     SECDelistingScraperOptimized.info_cik := "0000000001" |}.

(** An earlier filing of the sample company. *)
Definition older_row : Filing :=
  {| ticker := "ABCD";
     company_name := "Acme Corp";
     cik := "0000000001";
     exchange := "NASDAQ";
     form_type := "25-NSE";
     filing_date := "2019-03-01";
     accession_number := "0000000001-19-000007";
     primary_document := "form25nse.xml";
     market_cap := None;
     market_cap_source := "none" |}.

(** Whether strategy 1, respectively strategy 3, returns a value for a ticker
    that closes at [price] with [shares] shares outstanding. *)
Definition accepted_by_yahoo_historical (price shares : float) : bool :=
  match fst (OptimizedMarketCapFetcher._get_yahoo_historical
               (world_with price shares "NMS" ConnectionError)
               "ABCD" "2020-06-15" fresh) with
  | Ok (Some _) => true
  | _ => false
  end.

Definition accepted_by_calculated (price shares : float) : bool :=
  match fst (OptimizedMarketCapFetcher._calculate_from_yahoo_data
               (world_with price shares "NMS" ConnectionError)
               "ABCD" "2020-06-15" fresh) with
  | Ok (Some _) => true
  | _ => false
  end.

(** ** Notions used to state further properties *)

(** What a resolver result may be: a value of strategy 1 or 3 lies strictly
    between the two sanity bounds, a value of strategy 2 or 4 is positive,
    and no value comes with ["none"]. *)
Definition value_ok (r : option float * string) : Prop :=
  match r with
  | (Some x, src) =>
      (src = "yahoo_historical" /\ OptimizedMarketCapFetcher.sanity_check x = true)
      \/ (src = "fmp_api" /\ PrimFloat.ltb 0 x = true)
      \/ (src = "calculated" /\ OptimizedMarketCapFetcher.sanity_check x = true)
      \/ (src = "yahoo_current" /\ PrimFloat.ltb 0 x = true)
  | (None, src) => src = "none"
  end.

(** The requests of a log: everything but the strategy entries. *)
Definition is_request (e : Event) : bool :=
  match e with
  | EvStrategy _ => false
  | _ => true
  end.

Definition requests (l : list Event) : list Event := List.filter is_request l.

(** A strategy enters under [name] and then sends some of the requests
    [allowed], in order; the clock counts them. *)
Definition sends (name : string) (allowed : list Event) (st st' : State) : Prop :=
  exists evs, log st' = log st ++ EvStrategy name :: evs
              /\ evs `prefix_of` allowed
              /\ clock st' = clock st + length evs.

(** The entry [get_company_tickers] makes of one registry record. *)
Definition company_key (it : RegistryItem) : string := zfill 10 (pretty (cik_str it)).

Definition company_of (it : RegistryItem) : SECDelistingScraperOptimized.CompanyInfo :=
  {| SECDelistingScraperOptimized.info_ticker := item_ticker it;
     SECDelistingScraperOptimized.info_title := item_title it;
     SECDelistingScraperOptimized.info_cik := company_key it |}.

(** The mapping built from the records of a registry body, in order. *)
Definition registry_of (items : list RegistryItem)
    : list (string * SECDelistingScraperOptimized.CompanyInfo) :=
  fold_left (fun d it => SECDelistingScraperOptimized.dict_set d (company_key it) (company_of it))
    items [].

(** What an endpoint answers with: the records of a 200 response whose body
    parses and whose records are all well formed. *)
Definition endpoint_answer (r : HttpResult (list (option RegistryItem)))
    : option (list RegistryItem) :=
  match r with
  | Response status_code (Some data) =>
      if Z.eqb status_code 200 then mapM id data else None
  | _ => None
  end.

(** The first endpoint of [urls] that answers when they are asked in turn
    from clock [n] on, with its position. *)
Fixpoint first_answer (w : World) (n : nat) (urls : list string)
    : option (nat * list RegistryItem) :=
  match urls with
  | [] => None
  | url :: rest =>
      match endpoint_answer (sec_get w n url) with
      | Some items => Some (0, items)
      | None =>
          match first_answer w (S n) rest with
          | Some (k, items) => Some (S k, items)
          | None => None
          end
      end
  end.

(** The record that decides the entry of its key: no later record of the
    body has the same key. *)
Definition last_of_key (items : list RegistryItem) (it : RegistryItem) : Prop :=
  exists l1 l2, items = l1 ++ it :: l2
                /\ Forall (fun it' => company_key it' <> company_key it) l2.

(** The URL of the filing history of a company. *)
Definition submissions_url (c : string) : string :=
  SECDelistingScraperOptimized.base_url +:+ "/submissions/CIK" +:+ c +:+ ".json".

(** The filing histories requested in a log, in order. *)
Definition submission_request (e : Event) : option string :=
  match e with
  | EvSubmissions url => Some url
  | _ => None
  end.

Definition submission_requests (l : list Event) : list string := omap submission_request l.

(** The number of rows whose source is [src]. *)
Definition count_source (src : string) (rows : list Filing) : Z :=
  Z.of_nat (length (List.filter (fun e => String.eqb (market_cap_source e) src) rows)).

(** The counters [s] are the counters [s0] plus one resolution per row of
    [rows], counted under the source of the row. *)
Definition stats_tally (s0 : Stats) (rows : list Filing) (s : Stats) : Prop :=
  total s = (total s0 + Z.of_nat (length rows))%Z
  /\ yahoo_historical s = (yahoo_historical s0 + count_source "yahoo_historical" rows)%Z
  /\ fmp_api s = (fmp_api s0 + count_source "fmp_api" rows)%Z
  /\ calculated s = (calculated s0 + count_source "calculated" rows)%Z
  /\ yahoo_current s = (yahoo_current s0 + count_source "yahoo_current" rows)%Z
  /\ failed s = (failed s0 + count_source "none" rows)%Z.

(** The two files [save_to_csv] writes for a list of rows; none for an
    empty list. *)
Definition csv_files (rows : list Filing) (output_file : string) : list (string * Csv) :=
  match rows with
  | [] => []
  | _ :: _ =>
      let kept := SECDelistingScraperOptimized.drop_duplicates
                    (SECDelistingScraperOptimized.sort_values
                       SECDelistingScraperOptimized.date_desc rows) in
      [ (output_file, CsvRows kept);
        (replace ".csv" "_symbols_only.csv" output_file,
         CsvTickers (SECDelistingScraperOptimized.sort_values String.leb (map ticker kept))) ]
  end.

(** The state after one request [e] that changes nothing else. *)
Definition after_request (e : Event) (st : State) : State :=
  {| clock := S (clock st); log := log st ++ [e];
     fmp_api_working := fmp_api_working st; stats := stats st;
     ticker_to_exchange := ticker_to_exchange st; files := files st |}.

(** An entry of a filing history that the collection passes over: it is
    not a Form 25, or its date lies outside the range. *)
Definition passed_over (start_dt end_dt : datetime) (recent : Recent) (i : nat) : Prop :=
  exists f d,
    form recent !! i = Some f
    /\ filingDate recent !! i = Some d
    /\ (f ∉ ["25"; "25-NSE"]
        \/ exists dt, strptime d = Some dt
                      /\ datetime_leb start_dt dt && datetime_leb dt end_dt = false).

(** A filing history with nothing to collect: the request failed, the
    document has no filings, or every entry is passed over. *)
Definition nothing_to_collect (start_dt end_dt : datetime) (r : option Submissions) : Prop :=
  match r with
  | Some {| filings := Some (Some recent) |} =>
      forall i, i < length (form recent) -> passed_over start_dt end_dt recent i
  | _ => True
  end.

(** An entry the collection cannot read: its date is missing, or it is a
    Form 25 whose date does not parse. The exception it raises. *)
Definition malformed (recent : Recent) (i : nat) (e : Exn) : Prop :=
  exists f,
    form recent !! i = Some f
    /\ ((filingDate recent !! i = None /\ e = IndexError)
        \/ (f ∈ ["25"; "25-NSE"]
            /\ (exists d, filingDate recent !! i = Some d /\ strptime d = None)
            /\ e = ValueError)).

Section RowNotions.

Import OptimizedMarketCapFetcher SECDelistingScraperOptimized.

Variable w : World.
Variable fmp_api_key : option string.
Variable target_exchanges : list string.

(** Everything a round of the inner loop establishes about the row it
    appends. *)
Record appended (start_dt end_dt : datetime) (c : string) (ci : CompanyInfo)
    (recent : Recent) (i : nat) (st st' : State) (e : Filing) : Prop := {
  app_ticker : ticker e = info_ticker ci;
  app_name : company_name e = info_title ci;
  app_cik : cik e = c;
  app_form : form recent !! i = Some (form_type e);
  app_form25 : form_type e ∈ ["25"; "25-NSE"];
  app_date : filingDate recent !! i = Some (filing_date e);
  app_range : exists dt, strptime (filing_date e) = Some dt
                         /\ datetime_leb start_dt dt = true
                         /\ datetime_leb dt end_dt = true;
  app_accession : accessionNumber recent !! i = Some (accession_number e);
  app_document : primaryDocument recent !! i = Some (primary_document e);
  app_exchange : exchange e ∈ target_exchanges;
  app_resolved : exists s1 r,
      _get_ticker_exchange w (info_ticker ci) st = (Ok (Some (exchange e)), s1)
      /\ get_market_cap w fmp_api_key (info_ticker ci) (filing_date e) (info_title ci) s1
         = (Ok r, st')
      /\ market_cap e = fst r /\ market_cap_source e = snd r
}.

(** Where a row of the collection comes from: a Form 25 entry, dated within
    the range, of the filing history of a company of the registry [m]. *)
Record row_origin (sd ed : datetime) (m : list (string * CompanyInfo)) (e : Filing)
    : Prop := {
  origin_form : form_type e ∈ ["25"; "25-NSE"];
  origin_date : exists dt, strptime (filing_date e) = Some dt
                           /\ datetime_leb sd dt = true
                           /\ datetime_leb dt ed = true;
  origin_company : exists ci, (cik e, ci) ∈ m
                              /\ ticker e = info_ticker ci
                              /\ company_name e = info_title ci;
  origin_entry : exists n recent i,
      sec_submissions w n (submissions_url (cik e))
      = Some {| filings := Some (Some recent) |}
      /\ form recent !! i = Some (form_type e)
      /\ filingDate recent !! i = Some (filing_date e)
      /\ accessionNumber recent !! i = Some (accession_number e)
      /\ primaryDocument recent !! i = Some (primary_document e);
  origin_exchange : exchange e ∈ target_exchanges;
  origin_value : value_ok (market_cap e, market_cap_source e)
}.

End RowNotions.

(** A step that leaves the counters and the files alone and only adds to
    the exchange cache. *)
Definition quiet (st st' : State) : Prop :=
  stats st' = stats st
  /\ files st' = files st
  /\ forall t e, ticker_to_exchange st !! t = Some e -> ticker_to_exchange st' !! t = Some e.

(** ** The summaries printed at the end of a run *)

(** The numbers [print_stats] prints, [None] when it returns without
    printing; the line of the secondary API is printed only with a key. The
    percentages derived from these numbers and the layout are left out. *)
Record StatsReport := {
  shown_total : Z;
  shown_successful : Z;
  shown_failed : Z;
  shown_yahoo_historical : Z;
  shown_fmp_api : option Z;
  shown_calculated : Z;
  shown_yahoo_current : Z
}.

Definition print_stats (fmp_api_key : option string) (s : Stats) : option StatsReport :=
  let total' := total s in
  if Z.eqb total' 0 then None else
  let successful := (total' - failed s)%Z in
  Some {| shown_total := total';
          shown_successful := successful;
          shown_failed := failed s;
          shown_yahoo_historical := yahoo_historical s;
          shown_fmp_api :=
            if OptimizedMarketCapFetcher.key_supplied fmp_api_key
            then Some (fmp_api s) else None;
          shown_calculated := calculated s;
          shown_yahoo_current := yahoo_current s |}.

(** [f.get('market_cap') is not None] *)
Definition has_market_cap (f : Filing) : bool :=
  match market_cap f with
  | Some _ => true
  | None => false
  end.

(** The numbers [print_summary] prints, [None] when it returns without
    printing; percentages and layout are left out. *)
Record Summary := {
  summary_total : Z;
  confirmed_small_caps : Z;
  stocks_with_market_cap : Z;
  unknown_market_cap : Z;
  confirmed_large_caps : Z
}.

Definition print_summary (all_filings small_cap_filings : list Filing) : option Summary :=
  let total' := Z.of_nat (length all_filings) in
  if Z.eqb total' 0 then None else
  let confirmed_small_caps' := Z.of_nat (length small_cap_filings) in
  let stocks_with_market_cap' :=
    Z.of_nat (length (List.filter has_market_cap all_filings)) in
  let unknown_market_cap' := (total' - stocks_with_market_cap')%Z in
  let confirmed_large_caps' := (stocks_with_market_cap' - confirmed_small_caps')%Z in
  Some {| summary_total := total';
          confirmed_small_caps := confirmed_small_caps';
          stocks_with_market_cap := stocks_with_market_cap';
          unknown_market_cap := unknown_market_cap';
          confirmed_large_caps := confirmed_large_caps' |}.

(** A row with a market cap that is not below the threshold. *)
Definition at_or_above (max_market_cap : float) (f : Filing) : bool :=
  has_market_cap f && negb (is_small_cap max_market_cap f).

(** ** Further sample worlds *)

(** A registry body that lists one company twice, under two tickers, around
    another company. *)
Definition dual_registry : list (option RegistryItem) :=
  [ Some {| cik_str := 1; item_ticker := "ABCD"; item_title := "Acme Corp" |};
    Some {| cik_str := 2; item_ticker := "WXYZ"; item_title := "Wexford Inc" |};
    Some {| cik_str := 1; item_ticker := "ABCD-W"; item_title := "Acme Corp Warrants" |} ].

Definition world_dual_listing : World :=
  {| yf_history := fun _ _ _ _ => None;
     yf_info := fun _ _ => None;
     fmp_get := fun _ _ => ConnectionError;
     sec_get := fun _ _ => Response 200 (Some dual_registry);
     sec_submissions := fun _ _ => None |}.

(** A filing history whose Form 25 carries a date in another format. *)
Definition recent_bad_date : Recent :=
  {| form := ["10-K"; "25"];
     filingDate := ["2020-01-01"; "June 15, 2020"];
     accessionNumber := ["0000000001-20-000002"; "0000000001-20-000001"];
     primaryDocument := ["annual.htm"; "form25.xml"] |}.

Definition world_bad_date : World :=
  {| yf_history := fun _ _ _ _ => Some [10%float];
     yf_info := fun _ _ =>
       Some (<["sharesOutstanding" := PyNum 5000000%float]>
               (<["exchange" := PyStr "NMS"]> ∅));
     fmp_get := fun _ _ => ConnectionError;
     sec_get := fun _ _ => Response 200 (Some sample_registry);
     sec_submissions := fun _ _ => Some {| filings := Some (Some recent_bad_date) |} |}.

(** The secondary API answers the validation request with a quote. *)
Definition world_fmp_quote : World :=
  world_calculated "NMS"
    (Response 200 (Some (FmpList [ <["marketCap" := PyNum 3000000000000%float]> ∅ ]))).

(** ** Proof automation for the monadic code *)

Ltac reduce_m :=
  cbv beta iota zeta delta [bind try_except ret raise emit external lift_option update_stats
    set_fmp_api_working cache_store get_state py_gt0 py_float OptimizedMarketCapFetcher.stock_history
    OptimizedMarketCapFetcher.stock_info bump
    fst snd clock log fmp_api_working stats ticker_to_exchange files] in *.

Ltac destruct_inner x :=
  lazymatch x with
  | context [match ?y with _ => _ end] => destruct_inner y
  | _ => destruct x eqn:?
  end.

Ltac crunch :=
  reduce_m;
  repeat (match goal with
          | |- context [match ?x with _ => _ end] => destruct_inner x; reduce_m
          end).

Ltac solve_log :=
  repeat rewrite <- app_assoc; cbn [app];
  eexists; repeat split; reflexivity.

Ltac solve_step :=
  eexists _, _; split; [reflexivity |];
  constructor; cbn [clock log fmp_api_working stats ticker_to_exchange files];
  try reflexivity; try solve_log; try congruence.

Ltac not_in_list :=
  let H := fresh in
  intros H;
  repeat (apply elem_of_cons in H as [H | H]; [discriminate H |]);
  first [ apply elem_of_nil in H; exact H | idtac ].

(** ** Properties of the strategies and of the cascade *)

Section FetcherFacts.

Import OptimizedMarketCapFetcher.

Variable w : World.
Variable fmp_api_key : option string.

Lemma yahoo_historical_step t d st :
  exists r st', _get_yahoo_historical w t d st = (Ok r, st')
                /\ yahoo_step "yahoo_historical" st st'.
Proof. unfold _get_yahoo_historical. crunch; solve_step. Qed.

Lemma calculated_step t d st :
  exists r st', _calculate_from_yahoo_data w t d st = (Ok r, st')
                /\ yahoo_step "calculated" st st'.
Proof. unfold _calculate_from_yahoo_data. crunch; solve_step. Qed.

Lemma yahoo_current_step t st :
  exists r st', _get_yahoo_current w t st = (Ok r, st')
                /\ yahoo_step "yahoo_current" st st'.
Proof. unfold _get_yahoo_current. crunch; solve_step. Qed.

Lemma fmp_step t d st :
  exists r st', _get_from_fmp w fmp_api_key t d st = (Ok r, st')
                /\ strategy_step "fmp_api" st st'.
Proof. unfold _get_from_fmp. crunch; solve_step. Qed.

Lemma bind_ok {A B} (m : M A) (k : A -> M B) st a st' :
  m st = (Ok a, st') -> bind m k st = k a st'.
Proof. intros H. unfold bind. rewrite H. reflexivity. Qed.

Lemma update_stats_run f st : update_stats f st = (Ok tt, bump f st).
Proof. reflexivity. Qed.

Lemma fmp_if_enabled_step t d st :
  exists r st', fmp_if_enabled w fmp_api_key t d st = (Ok r, st')
    /\ (if key_supplied fmp_api_key && fmp_api_working st
        then strategy_step "fmp_api" st st'
        else st' = st /\ r = None).
Proof.
  unfold fmp_if_enabled. destruct (key_supplied fmp_api_key && fmp_api_working st).
  - apply fmp_step.
  - eauto.
Qed.

Lemma get_market_cap_run t d c st :
  exists r st', get_market_cap w fmp_api_key t d c st = (Ok r, st') /\ cascade_run w fmp_api_key t d st r st'.
Proof.
  unfold get_market_cap.
  destruct (yahoo_historical_step t d (bump incr_total st)) as (r1 & s1 & E1 & _).
  erewrite bind_ok by apply update_stats_run.
  erewrite bind_ok by exact E1.
  destruct r1 as [x|].
  { eexists _, _. split; [reflexivity|]. eapply run_yahoo_historical; eauto. }
  destruct (fmp_if_enabled_step t d s1) as (r2 & s2 & E2 & _).
  erewrite bind_ok by reflexivity.
  assert (E2' : (if key_supplied fmp_api_key && fmp_api_working s1
                 then _get_from_fmp w fmp_api_key t d else ret None) s1 = (Ok r2, s2)).
  { revert E2. unfold fmp_if_enabled.
    destruct (key_supplied fmp_api_key && fmp_api_working s1); auto. }
  erewrite bind_ok by exact E2'.
  destruct r2 as [x|].
  { eexists _, _. split; [reflexivity|]. eapply run_fmp_api; eauto. }
  destruct (calculated_step t d s2) as (r3 & s3 & E3 & _).
  erewrite bind_ok by exact E3.
  destruct r3 as [x|].
  { eexists _, _. split; [reflexivity|]. eapply run_calculated; eauto. }
  destruct (yahoo_current_step t s3) as (r4 & s4 & E4 & _).
  erewrite bind_ok by exact E4.
  destruct r4 as [x|].
  { eexists _, _. split; [reflexivity|]. eapply run_yahoo_current; eauto. }
  eexists _, _. split; [reflexivity|]. eapply run_failed; eauto.
Qed.

Lemma get_market_cap_refines t d c st :
  get_market_cap w fmp_api_key t d c st =
  (update_stats incr_total ;;;
   let* r := first_success (cascade w fmp_api_key t d) in
   record_outcome r) st.
Proof.
  unfold get_market_cap, cascade, first_success, record_outcome, fmp_if_enabled.
  reduce_m.
  repeat (match goal with
          | |- context [match ?x with _ => _ end] => destruct_inner x; reduce_m; cbn [String.eqb Ascii.eqb Bool.eqb]
          end); reflexivity.
Qed.

Lemma yahoo_historical_stats_indep t d f st :
  fst (_get_yahoo_historical w t d (bump f st)) = fst (_get_yahoo_historical w t d st).
Proof.
  unfold _get_yahoo_historical. crunch; try reflexivity; try congruence.
Qed.

Lemma yahoo_historical_inv t d st r st' :
  _get_yahoo_historical w t d st = (r, st') ->
  (exists v, r = Ok v) /\ yahoo_step "yahoo_historical" st st'.
Proof.
  intros H. destruct (yahoo_historical_step t d st) as (v & s & E & Y).
  rewrite E in H. inversion H; subst. eauto.
Qed.

Lemma calculated_inv t d st r st' :
  _calculate_from_yahoo_data w t d st = (r, st') ->
  (exists v, r = Ok v) /\ yahoo_step "calculated" st st'.
Proof.
  intros H. destruct (calculated_step t d st) as (v & s & E & Y).
  rewrite E in H. inversion H; subst. eauto.
Qed.

Lemma yahoo_current_inv t st r st' :
  _get_yahoo_current w t st = (r, st') ->
  (exists v, r = Ok v) /\ yahoo_step "yahoo_current" st st'.
Proof.
  intros H. destruct (yahoo_current_step t st) as (v & s & E & Y).
  rewrite E in H. inversion H; subst. eauto.
Qed.

Lemma fmp_if_enabled_inv t d st r st' :
  fmp_if_enabled w fmp_api_key t d st = (r, st') ->
  (key_supplied fmp_api_key && fmp_api_working st = true /\ strategy_step "fmp_api" st st')
  \/ (key_supplied fmp_api_key && fmp_api_working st = false /\ st' = st /\ r = Ok None).
Proof.
  intros H. destruct (fmp_if_enabled_step t d st) as (v & s & E & Y).
  rewrite E in H. inversion H; subst.
  destruct (key_supplied fmp_api_key && fmp_api_working st); [left | right]; auto.
  destruct Y; subst; auto.
Qed.

Lemma strategy_names_app l1 l2 :
  strategy_names (l1 ++ l2) = strategy_names l1 ++ strategy_names l2.
Proof. apply omap_app. Qed.

Lemma fmp_requests_app l1 l2 :
  fmp_requests (l1 ++ l2) = fmp_requests l1 ++ fmp_requests l2.
Proof. apply omap_app. Qed.

Lemma strategy_names_cons n l :
  strategy_names (EvStrategy n :: l) = n :: strategy_names l.
Proof. reflexivity. Qed.

Lemma cascade_run_log t d st r st' :
  cascade_run w fmp_api_key t d st r st' ->
  exists evs, log st' = log st ++ evs
    /\ strategy_names evs `prefix_of` plan fmp_api_key st
    /\ match fst r with
       | Some _ => last (strategy_names evs) = Some (snd r)
       | None => strategy_names evs = plan fmp_api_key st /\ snd r = "none"
       end.
Proof.
  intros H. unfold plan.
  assert (Hb : forall f s, log (bump f s) = log s) by reflexivity.
  assert (Hg : forall f s, fmp_api_working (bump f s) = fmp_api_working s) by reflexivity.
  inversion H; subst; clear H;
    repeat match goal with
    | E : _get_yahoo_historical _ _ _ _ = _ |- _ =>
        apply yahoo_historical_inv in E; destruct E as [_ [_ _ _ ? (? & ? & ? & _)]]
    | E : _calculate_from_yahoo_data _ _ _ _ = _ |- _ =>
        apply calculated_inv in E; destruct E as [_ [_ _ _ ? (? & ? & ? & _)]]
    | E : _get_yahoo_current _ _ _ = _ |- _ =>
        apply yahoo_current_inv in E; destruct E as [_ [_ _ _ ? (? & ? & ? & _)]]
    | E : fmp_if_enabled _ _ _ _ _ = _ |- _ =>
        apply fmp_if_enabled_inv in E;
        destruct E as [[? [_ _ _ _ (? & ? & ?)]] | (? & ? & ?)]
    end; subst; try discriminate.
  all: repeat match goal with H : log _ = _ |- _ => rewrite Hb in H end.
  all: repeat match goal with H : fmp_api_working _ = _ |- _ => rewrite Hg in H end.
  all: rewrite Hb.
  all: repeat match goal with H : log ?s = _ |- context [log ?s] => rewrite H end.
  all: repeat match goal with H : fmp_api_working ?s = _, G : context [fmp_api_working ?s] |- _ => rewrite H in G end.
  all: repeat match goal with G : _ = ?b |- context [if ?c then _ else _] => rewrite G end.
  all: repeat rewrite <- app_assoc; eexists; split; [reflexivity |].
  all: rewrite ?strategy_names_app, ?strategy_names_cons.
  all: repeat match goal with H : strategy_names _ = [] |- _ => rewrite H end.
  all: cbn [app fst snd last].
  all: split; [eexists; reflexivity | auto].
Qed.

Lemma cascade_run_resolved t d st r st' :
  cascade_run w fmp_api_key t d st r st' -> resolved r.
Proof.
  intros H. inversion H; subst; unfold resolved, strategy_list; cbn [fst snd];
    try reflexivity; set_solver.
Qed.

Lemma cascade_run_stats t d st r st' :
  cascade_run w fmp_api_key t d st r st' ->
  (snd r = "yahoo_historical" /\ stats st' = incr_yahoo_historical (incr_total (stats st)))
  \/ (snd r = "fmp_api" /\ stats st' = incr_fmp_api (incr_total (stats st)))
  \/ (snd r = "calculated" /\ stats st' = incr_calculated (incr_total (stats st)))
  \/ (snd r = "yahoo_current" /\ stats st' = incr_yahoo_current (incr_total (stats st)))
  \/ (snd r = "none" /\ stats st' = incr_failed (incr_total (stats st))).
Proof.
  intros H.
  assert (Hb : forall f s, stats (bump f s) = f (stats s)) by reflexivity.
  inversion H; subst; clear H;
    repeat match goal with
    | E : _get_yahoo_historical _ _ _ _ = _ |- _ =>
        apply yahoo_historical_inv in E; destruct E as [_ [? _ _ _ _]]
    | E : _calculate_from_yahoo_data _ _ _ _ = _ |- _ =>
        apply calculated_inv in E; destruct E as [_ [? _ _ _ _]]
    | E : _get_yahoo_current _ _ _ = _ |- _ =>
        apply yahoo_current_inv in E; destruct E as [_ [? _ _ _ _]]
    | E : fmp_if_enabled _ _ _ _ _ = _ |- _ =>
        apply fmp_if_enabled_inv in E;
        destruct E as [[_ [? _ _ _ _]] | (_ & ? & _)]
    end; subst; cbn [snd]; rewrite !Hb;
    repeat match goal with H : stats ?s = _ |- context [stats ?s] => rewrite H end;
    rewrite ?Hb; auto 10.
Qed.

Lemma fmp_requests_strategy n l :
  fmp_requests (EvStrategy n :: l) = fmp_requests l.
Proof. reflexivity. Qed.

Ltac invert_steps :=
  repeat match goal with
    | E : _get_yahoo_historical _ _ _ _ = _ |- _ =>
        apply yahoo_historical_inv in E; destruct E as [_ [_ _ _ ? (? & ? & ? & ?)]]
    | E : _calculate_from_yahoo_data _ _ _ _ = _ |- _ =>
        apply calculated_inv in E; destruct E as [_ [_ _ _ ? (? & ? & ? & ?)]]
    | E : _get_yahoo_current _ _ _ = _ |- _ =>
        apply yahoo_current_inv in E; destruct E as [_ [_ _ _ ? (? & ? & ? & ?)]]
    end.

Lemma cascade_run_flag_off t d st r st' :
  cascade_run w fmp_api_key t d st r st' ->
  fmp_api_working st = false ->
  fmp_api_working st' = false
  /\ exists evs, log st' = log st ++ evs
       /\ fmp_requests evs = [] /\ "fmp_api" ∉ strategy_names evs.
Proof.
  intros H Hoff.
  assert (Hb : forall f s, log (bump f s) = log s) by reflexivity.
  assert (Hg : forall f s, fmp_api_working (bump f s) = fmp_api_working s) by reflexivity.
  inversion H; subst; clear H; invert_steps; rewrite ?Hb, ?Hg in *;
    repeat match goal with
    | E : fmp_if_enabled _ _ _ _ _ = _ |- _ =>
        apply fmp_if_enabled_inv in E;
        destruct E as [[G _] | (_ & ? & ?)];
        [ exfalso; destruct (key_supplied fmp_api_key); cbn in G; congruence | subst ]
    end; try discriminate.
  all: split; [congruence |].
  all: repeat match goal with H : log ?s = _ |- context [log ?s] => rewrite H end.
  all: repeat rewrite <- app_assoc; eexists; split; [reflexivity |].
  all: rewrite ?strategy_names_app, ?fmp_requests_app, ?strategy_names_cons,
         ?fmp_requests_strategy.
  all: repeat match goal with H : strategy_names _ = [] |- _ => rewrite H end.
  all: repeat match goal with H : fmp_requests _ = [] |- _ => rewrite H end.
  all: cbn [app]; split; [reflexivity | not_in_list].
Qed.

Lemma fmp_disabling_status t d st s j :
  key_supplied fmp_api_key = true ->
  fmp_get w (clock st) (fmp_quote_url t) = Response s j ->
  s = 401%Z \/ s = 429%Z ->
  exists st', _get_from_fmp w fmp_api_key t d st = (Ok None, st') /\ fmp_api_working st' = false.
Proof.
  intros Hk Hr Hs. destruct st as [ck lg fl sts ch fs]; cbn [clock] in Hr.
  unfold _get_from_fmp. reduce_m. rewrite Hk. cbn [negb]. rewrite Hr.
  destruct Hs; subst; cbn; eauto.
Qed.

Lemma fmp_forbidden_status t d st j :
  key_supplied fmp_api_key = true ->
  fmp_get w (clock st) (fmp_quote_url t) = Response 403 j ->
  exists st', _get_from_fmp w fmp_api_key t d st = (Ok None, st')
              /\ fmp_api_working st' = fmp_api_working st.
Proof.
  intros Hk Hr. destruct st as [ck lg fl sts ch fs]; cbn [clock] in Hr.
  unfold _get_from_fmp. reduce_m. rewrite Hk. cbn [negb]. rewrite Hr. cbn. eauto.
Qed.

Lemma get_market_cap_disables t d c st s1 s j :
  _get_yahoo_historical w t d (bump incr_total st) = (Ok None, s1) ->
  key_supplied fmp_api_key && fmp_api_working st = true ->
  fmp_get w (clock s1) (fmp_quote_url t) = Response s j ->
  s = 401%Z \/ s = 429%Z ->
  fmp_api_working (snd (get_market_cap w fmp_api_key t d c st)) = false.
Proof.
  intros E1 G Hr Hs.
  assert (Hg : forall f s, fmp_api_working (bump f s) = fmp_api_working s) by reflexivity.
  apply andb_true_iff in G as [Hk Hf].
  destruct (fmp_disabling_status t d s1 s j Hk Hr Hs) as (s2 & E2 & Hoff).
  assert (Hf1 : fmp_api_working s1 = true).
  { pose proof E1 as E1'. apply yahoo_historical_inv in E1' as [_ [_ _ _ Hfl _]].
    rewrite Hfl, Hg. exact Hf. }
  assert (E2' : fmp_if_enabled w fmp_api_key t d s1 = (Ok None, s2)).
  { unfold fmp_if_enabled. rewrite Hk, Hf1. exact E2. }
  destruct (get_market_cap_run t d c st) as (r' & s' & E & Hrun).
  rewrite E. cbn [snd].
  inversion Hrun; subst; clear Hrun;
    repeat match goal with
    | H1 : ?a = _, H2 : ?a = _ |- _ => rewrite H1 in H2; inversion H2; subst; clear H2
    end; invert_steps; rewrite ?Hg; congruence.
Qed.
End FetcherFacts.

(** ** Loops *)

Lemma for_each_ok_inv {A B} (I : B -> Prop) (body : A -> B -> M B) (l : list A) :
  (forall x acc st acc' st', I acc -> body x acc st = (Ok acc', st') -> I acc') ->
  forall acc st acc' st',
    I acc -> for_each l body acc st = (Ok acc', st') -> I acc'.
Proof.
  intros Hbody. induction l as [| x l IH]; intros acc st acc' st' HI Hrun.
  - inversion Hrun; subst. exact HI.
  - cbn [for_each] in Hrun. unfold bind in Hrun.
    destruct (body x acc st) as [[acc1 | e] st1] eqn:E; [| discriminate].
    eapply IH; [| exact Hrun]. eapply Hbody; eauto.
Qed.

Lemma for_each_state_inv {A B} (J : State -> Prop) (body : A -> B -> M B) (l : list A) :
  (forall x acc st, J st -> J (snd (body x acc st))) ->
  forall acc st, J st -> J (snd (for_each l body acc st)).
Proof.
  intros Hbody. induction l as [| x l IH]; intros acc st HJ.
  - exact HJ.
  - cbn [for_each]. unfold bind.
    specialize (Hbody x acc st HJ).
    destruct (body x acc st) as [[acc1 | e] st1]; cbn [snd] in *; auto.
Qed.

(** ** The collector *)

Section CollectorFacts.

Import OptimizedMarketCapFetcher SECDelistingScraperOptimized.

Variable w : World.
Variable fmp_api_key : option string.
Variable target_exchanges : list string.

Lemma get_market_cap_frame t d c st r st' :
  get_market_cap w fmp_api_key t d c st = (r, st') ->
  (exists v, r = Ok v /\ resolved v)
  /\ ticker_to_exchange st' = ticker_to_exchange st
  /\ files st' = files st.
Proof.
  intros H.
  destruct (get_market_cap_run w fmp_api_key t d c st) as (r' & s' & E & Hrun).
  rewrite E in H. inversion H; subst; clear H.
  split; [eexists; split; [reflexivity | eapply cascade_run_resolved; eauto] |].
  assert (Hc : forall f s, ticker_to_exchange (bump f s) = ticker_to_exchange s) by reflexivity.
  assert (Hf : forall f s, files (bump f s) = files s) by reflexivity.
  inversion Hrun; subst; clear Hrun;
    repeat match goal with
    | E : _get_yahoo_historical _ _ _ _ = _ |- _ =>
        apply yahoo_historical_inv in E; destruct E as [_ [_ ? ? _ _]]
    | E : _calculate_from_yahoo_data _ _ _ _ = _ |- _ =>
        apply calculated_inv in E; destruct E as [_ [_ ? ? _ _]]
    | E : _get_yahoo_current _ _ _ = _ |- _ =>
        apply yahoo_current_inv in E; destruct E as [_ [_ ? ? _ _]]
    | E : fmp_if_enabled _ _ _ _ _ = _ |- _ =>
        apply fmp_if_enabled_inv in E;
        destruct E as [[_ [_ ? ? _ _]] | (_ & ? & _)]
    end; subst; rewrite ?Hc, ?Hf in *; split; congruence.
Qed.

(** *** The exchange cache *)

Lemma exchange_mapping_values raw e :
  exchange_mapping !! raw = Some e -> e ∈ exchange_names.
Proof.
  intros H. unfold exchange_mapping in H.
  apply elem_of_list_to_map_2 in H.
  unfold exchange_names.
  repeat (apply elem_of_cons in H as [H | H]; [inversion H; subst; set_solver |]).
  apply elem_of_nil in H. destruct H.
Qed.

Lemma ticker_exchange_cases t st r st' :
  _get_ticker_exchange w t st = (r, st') ->
  (exists e, ticker_to_exchange st !! t = Some e /\ r = Ok (Some e) /\ st' = st)
  \/ (ticker_to_exchange st !! t = None
      /\ clock st' = S (clock st)
      /\ log st' = log st ++ [EvInfo t]
      /\ fmp_api_working st' = fmp_api_working st
      /\ stats st' = stats st
      /\ files st' = files st
      /\ ((r = Ok None /\ ticker_to_exchange st' = ticker_to_exchange st)
          \/ (exists info raw e,
                yf_info w (clock st) t = Some info
                /\ dict_get_default info "exchange" (PyStr "") = PyStr raw
                /\ exchange_mapping !! upper raw = Some e
                /\ r = Ok (Some e)
                /\ ticker_to_exchange st' = <[t := e]> (ticker_to_exchange st)))).
Proof.
  unfold _get_ticker_exchange. destruct st as [ck lg fl sts ch fs].
  reduce_m. destruct (ch !! t) as [e |] eqn:Hc.
  - intros H; inversion H; subst. left. eauto.
  - intros H. right. split; [reflexivity |].
    revert H. crunch; intros H; inversion H; subst; cbn;
      repeat split; eauto 10.
Qed.

Lemma ticker_exchange_never_raises t st :
  exists r st', _get_ticker_exchange w t st = (Ok r, st').
Proof.
  destruct (_get_ticker_exchange w t st) as [r st'] eqn:E.
  apply ticker_exchange_cases in E
    as [(e & _ & -> & _) | (_ & _ & _ & _ & _ & _ & [[-> _] | (? & ? & e & _ & _ & _ & -> & _)])];
    eauto.
Qed.

(** *** One entry of a filing history *)

Lemma record_filing_collected T e acc :
  row_ok target_exchanges e ->
  collected target_exchanges T acc ->
  collected target_exchanges T (record_filing T e acc).
Proof.
  intros He [Hs Ha]. unfold collected, record_filing; cbn.
  split.
  - rewrite List.filter_app, Hs. cbn [List.filter].
    assert (Hsm : is_small_cap T e
                  = match market_cap e with
                    | Some mc => PrimFloat.ltb mc T
                    | None => false
                    end) by reflexivity.
    rewrite Hsm. destruct (market_cap e) as [mc |].
    + destruct (PrimFloat.ltb mc T); [reflexivity | rewrite app_nil_r; reflexivity].
    + rewrite app_nil_r. reflexivity.
  - apply Forall_app. split; [exact Ha | constructor; [exact He | constructor]].
Qed.

Lemma resolved_cap_iff_source (r : option float * string) :
  resolved r -> is_Some (fst r) <-> snd r <> "none".
Proof.
  unfold resolved, strategy_list. destruct r as [[x |] n]; cbn.
  - intros H. split; [| eauto]. intros _ ->.
    repeat (apply elem_of_cons in H as [H | H]; [discriminate H |]).
    apply elem_of_nil in H. exact H.
  - intros ->. split; [intros [? ?]; discriminate | congruence].
Qed.

(** What one round of the inner loop does when it does not raise: it leaves
    both lists alone, or it appends one row whose exchange is the one just
    resolved, a member of the target set, and whose market-cap fields are
    those the resolver returned. *)
Lemma check_filing_cases start_dt end_dt T c ci recent i acc st acc' st' :
  check_filing w fmp_api_key target_exchanges start_dt end_dt T c ci recent i acc st
    = (Ok acc', st') ->
  (all_filings acc' = all_filings acc
   /\ filings_with_market_cap acc' = filings_with_market_cap acc)
  \/ (exists e s1 r,
        acc' = record_filing T e acc
        /\ _get_ticker_exchange w (info_ticker ci) st = (Ok (Some (exchange e)), s1)
        /\ exchange e ∈ target_exchanges
        /\ get_market_cap w fmp_api_key (info_ticker ci) (filing_date e) (info_title ci) s1
           = (Ok r, st')
        /\ market_cap e = fst r /\ market_cap_source e = snd r
        /\ ticker e = info_ticker ci
        /\ form recent !! i = Some (form_type e)
        /\ filingDate recent !! i = Some (filing_date e)).
Proof.
  unfold check_filing. reduce_m.
  repeat (match goal with
          | |- context [match ?x with _ => _ end] => destruct_inner x; reduce_m
          end);
    intros H; inversion H; subst; clear H; auto.
  right. eexists _, _, _. split; [reflexivity |]. cbn.
  repeat split; eauto.
  match goal with
  | H1 : str_truthy ?x && negb (bool_decide (?x ∈ _)) = false,
    H2 : negb (str_truthy ?x) = false |- _ =>
      apply negb_false_iff in H2; rewrite H2 in H1; cbn [andb] in H1;
      apply negb_false_iff in H1; apply bool_decide_eq_true in H1; exact H1
  end.
Qed.

Lemma check_filing_collected start_dt end_dt T c ci recent i acc st acc' st' :
  collected target_exchanges T acc ->
  check_filing w fmp_api_key target_exchanges start_dt end_dt T c ci recent i acc st
    = (Ok acc', st') ->
  collected target_exchanges T acc'.
Proof.
  intros Hacc H.
  apply check_filing_cases in H
    as [[Ha Hs] | (e & s1 & r & -> & _ & Hex & Hcap & Hm & Hn & _)].
  - destruct Hacc as [H1 H2]. unfold collected. rewrite Ha, Hs. auto.
  - apply record_filing_collected; [| exact Hacc].
    split; [exact Hex |].
    apply get_market_cap_frame in Hcap as [(v & Hv & Hres) _].
    inversion Hv; subst. unfold cap_iff_source. rewrite Hm, Hn.
    apply resolved_cap_iff_source. exact Hres.
Qed.

Lemma check_company_collected start_dt end_dt T entry acc st acc' st' :
  collected target_exchanges T acc ->
  check_company w fmp_api_key target_exchanges start_dt end_dt T entry acc st
    = (Ok acc', st') ->
  collected target_exchanges T acc'.
Proof.
  intros Hacc. unfold check_company, bind.
  destruct (get_submissions_for_cik w entry.1 st) as [[sub | e] s1]; [| discriminate].
  destruct (filings sub) as [[recent |] |].
  - intros H. eapply for_each_ok_inv; [| exact Hacc | exact H].
    intros x a s a' s' Ha Hx. eapply check_filing_collected; eauto.
  - intros H; inversion H; subst; exact Hacc.
  - intros H; inversion H; subst; exact Hacc.
Qed.

Lemma acc0_collected T : collected target_exchanges T acc0.
Proof. split; [reflexivity | constructor]. Qed.

Lemma find_form25_collected start_date end_date T st all small st' :
  find_form25_filings_with_market_cap w fmp_api_key target_exchanges
    start_date end_date T st = (Ok (all, small), st') ->
  small = List.filter (is_small_cap T) all
  /\ Forall (row_ok target_exchanges) all.
Proof.
  unfold find_form25_filings_with_market_cap, bind, lift_option, ret, raise.
  destruct (get_company_tickers w st) as [[m | e] s1]; [| discriminate].
  destruct (strptime start_date) as [sd |]; [| discriminate].
  destruct (strptime end_date) as [ed |]; [| discriminate].
  destruct (for_each m _ acc0 s1) as [[acc | e] s2] eqn:E; [| discriminate].
  intros H; inversion H; subst.
  eapply (for_each_ok_inv (collected target_exchanges T)) in E.
  - exact E.
  - intros x a s a' s' Ha Hx. eapply check_company_collected; eauto.
  - apply acc0_collected.
Qed.

Lemma check_filing_excluded start_dt end_dt T c ci recent i acc st f fd dt r s1 :
  form recent !! i = Some f ->
  f ∈ ["25"; "25-NSE"] ->
  filingDate recent !! i = Some fd ->
  strptime fd = Some dt ->
  datetime_leb start_dt dt && datetime_leb dt end_dt = true ->
  _get_ticker_exchange w (info_ticker ci) st = (Ok r, s1) ->
  match r with
  | Some e => e ∉ target_exchanges
  | None => True
  end ->
  exists acc',
    check_filing w fmp_api_key target_exchanges start_dt end_dt T c ci recent i acc st
      = (Ok acc', s1)
    /\ all_filings acc' = all_filings acc
    /\ filings_with_market_cap acc' = filings_with_market_cap acc.
Proof.
  intros Hf Hin Hfd Hdt Hrange Hex Hr.
  unfold check_filing. reduce_m.
  rewrite Hf, Hfd, (bool_decide_eq_true_2 _ Hin). cbn [negb].
  rewrite Hdt, Hrange. cbn [negb]. rewrite Hex.
  destruct r as [e |].
  - rewrite (bool_decide_eq_false_2 _ Hr). cbn [negb].
    destruct (str_truthy e); cbn [andb negb]; eexists; repeat split.
  - eexists; repeat split.
Qed.

(** *** Cache invariant *)

Lemma cache_ok_ext st st' :
  ticker_to_exchange st' = ticker_to_exchange st -> cache_ok st -> cache_ok st'.
Proof. unfold cache_ok. intros ->. auto. Qed.

Lemma ticker_exchange_cache_ok t st r st' :
  _get_ticker_exchange w t st = (r, st') -> cache_ok st -> cache_ok st'.
Proof.
  intros H Hok.
  apply ticker_exchange_cases in H
    as [(e & _ & _ & ->) | (_ & _ & _ & _ & _ & _ & [[_ Hc] | (info & raw & e & _ & _ & Hm & _ & Hc)])].
  - exact Hok.
  - eapply cache_ok_ext; eauto.
  - intros t' e'. rewrite Hc. intros H.
    apply lookup_insert_Some in H as [[_ <-] | [_ H]].
    + eapply exchange_mapping_values; eauto.
    + eapply Hok; eauto.
Qed.

Lemma get_submissions_frame c st r st' :
  get_submissions_for_cik w c st = (r, st') ->
  (exists v, r = Ok v)
  /\ ticker_to_exchange st' = ticker_to_exchange st
  /\ files st' = files st.
Proof.
  unfold get_submissions_for_cik. destruct st as [ck lg fl sts ch fs].
  crunch; intros H; inversion H; subst; cbn; eauto.
Qed.

Lemma add_companies_pure data acc st r st' :
  for_each data (add_company) acc st = (r, st') -> st' = st.
Proof.
  revert acc. induction data as [| [it |] data IH]; intros acc; cbn [for_each].
  - intros H; inversion H; reflexivity.
  - unfold bind, add_company, ret. apply IH.
  - unfold bind, add_company, raise. intros H; inversion H; reflexivity.
Qed.

Lemma try_endpoint_frame url st r st' :
  try_endpoint w url st = (r, st') ->
  (exists v, r = Ok v)
  /\ clock st' = S (clock st)
  /\ ticker_to_exchange st' = ticker_to_exchange st
  /\ files st' = files st.
Proof.
  unfold try_endpoint. destruct st as [ck lg fl sts ch fs]. reduce_m.
  destruct (sec_get w ck url) as [| code [data |]].
  - intros H; inversion H; subst; cbn; eauto.
  - destruct (Z.eqb code 200).
    + destruct (for_each data add_company [] _) as [[m | e] s1] eqn:E;
        apply add_companies_pure in E; subst;
        intros H; inversion H; subst; cbn; eauto.
    + intros H; inversion H; subst; cbn; eauto.
  - destruct (Z.eqb code 200); intros H; inversion H; subst; cbn; eauto.
Qed.

Lemma try_endpoints_frame urls st r st' :
  try_endpoints w urls st = (r, st') ->
  (exists v, r = Ok v)
  /\ ticker_to_exchange st' = ticker_to_exchange st
  /\ files st' = files st.
Proof.
  revert st. induction urls as [| url urls IH]; intros st; cbn [try_endpoints].
  - intros H; inversion H; subst; eauto.
  - unfold bind. destruct (try_endpoint w url st) as [q s1] eqn:E.
    apply try_endpoint_frame in E as ([v ->] & _ & Hc & Hf).
    destruct v as [m |].
    + intros H; inversion H; subst; eauto.
    + intros H. apply IH in H as (Hv & Hc' & Hf'). rewrite Hc', Hf'. auto.
Qed.

Lemma check_filing_cache_ok start_dt end_dt T c ci recent i acc st :
  cache_ok st ->
  cache_ok (snd (check_filing w fmp_api_key target_exchanges start_dt end_dt T
                   c ci recent i acc st)).
Proof.
  intros Hok. unfold check_filing. reduce_m.
  repeat (match goal with
          | |- context [match ?x with _ => _ end] => destruct_inner x; reduce_m
          end);
    repeat match goal with
    | H : _get_ticker_exchange _ _ _ = _ |- _ =>
        apply ticker_exchange_cache_ok in H; [| assumption]
    | H : get_market_cap _ _ _ _ _ _ = _ |- _ =>
        apply get_market_cap_frame in H as (_ & H & _)
    end;
    try assumption; eapply cache_ok_ext; eauto.
Qed.

Lemma check_company_cache_ok start_dt end_dt T entry acc st :
  cache_ok st ->
  cache_ok (snd (check_company w fmp_api_key target_exchanges start_dt end_dt T
                   entry acc st)).
Proof.
  intros Hok. unfold check_company, bind.
  destruct (get_submissions_for_cik w entry.1 st) as [q s1] eqn:E.
  apply get_submissions_frame in E as ([sub ->] & Hc & _).
  assert (Hok1 : cache_ok s1) by (eapply cache_ok_ext; eauto).
  destruct (filings sub) as [[recent |] |]; cbn [snd]; try exact Hok1.
  apply for_each_state_inv; [| exact Hok1].
  intros x a s Hs. apply check_filing_cache_ok. exact Hs.
Qed.

Lemma find_form25_cache_ok start_date end_date T st :
  cache_ok st ->
  cache_ok (snd (find_form25_filings_with_market_cap w fmp_api_key target_exchanges
                   start_date end_date T st)).
Proof.
  intros Hok.
  unfold find_form25_filings_with_market_cap, bind, lift_option, ret, raise,
    get_company_tickers.
  destruct (try_endpoints w endpoints st) as [q s1] eqn:E.
  apply try_endpoints_frame in E as ([m ->] & Hc & _).
  assert (Hok1 : cache_ok s1) by (eapply cache_ok_ext; eauto).
  destruct (strptime start_date) as [sd |]; [| exact Hok1].
  destruct (strptime end_date) as [ed |]; [| exact Hok1].
  pose proof (for_each_state_inv cache_ok
                (check_company w fmp_api_key target_exchanges sd ed T) m
                (fun x a s Hs => check_company_cache_ok sd ed T x a s Hs)
                acc0 s1 Hok1) as Hloop.
  destruct (for_each m _ acc0 s1) as [[acc | e] s2]; exact Hloop.
Qed.

(** *** The registry *)

Lemma try_endpoint_fails url st :
  endpoint_fails (sec_get w (clock st) url) ->
  exists st', try_endpoint w url st = (Ok None, st')
              /\ clock st' = S (clock st)
              /\ files st' = files st.
Proof.
  unfold try_endpoint, endpoint_fails. destruct st as [ck lg fl sts ch fs]. reduce_m.
  destruct (sec_get w ck url) as [| code json].
  - intros _. eexists. repeat split.
  - intros [Hc | ->].
    + apply Z.eqb_neq in Hc. rewrite Hc. eexists. repeat split.
    + destruct (Z.eqb code 200); eexists; repeat split.
Qed.

Lemma get_company_tickers_unavailable st :
  registry_unavailable w st ->
  exists st', get_company_tickers w st = (Ok [], st') /\ files st' = files st.
Proof.
  intros H. unfold get_company_tickers, endpoints.
  cbn [try_endpoints]. unfold bind.
  destruct (try_endpoint_fails "https://www.sec.gov/files/company_tickers.json" st)
    as (s1 & E1 & C1 & F1).
  { specialize (H 0 _ eq_refl). rewrite Nat.add_0_r in H. exact H. }
  rewrite E1.
  destruct (try_endpoint_fails (base_url +:+ "/files/company_tickers.json") s1)
    as (s2 & E2 & C2 & F2).
  { specialize (H 1 _ eq_refl). rewrite C1. rewrite Nat.add_1_r in H. exact H. }
  rewrite E2.
  destruct (try_endpoint_fails "https://www.sec.gov/files/company_tickers_exchange.json" s2)
    as (s3 & E3 & C3 & F3).
  { specialize (H 2 _ eq_refl). rewrite C2, C1.
    replace (clock st + 2) with (S (S (clock st))) in H by lia. exact H. }
  rewrite E3. exists s3. split; [reflexivity | congruence].
Qed.

Lemma find_form25_unavailable start_date end_date T st :
  registry_unavailable w st ->
  is_Some (strptime start_date) ->
  is_Some (strptime end_date) ->
  exists st',
    find_form25_filings_with_market_cap w fmp_api_key target_exchanges
      start_date end_date T st = (Ok ([], []), st')
    /\ files st' = files st.
Proof.
  intros H [sd Hs] [ed He].
  destruct (get_company_tickers_unavailable st H) as (s1 & E & F).
  unfold find_form25_filings_with_market_cap, bind.
  rewrite E, Hs, He. cbn. eauto.
Qed.

End CollectorFacts.

Section MainFacts.

Import OptimizedMarketCapFetcher SECDelistingScraperOptimized.

Lemma init_without_key w st :
  SECDelistingScraperOptimized.init w None st
  = (Ok tt, {| clock := clock st; log := log st; fmp_api_working := false;
               stats := stats0; ticker_to_exchange := ∅; files := files st |}).
Proof. reflexivity. Qed.

Lemma main_unavailable w output_dir st :
  registry_unavailable w st ->
  exists st', main w output_dir st = (Ok tt, st') /\ files st' = files st.
Proof.
  intros H. unfold main, FMP_API_KEY.
  erewrite bind_ok by apply init_without_key.
  destruct (find_form25_unavailable w None
              (resolve_target_exchanges (Some TARGET_EXCHANGES))
              START_DATE END_DATE MAX_MARKET_CAP
              {| clock := clock st; log := log st; fmp_api_working := false;
                 stats := stats0; ticker_to_exchange := ∅; files := files st |})
    as (s1 & E & F).
  { exact H. }
  { eexists; vm_compute; reflexivity. }
  { eexists; vm_compute; reflexivity. }
  erewrite bind_ok by exact E. cbn [fst].
  exists s1. split; [reflexivity | exact F].
Qed.

End MainFacts.

(** ** Steps of a run *)

Section RunFacts.

Import OptimizedMarketCapFetcher SECDelistingScraperOptimized.

Variable w : World.
Variable fmp_api_key : option string.

Lemma fmp_silent_refl st : fmp_api_working st = false -> fmp_silent st st.
Proof.
  intros H. split; [exact H |]. exists []. rewrite app_nil_r.
  split; [reflexivity |]. split; [reflexivity | apply not_elem_of_nil].
Qed.

Lemma fmp_silent_trans s1 s2 s3 : fmp_silent s1 s2 -> fmp_silent s2 s3 -> fmp_silent s1 s3.
Proof.
  intros (_ & e1 & L1 & F1 & N1) (H & e2 & L2 & F2 & N2).
  split; [exact H |]. exists (e1 ++ e2).
  rewrite L2, L1, <- app_assoc, fmp_requests_app, strategy_names_app, F1, F2.
  split; [reflexivity |]. split; [reflexivity |]. apply not_elem_of_app; auto.
Qed.

(** A step that only appends calls to other services. *)
Lemma fmp_silent_other st st' evs :
  fmp_api_working st = false ->
  fmp_api_working st' = fmp_api_working st ->
  log st' = log st ++ evs ->
  fmp_requests evs = [] -> strategy_names evs = [] ->
  fmp_silent st st'.
Proof.
  intros Hoff Hf Hl Hr Hn. split; [congruence |]. exists evs.
  split; [exact Hl |]. split; [exact Hr |]. rewrite Hn. apply not_elem_of_nil.
Qed.

Lemma get_market_cap_silent t d c st r st' :
  get_market_cap w fmp_api_key t d c st = (r, st') ->
  fmp_api_working st = false ->
  fmp_silent st st'.
Proof.
  intros H Hoff.
  destruct (get_market_cap_run w fmp_api_key t d c st) as (r' & s' & E & Hrun).
  rewrite E in H. inversion H; subst.
  eapply cascade_run_flag_off; eauto.
Qed.

Lemma get_market_cap_stats t d c st r st' :
  get_market_cap w fmp_api_key t d c st = (r, st') ->
  stats_balanced (stats st) -> stats_balanced (stats st').
Proof.
  intros H Hbal.
  destruct (get_market_cap_run w fmp_api_key t d c st) as (r' & s' & E & Hrun).
  rewrite E in H. inversion H; subst.
  apply cascade_run_stats in Hrun. unfold stats_balanced in *.
  destruct Hrun as [[_ ->] | [[_ ->] | [[_ ->] | [[_ ->] | [_ ->]]]]]; cbn; lia.
Qed.

Lemma get_submissions_quiet c st r st' :
  get_submissions_for_cik w c st = (r, st') ->
  fmp_api_working st' = fmp_api_working st
  /\ stats st' = stats st
  /\ exists url, log st' = log st ++ [EvSubmissions url].
Proof.
  unfold get_submissions_for_cik. destruct st as [ck lg fl sts ch fs].
  crunch; intros H; inversion H; subst; cbn; eauto.
Qed.

Lemma try_endpoints_quiet urls st r st' :
  try_endpoints w urls st = (r, st') ->
  fmp_api_working st' = fmp_api_working st
  /\ stats st' = stats st
  /\ exists evs, log st' = log st ++ evs
       /\ fmp_requests evs = [] /\ strategy_names evs = [].
Proof.
  revert st. induction urls as [| url urls IH]; intros st; cbn [try_endpoints].
  - intros H; inversion H; subst. repeat split. exists []. rewrite app_nil_r. auto.
  - unfold bind. destruct (try_endpoint w url st) as [q s1] eqn:E.
    assert (Hs1 : fmp_api_working s1 = fmp_api_working st
                  /\ stats s1 = stats st
                  /\ log s1 = log st ++ [EvSecGet url]).
    { revert E. unfold try_endpoint. destruct st as [ck lg fl sts ch fs]. reduce_m.
      destruct (sec_get w ck url) as [| code [data |]].
      - intros H; inversion H; subst; cbn; auto.
      - destruct (Z.eqb code 200).
        + destruct (for_each data add_company [] _) as [[mp | e] s2] eqn:E;
            apply add_companies_pure in E; subst;
            intros H; inversion H; subst; cbn; auto.
        + intros H; inversion H; subst; cbn; auto.
      - destruct (Z.eqb code 200); intros H; inversion H; subst; cbn; auto. }
    destruct Hs1 as (Hf1 & Hst1 & Hl1).
    assert (Hhere : fmp_api_working s1 = fmp_api_working st
                    /\ stats s1 = stats st
                    /\ exists evs, log s1 = log st ++ evs
                         /\ fmp_requests evs = [] /\ strategy_names evs = []).
    { split; [exact Hf1 |]. split; [exact Hst1 |]. exists [EvSecGet url]. auto. }
    destruct q as [[mp |] | e].
    + intros H; inversion H; subst. exact Hhere.
    + intros H. apply IH in H as (Hf & Hst & evs & Hl & Hr & Hn).
      split; [congruence |]. split; [congruence |].
      exists (EvSecGet url :: evs). rewrite Hl, Hl1, <- app_assoc.
      split; [reflexivity |]. split; assumption.
    + intros H; inversion H; subst. exact Hhere.
Qed.

Lemma run_steps_trans s1 s2 s3 :
  run_steps w fmp_api_key s1 s2 -> run_steps w fmp_api_key s2 s3 ->
  run_steps w fmp_api_key s1 s3.
Proof.
  intros H12 H23. induction H12 as [st | st t d c r s1 s2 Hc _ IH
                                   | st t r s1 s2 Hc _ IH | st c r s1 s2 Hc _ IH].
  - exact H23.
  - eapply run_steps_resolve; eauto.
  - eapply run_steps_lookup; eauto.
  - eapply run_steps_fetch; eauto.
Qed.

Lemma run_steps_silent st st' :
  run_steps w fmp_api_key st st' ->
  fmp_api_working st = false ->
  fmp_silent st st'.
Proof.
  induction 1 as [st | st t d c r s1 s2 Hc _ IH | st t r s1 s2 Hc _ IH
                 | st c r s1 s2 Hc _ IH]; intros Hoff.
  - apply fmp_silent_refl. exact Hoff.
  - pose proof (get_market_cap_silent _ _ _ _ _ _ Hc Hoff) as Hs.
    eapply fmp_silent_trans; [exact Hs |]. apply IH. apply Hs.
  - assert (Hs : fmp_silent st s1).
    { apply ticker_exchange_cases in Hc
        as [(e & _ & _ & ->) | (_ & _ & Hl & Hf & _)].
      - apply fmp_silent_refl. exact Hoff.
      - eapply fmp_silent_other; eauto. }
    eapply fmp_silent_trans; [exact Hs |]. apply IH. apply Hs.
  - assert (Hs : fmp_silent st s1).
    { apply get_submissions_quiet in Hc as (Hf & _ & url & Hl).
      eapply fmp_silent_other; eauto. }
    eapply fmp_silent_trans; [exact Hs |]. apply IH. apply Hs.
Qed.

Lemma run_steps_balanced st st' :
  run_steps w fmp_api_key st st' ->
  stats_balanced (stats st) -> stats_balanced (stats st').
Proof.
  induction 1 as [st | st t d c r s1 s2 Hc _ IH | st t r s1 s2 Hc _ IH
                 | st c r s1 s2 Hc _ IH]; intros Hbal.
  - exact Hbal.
  - apply IH. eapply get_market_cap_stats; eauto.
  - apply IH.
    apply ticker_exchange_cases in Hc
      as [(e & _ & _ & ->) | (_ & _ & _ & _ & Hs & _)]; [exact Hbal |].
    rewrite Hs. exact Hbal.
  - apply IH. apply get_submissions_quiet in Hc as (_ & Hs & _).
    rewrite Hs. exact Hbal.
Qed.

(** *** The collection is made of such steps *)

Section Collection.

Variable target_exchanges : list string.

Lemma check_filing_steps start_dt end_dt T c ci recent i acc st :
  run_steps w fmp_api_key st
    (snd (check_filing w fmp_api_key target_exchanges start_dt end_dt T
            c ci recent i acc st)).
Proof.
  unfold check_filing. reduce_m.
  repeat (match goal with
          | |- context [match ?x with _ => _ end] => destruct_inner x; reduce_m
          end);
    repeat match goal with
           | H : _get_ticker_exchange _ _ ?s = _ |- run_steps _ _ ?s _ =>
               apply (run_steps_lookup _ _ _ _ _ _ _ H)
           | H : get_market_cap _ _ _ _ _ ?s = _ |- run_steps _ _ ?s _ =>
               apply (run_steps_resolve _ _ _ _ _ _ _ _ _ H)
           end;
    apply run_steps_nil.
Qed.

Lemma check_company_steps start_dt end_dt T entry acc st :
  run_steps w fmp_api_key st
    (snd (check_company w fmp_api_key target_exchanges start_dt end_dt T entry acc st)).
Proof.
  unfold check_company, bind.
  destruct (get_submissions_for_cik w entry.1 st) as [q s1] eqn:E.
  eapply run_steps_fetch; [exact E |].
  destruct q as [sub | e]; [| apply run_steps_nil].
  destruct (filings sub) as [[recent |] |]; cbn [snd]; try apply run_steps_nil.
  apply (for_each_state_inv (run_steps w fmp_api_key s1)); [| apply run_steps_nil].
  intros x a s Hs. eapply run_steps_trans; [exact Hs |]. apply check_filing_steps.
Qed.

Lemma find_form25_steps start_date end_date T st :
  exists s1,
    fst (get_company_tickers w st) <> Raise ValueError
    /\ s1 = snd (get_company_tickers w st)
    /\ run_steps w fmp_api_key s1
         (snd (find_form25_filings_with_market_cap w fmp_api_key target_exchanges
                 start_date end_date T st)).
Proof.
  exists (snd (get_company_tickers w st)).
  unfold find_form25_filings_with_market_cap, bind, lift_option, ret, raise.
  destruct (get_company_tickers w st) as [q s1] eqn:E. cbn [fst snd].
  apply try_endpoints_frame in E as ([mp ->] & _).
  split; [discriminate |]. split; [reflexivity |].
  destruct (strptime start_date) as [sd |]; [| apply run_steps_nil].
  destruct (strptime end_date) as [ed |]; [| apply run_steps_nil].
  pose proof (for_each_state_inv (run_steps w fmp_api_key s1)
                (check_company w fmp_api_key target_exchanges sd ed T) mp
                (fun x a s Hs => run_steps_trans _ _ _ Hs
                                   (check_company_steps sd ed T x a s))
                acc0 s1 (run_steps_nil _ _ s1)) as Hloop.
  destruct (for_each mp _ acc0 s1) as [[acc | e] s2]; exact Hloop.
Qed.

Lemma find_form25_silent start_date end_date T st :
  fmp_api_working st = false ->
  fmp_silent st
    (snd (find_form25_filings_with_market_cap w fmp_api_key target_exchanges
            start_date end_date T st)).
Proof.
  intros Hoff.
  destruct (find_form25_steps start_date end_date T st) as (s1 & _ & -> & Hrun).
  destruct (get_company_tickers w st) as [q s1] eqn:E. cbn [snd] in Hrun.
  apply try_endpoints_quiet in E as (Hf & _ & evs & Hl & Hr & Hn).
  eapply fmp_silent_trans.
  - eapply fmp_silent_other; eauto.
  - apply run_steps_silent; [exact Hrun | congruence].
Qed.

Lemma find_form25_balanced start_date end_date T st :
  stats_balanced (stats st) ->
  stats_balanced
    (stats (snd (find_form25_filings_with_market_cap w fmp_api_key target_exchanges
                   start_date end_date T st))).
Proof.
  intros Hbal.
  destruct (find_form25_steps start_date end_date T st) as (s1 & _ & -> & Hrun).
  destruct (get_company_tickers w st) as [q s1] eqn:E. cbn [snd] in Hrun.
  apply try_endpoints_quiet in E as (_ & Hs & _).
  eapply run_steps_balanced; [exact Hrun |]. rewrite Hs. exact Hbal.
Qed.

End Collection.

End RunFacts.

(** ** The resolver: order, outcome counters, downgrade, sanity bounds *)

Section ResolverClaims.

Import OptimizedMarketCapFetcher.

Variable w : World.
Variable fmp_api_key : option string.

(** C1. A resolver call runs the first-success cascade over the strategies
    in the order yahoo_historical, fmp_api (behind its guard), calculated,
    yahoo_current, and returns the first value with the name of the strategy
    that gave it. The strategies entered during the call form a prefix of
    that order, ending at the strategy named in the result; when strategy 1
    succeeds, it is the only strategy entered. *)
Theorem resolver_strategy_order (t date company : string) (st : State) :
  get_market_cap w fmp_api_key t date company st =
    (update_stats incr_total ;;;
     let* r := first_success (cascade w fmp_api_key t date) in
     record_outcome r) st
  /\ (exists r st' evs,
        get_market_cap w fmp_api_key t date company st = (Ok r, st')
        /\ log st' = log st ++ evs
        /\ strategy_names evs `prefix_of` plan fmp_api_key st
        /\ match fst r with
           | Some _ => last (strategy_names evs) = Some (snd r)
           | None => strategy_names evs = plan fmp_api_key st /\ snd r = "none"
           end)
  /\ (forall x,
        fst (_get_yahoo_historical w t date st) = Ok (Some x) ->
        exists st' evs,
          get_market_cap w fmp_api_key t date company st
            = (Ok (Some x, "yahoo_historical"), st')
          /\ log st' = log st ++ evs
          /\ strategy_names evs = ["yahoo_historical"]).
Proof.
  split; [apply get_market_cap_refines |].
  destruct (get_market_cap_run w fmp_api_key t date company st) as (r & st' & E & Hrun).
  split.
  - destruct (cascade_run_log _ _ _ _ _ _ _ Hrun) as (evs & L & P & Q).
    exists r, st', evs. auto.
  - intros x Hx.
    rewrite <- (yahoo_historical_stats_indep w t date incr_total st) in Hx.
    inversion Hrun; subst; clear Hrun;
      match goal with
      | E1 : _get_yahoo_historical _ _ _ _ = _ |- _ =>
          rewrite E1 in Hx; cbn [fst] in Hx; inversion Hx; subst;
          apply yahoo_historical_inv in E1 as [_ [_ _ _ _ (evs & L & N & _)]]
      end.
    exists (bump incr_yahoo_historical s1), (EvStrategy "yahoo_historical" :: evs).
    split; [exact E |]. split; [exact L |].
    rewrite strategy_names_cons, N. reflexivity.
Qed.

(** C8. A resolver call adds one to [total] and one to exactly one of the
    five outcome counters, the one named by its result. Hence the counters
    add up, total = yahoo_historical + fmp_api + calculated + yahoo_current
    + failed, after any sequence of calls of a run and after a whole
    collection, when they did before, as the counters set by [__init__] do. *)
Theorem stats_one_outcome_per_call :
  (forall t date company st,
     exists r st',
       get_market_cap w fmp_api_key t date company st = (Ok r, st')
       /\ total (stats st') = (total (stats st) + 1)%Z
       /\ ((snd r = "yahoo_historical"
            /\ stats st' = incr_yahoo_historical (incr_total (stats st)))
           \/ (snd r = "fmp_api"
               /\ stats st' = incr_fmp_api (incr_total (stats st)))
           \/ (snd r = "calculated"
               /\ stats st' = incr_calculated (incr_total (stats st)))
           \/ (snd r = "yahoo_current"
               /\ stats st' = incr_yahoo_current (incr_total (stats st)))
           \/ (snd r = "none"
               /\ stats st' = incr_failed (incr_total (stats st)))))
  /\ (forall st st',
        stats_balanced (stats st) ->
        run_steps w fmp_api_key st st' ->
        stats_balanced (stats st'))
  /\ (forall target_exchanges start_date end_date T st,
        stats_balanced (stats st) ->
        stats_balanced
          (stats (snd (SECDelistingScraperOptimized.find_form25_filings_with_market_cap
                         w fmp_api_key target_exchanges start_date end_date T st))))
  /\ (forall st, stats (snd (OptimizedMarketCapFetcher.init w fmp_api_key st)) = stats0)
  /\ stats_balanced stats0.
Proof.
  split; [| split; [| split; [| split]]].
  - intros t date company st.
    destruct (get_market_cap_run w fmp_api_key t date company st) as (r & st' & E & Hrun).
    exists r, st'. split; [exact E |].
    pose proof (cascade_run_stats _ _ _ _ _ _ _ Hrun) as Hs.
    split; [| exact Hs].
    destruct Hs as [[_ ->] | [[_ ->] | [[_ ->] | [[_ ->] | [_ ->]]]]]; reflexivity.
  - intros st st' Hbal Hrun. eapply run_steps_balanced; eauto.
  - intros. apply find_form25_balanced. assumption.
  - intros st. unfold OptimizedMarketCapFetcher.init, _validate_fmp_api_key.
    crunch; reflexivity.
  - reflexivity.
Qed.

(** C5. When a call of the fmp_api strategy receives status 401 or 429 it
    returns nothing and clears the fmp-working flag, and so does the resolver
    call around it. Once the flag is cleared it stays cleared through every
    later step of the run and through a whole collection, during which
    strategy 2 is not entered and no request goes to the secondary API.
    Status 403 makes the call return nothing and leaves the flag as it was. *)
Theorem fmp_persistent_downgrade :
  (forall t date st s j,
     key_supplied fmp_api_key = true ->
     fmp_get w (clock st) (fmp_quote_url t) = Response s j ->
     s = 401%Z \/ s = 429%Z ->
     exists st', _get_from_fmp w fmp_api_key t date st = (Ok None, st')
                 /\ fmp_api_working st' = false)
  /\ (forall t date company st s1 s j,
        _get_yahoo_historical w t date (bump incr_total st) = (Ok None, s1) ->
        key_supplied fmp_api_key && fmp_api_working st = true ->
        fmp_get w (clock s1) (fmp_quote_url t) = Response s j ->
        s = 401%Z \/ s = 429%Z ->
        fmp_api_working (snd (get_market_cap w fmp_api_key t date company st)) = false)
  /\ (forall st st',
        fmp_api_working st = false ->
        run_steps w fmp_api_key st st' ->
        fmp_silent st st')
  /\ (forall target_exchanges start_date end_date T st,
        fmp_api_working st = false ->
        fmp_silent st
          (snd (SECDelistingScraperOptimized.find_form25_filings_with_market_cap
                  w fmp_api_key target_exchanges start_date end_date T st)))
  /\ (forall t date st j,
        key_supplied fmp_api_key = true ->
        fmp_get w (clock st) (fmp_quote_url t) = Response 403 j ->
        exists st', _get_from_fmp w fmp_api_key t date st = (Ok None, st')
                    /\ fmp_api_working st' = fmp_api_working st).
Proof.
  split; [| split; [| split; [| split]]].
  - apply fmp_disabling_status.
  - apply get_market_cap_disables.
  - intros st st' Hoff Hrun. eapply run_steps_silent; eauto.
  - intros. apply find_form25_silent. assumption.
  - apply fmp_forbidden_status.
Qed.

Lemma yahoo_historical_value t date st d hist p info s :
  strptime date = Some d ->
  yf_history w (clock st) t d 60 = Some hist ->
  last hist = Some p ->
  yf_info w (S (clock st)) t = Some info ->
  info !! "sharesOutstanding" = Some (PyNum s) ->
  truthy (PyNum s) = true ->
  PrimFloat.ltb 0 s = true ->
  PrimFloat.ltb 0 p = true ->
  fst (_get_yahoo_historical w t date st)
  = Ok (if sanity_check (PrimFloat.mul p s) then Some (PrimFloat.mul p s) else None).
Proof.
  intros Hd Hh Hl Hi Hs Ht Hps Hpp. destruct st as [ck lg fl sts ch fs].
  cbn [clock] in *. unfold _get_yahoo_historical, dict_get. reduce_m.
  rewrite Hd, Hh, Hl, Hi, Hs. cbn [default from_option id]. rewrite Ht, Hps, Hpp. cbn [andb].
  destruct (sanity_check (p * s)); reflexivity.
Qed.

Lemma calculated_value t date st d hist p info s :
  strptime date = Some d ->
  yf_history w (clock st) t d 90 = Some hist ->
  last hist = Some p ->
  yf_info w (S (clock st)) t = Some info ->
  info !! "sharesOutstanding" = Some (PyNum s) ->
  truthy (PyNum s) = true ->
  PrimFloat.ltb 0 s = true ->
  PrimFloat.ltb 0 p = true ->
  fst (_calculate_from_yahoo_data w t date st)
  = Ok (if sanity_check (PrimFloat.mul p s) then Some (PrimFloat.mul p s) else None).
Proof.
  intros Hd Hh Hl Hi Hs Ht Hps Hpp. destruct st as [ck lg fl sts ch fs].
  cbn [clock] in *. unfold _calculate_from_yahoo_data, dict_get. reduce_m.
  rewrite Hd, Hh, Hl, Hi, Hs. cbn [default from_option id]. rewrite Ht. cbn [negb]. rewrite Ht, Hps, Hpp. cbn [andb].
  destruct (sanity_check (p * s)); reflexivity.
Qed.

(** C4, amended. Strategies 1 and 3 return the product price x shares
    exactly when it passes [sanity_check], whose bounds are both strict: a
    product of exactly 999 is rejected, exactly 1,000 is rejected, exactly
    10^12 is rejected and exactly 999,999,999,999 is accepted. *)
Theorem sanity_bounds_strict :
  (forall t date st d hist p info s,
     strptime date = Some d ->
     yf_history w (clock st) t d 60 = Some hist ->
     last hist = Some p ->
     yf_info w (S (clock st)) t = Some info ->
     info !! "sharesOutstanding" = Some (PyNum s) ->
     truthy (PyNum s) = true ->
     PrimFloat.ltb 0 s = true ->
     PrimFloat.ltb 0 p = true ->
     fst (_get_yahoo_historical w t date st)
     = Ok (if sanity_check (PrimFloat.mul p s) then Some (PrimFloat.mul p s) else None))
  /\ (forall t date st d hist p info s,
        strptime date = Some d ->
        yf_history w (clock st) t d 90 = Some hist ->
        last hist = Some p ->
        yf_info w (S (clock st)) t = Some info ->
        info !! "sharesOutstanding" = Some (PyNum s) ->
        truthy (PyNum s) = true ->
        PrimFloat.ltb 0 s = true ->
        PrimFloat.ltb 0 p = true ->
        fst (_calculate_from_yahoo_data w t date st)
        = Ok (if sanity_check (PrimFloat.mul p s) then Some (PrimFloat.mul p s) else None))
  /\ (sanity_check 999 = false /\ sanity_check 1000 = false
      /\ sanity_check 1000000000000 = false /\ sanity_check 999999999999 = true)
  /\ (accepted_by_yahoo_historical 1 999 = false
      /\ accepted_by_yahoo_historical 1 1000 = false
      /\ accepted_by_yahoo_historical 1 1000000000000 = false
      /\ accepted_by_yahoo_historical 1 999999999999 = true)
  /\ (accepted_by_calculated 1 999 = false
      /\ accepted_by_calculated 1 1000 = false
      /\ accepted_by_calculated 1 1000000000000 = false
      /\ accepted_by_calculated 1 999999999999 = true).
Proof.
  split; [apply yahoo_historical_value |].
  split; [apply calculated_value |].
  repeat split; vm_compute; reflexivity.
Qed.

End ResolverClaims.

(** *** Instances on the sample worlds *)

Lemma resolver_strategy_order_witness :
  exists st' evs,
    OptimizedMarketCapFetcher.get_market_cap
      (world_with 10 5000000 "NMS" ConnectionError) None
      "ABCD" "2020-06-15" "Acme Corp" fresh
    = (Ok (Some 50000000%float, "yahoo_historical"), st')
    /\ log st' = log fresh ++ evs
    /\ strategy_names evs = ["yahoo_historical"].
Proof.
  apply (proj2 (proj2 (resolver_strategy_order
                         (world_with 10 5000000 "NMS" ConnectionError) None
                         "ABCD" "2020-06-15" "Acme Corp" fresh))).
  vm_compute. reflexivity.
Defined.

Lemma stats_one_outcome_per_call_witness :
  stats_balanced
    (stats (snd (OptimizedMarketCapFetcher.get_market_cap
                   (world_calculated "NMS" ConnectionError) None
                   "ABCD" "2020-06-15" "Acme Corp" fresh)))
  /\ stats_balanced
       (stats (snd (SECDelistingScraperOptimized.find_form25_filings_with_market_cap
                      (world_calculated "NMS" ConnectionError) None
                      SECDelistingScraperOptimized.default_target_exchanges
                      START_DATE END_DATE MAX_MARKET_CAP fresh))).
Proof.
  pose proof (stats_one_outcome_per_call
                (world_calculated "NMS" ConnectionError) None) as (_ & Hrun & Hall & _).
  split.
  - apply (Hrun fresh).
    + reflexivity.
    + eapply run_steps_resolve; [apply surjective_pairing | apply run_steps_nil].
  - apply Hall. reflexivity.
Defined.

Lemma fmp_persistent_downgrade_witness :
  (exists st',
     OptimizedMarketCapFetcher._get_from_fmp
       (world_calculated "NMS" (Response 429 None)) (Some "demo")
       "ABCD" "2020-06-15" fresh_enabled = (Ok None, st')
     /\ fmp_api_working st' = false)
  /\ fmp_api_working
       (snd (OptimizedMarketCapFetcher.get_market_cap
               (world_calculated "NMS" (Response 401 None)) (Some "demo")
               "ABCD" "2020-06-15" "Acme Corp" fresh_enabled)) = false
  /\ fmp_silent fresh
       (snd (OptimizedMarketCapFetcher.get_market_cap
               (world_calculated "NMS" (Response 401 None)) (Some "demo")
               "ABCD" "2020-06-15" "Acme Corp" fresh))
  /\ fmp_silent fresh
       (snd (SECDelistingScraperOptimized.find_form25_filings_with_market_cap
               (world_calculated "NMS" (Response 401 None)) (Some "demo")
               SECDelistingScraperOptimized.default_target_exchanges
               START_DATE END_DATE MAX_MARKET_CAP fresh))
  /\ (exists st',
        OptimizedMarketCapFetcher._get_from_fmp
          (world_calculated "NMS" (Response 403 None)) (Some "demo")
          "ABCD" "2020-06-15" fresh_enabled = (Ok None, st')
        /\ fmp_api_working st' = fmp_api_working fresh_enabled).
Proof.
  pose proof (fmp_persistent_downgrade
                (world_calculated "NMS" (Response 429 None)) (Some "demo"))
    as (H429 & _).
  pose proof (fmp_persistent_downgrade
                (world_calculated "NMS" (Response 401 None)) (Some "demo"))
    as (_ & H401 & Hrun & Hall & _).
  pose proof (fmp_persistent_downgrade
                (world_calculated "NMS" (Response 403 None)) (Some "demo"))
    as (_ & _ & _ & _ & H403).
  split; [| split; [| split; [| split]]].
  - apply (H429 "ABCD" "2020-06-15" fresh_enabled 429%Z None);
      [reflexivity | reflexivity | right; reflexivity].
  - apply (H401 "ABCD" "2020-06-15" "Acme Corp" fresh_enabled
             (snd (OptimizedMarketCapFetcher._get_yahoo_historical
                     (world_calculated "NMS" (Response 401 None))
                     "ABCD" "2020-06-15"
                     (bump OptimizedMarketCapFetcher.incr_total fresh_enabled)))
             401%Z None);
      [vm_compute; reflexivity | reflexivity | reflexivity | left; reflexivity].
  - apply (Hrun fresh).
    + reflexivity.
    + eapply run_steps_resolve; [apply surjective_pairing | apply run_steps_nil].
  - apply Hall. reflexivity.
  - apply (H403 "ABCD" "2020-06-15" fresh_enabled None); reflexivity.
Defined.

Lemma sanity_bounds_strict_witness :
  fst (OptimizedMarketCapFetcher._get_yahoo_historical
         (world_with 1 1000 "NMS" ConnectionError) "ABCD" "2020-06-15" fresh)
  = Ok None
  /\ fst (OptimizedMarketCapFetcher._calculate_from_yahoo_data
            (world_with 1 1000 "NMS" ConnectionError) "ABCD" "2020-06-15" fresh)
     = Ok None.
Proof.
  pose proof (sanity_bounds_strict (world_with 1 1000 "NMS" ConnectionError)) as H.
  split.
  - apply (proj1 H "ABCD" "2020-06-15" fresh
             {| year := 2020; month := 6; day := 15 |} [1%float] 1%float
             (<["sharesOutstanding" := PyNum 1000]> (<["exchange" := PyStr "NMS"]> ∅))
             1000%float); reflexivity.
  - apply (proj1 (proj2 H) "ABCD" "2020-06-15" fresh
             {| year := 2020; month := 6; day := 15 |} [1%float] 1%float
             (<["sharesOutstanding" := PyNum 1000]> (<["exchange" := PyStr "NMS"]> ∅))
             1000%float); reflexivity.
Defined.

(** C4 as stated fails: a product of exactly 1,000 is not accepted. *)
Lemma sanity_bound_1000_counterexample :
  ~ (accepted_by_yahoo_historical 1 999 = false
     /\ accepted_by_yahoo_historical 1 1000 = true
     /\ accepted_by_yahoo_historical 1 1000000000000 = false
     /\ accepted_by_yahoo_historical 1 999999999999 = true)
  /\ ~ (accepted_by_calculated 1 999 = false
        /\ accepted_by_calculated 1 1000 = true
        /\ accepted_by_calculated 1 1000000000000 = false
        /\ accepted_by_calculated 1 999999999999 = true)
  /\ OptimizedMarketCapFetcher.sanity_check (PrimFloat.mul 1 1000) = false.
Proof.
  split; [| split].
  - intros (_ & H & _). vm_compute in H. discriminate H.
  - intros (_ & H & _). vm_compute in H. discriminate H.
  - vm_compute. reflexivity.
Qed.

(** ** The collector: consistency of rows, small-cap list, exchange filter,
       registry failure, exchange cache *)

Section CollectorClaims.

Import OptimizedMarketCapFetcher SECDelistingScraperOptimized.

Variable w : World.
Variable fmp_api_key : option string.
Variable target_exchanges : list string.

(** C2. Every resolver call returns a value together with the name of one of
    the four strategies, or nothing together with ["none"]; and on every row
    of the two lists the collection returns, [market_cap] is present if and
    only if [market_cap_source] is not ["none"]. *)
Theorem market_cap_iff_source :
  (forall t date company st,
     exists r st',
       get_market_cap w fmp_api_key t date company st = (Ok r, st')
       /\ resolved r
       /\ (is_Some (fst r) <-> snd r <> "none"))
  /\ (forall start_date end_date T st all small st',
        find_form25_filings_with_market_cap w fmp_api_key target_exchanges
          start_date end_date T st = (Ok (all, small), st') ->
        Forall cap_iff_source all /\ Forall cap_iff_source small).
Proof.
  split.
  - intros t date company st.
    destruct (get_market_cap w fmp_api_key t date company st) as [q st'] eqn:E.
    apply get_market_cap_frame in E as ((r & -> & Hr) & _).
    exists r, st'. split; [reflexivity |]. split; [exact Hr |].
    apply resolved_cap_iff_source. exact Hr.
  - intros start_date end_date T st all small st' H.
    apply find_form25_collected in H as [-> Hall].
    assert (Hc : Forall cap_iff_source all).
    { eapply Forall_impl; [exact Hall |]. intros e [_ He]. exact He. }
    split; [exact Hc |].
    apply List.Forall_forall. intros e He.
    apply List.filter_In in He as [He _].
    rewrite List.Forall_forall in Hc. auto.
Qed.

(** C3. A row is in the small-cap list exactly when it is in the all-events
    list, its market cap is present and strictly below the threshold; no row
    of the small-cap list lacks a market cap. *)
Theorem small_cap_membership start_date end_date T st all small st' :
  find_form25_filings_with_market_cap w fmp_api_key target_exchanges
    start_date end_date T st = (Ok (all, small), st') ->
  small = List.filter (is_small_cap T) all
  /\ (forall e,
        e ∈ small
        <-> e ∈ all /\ exists mc, market_cap e = Some mc /\ PrimFloat.ltb mc T = true)
  /\ (forall e, e ∈ small -> is_Some (market_cap e)).
Proof.
  intros H. apply find_form25_collected in H as [-> _].
  assert (Hmem : forall e,
            e ∈ List.filter (is_small_cap T) all
            <-> e ∈ all /\ exists mc, market_cap e = Some mc /\ PrimFloat.ltb mc T = true).
  { intros e. rewrite !list_elem_of_In, List.filter_In. unfold is_small_cap.
    split.
    - intros [Hin Hs]. split; [exact Hin |].
      destruct (market_cap e) as [mc |]; [eauto | discriminate].
    - intros [Hin (mc & Hm & Hlt)]. split; [exact Hin |]. rewrite Hm. exact Hlt. }
  split; [reflexivity |]. split; [exact Hmem |].
  intros e He. apply Hmem in He as [_ (mc & Hm & _)]. rewrite Hm. eauto.
Qed.

(** C6. Every row of the two returned lists carries an exchange of the
    configured target set. An entry that matches by form type and date and
    whose exchange resolves outside the set, or does not resolve, leaves both
    lists as they were; an entry is appended only when its exchange resolved
    to a member of the set. *)
Theorem exchange_hard_filter :
  (forall start_date end_date T st all small st',
     find_form25_filings_with_market_cap w fmp_api_key target_exchanges
       start_date end_date T st = (Ok (all, small), st') ->
     forall e, e ∈ all \/ e ∈ small -> exchange e ∈ target_exchanges)
  /\ (forall start_dt end_dt T c ci recent i acc st f fd dt r s1,
        form recent !! i = Some f ->
        f ∈ ["25"; "25-NSE"] ->
        filingDate recent !! i = Some fd ->
        strptime fd = Some dt ->
        datetime_leb start_dt dt && datetime_leb dt end_dt = true ->
        _get_ticker_exchange w (info_ticker ci) st = (Ok r, s1) ->
        match r with
        | Some e => e ∉ target_exchanges
        | None => True
        end ->
        exists acc',
          check_filing w fmp_api_key target_exchanges start_dt end_dt T
            c ci recent i acc st = (Ok acc', s1)
          /\ all_filings acc' = all_filings acc
          /\ filings_with_market_cap acc' = filings_with_market_cap acc)
  /\ (forall start_dt end_dt T c ci recent i acc st acc' st',
        check_filing w fmp_api_key target_exchanges start_dt end_dt T
          c ci recent i acc st = (Ok acc', st') ->
        all_filings acc' <> all_filings acc
        \/ filings_with_market_cap acc' <> filings_with_market_cap acc ->
        exists x s1,
          _get_ticker_exchange w (info_ticker ci) st = (Ok (Some x), s1)
          /\ x ∈ target_exchanges).
Proof.
  split; [| split].
  - intros start_date end_date T st all small st' H e He.
    apply find_form25_collected in H as [-> Hall].
    rewrite List.Forall_forall in Hall.
    destruct He as [He | He].
    + apply list_elem_of_In in He. apply Hall in He as [He _]. exact He.
    + apply list_elem_of_In, List.filter_In in He as [He _].
      apply Hall in He as [He _]. exact He.
  - apply check_filing_excluded.
  - intros start_dt end_dt T c ci recent i acc st acc' st' H Hne.
    apply check_filing_cases in H
      as [[Ha Hs] | (e & s1 & r & _ & Hx & Hin & _)].
    + destruct Hne as [Hne | Hne]; contradiction.
    + eauto.
Qed.

(** C10. The exchange cache starts empty and only ever holds values of the
    code-to-exchange table, through single lookups and through a whole
    collection. A lookup changes the cache only by storing, for a ticker not
    yet cached, the table's value for the upper-cased code it read. A lookup
    that resolves nothing leaves the ticker uncached, and every lookup of an
    uncached ticker sends a request for its [info]. *)
Theorem exchange_cache_written_on_success :
  (forall st,
     ticker_to_exchange (snd (SECDelistingScraperOptimized.init w fmp_api_key st)) = ∅)
  /\ (forall t st, cache_ok st -> cache_ok (snd (_get_ticker_exchange w t st)))
  /\ (forall start_date end_date T st,
        cache_ok st ->
        cache_ok (snd (find_form25_filings_with_market_cap w fmp_api_key
                         target_exchanges start_date end_date T st)))
  /\ (forall t st r st',
        _get_ticker_exchange w t st = (r, st') ->
        ticker_to_exchange st' = ticker_to_exchange st
        \/ exists info raw e,
             ticker_to_exchange st !! t = None
             /\ yf_info w (clock st) t = Some info
             /\ dict_get_default info "exchange" (PyStr "") = PyStr raw
             /\ exchange_mapping !! upper raw = Some e
             /\ e ∈ exchange_names
             /\ r = Ok (Some e)
             /\ ticker_to_exchange st' = <[t := e]> (ticker_to_exchange st))
  /\ (forall t st st',
        _get_ticker_exchange w t st = (Ok None, st') ->
        ticker_to_exchange st' = ticker_to_exchange st
        /\ ticker_to_exchange st' !! t = None
        /\ info_requests (log st') = info_requests (log st) ++ [t])
  /\ (forall t st,
        ticker_to_exchange st !! t = None ->
        info_requests (log (snd (_get_ticker_exchange w t st)))
        = info_requests (log st) ++ [t]).
Proof.
  assert (Hlog : forall l (t : string),
            info_requests (l ++ [EvInfo t]) = info_requests l ++ [t]).
  { intros l t. unfold info_requests. rewrite omap_app. reflexivity. }
  repeat apply conj.
  - intros st. unfold SECDelistingScraperOptimized.init,
      OptimizedMarketCapFetcher.init, _validate_fmp_api_key, set_cache.
    crunch; reflexivity.
  - intros t st Hok.
    destruct (_get_ticker_exchange w t st) as [r st'] eqn:E.
    eapply ticker_exchange_cache_ok; eauto.
  - intros. apply find_form25_cache_ok. assumption.
  - intros t st r st' H.
    apply ticker_exchange_cases in H
      as [(e & _ & _ & ->)
         | (Hn & _ & _ & _ & _ & _ & [[_ Hc] | (info & raw & e & Hi & Hd & Hm & Hr & Hc)])].
    + left; reflexivity.
    + left; exact Hc.
    + right. exists info, raw, e. repeat split; auto.
      eapply exchange_mapping_values; eauto.
  - intros t st st' H.
    apply ticker_exchange_cases in H
      as [(e & _ & Hr & _)
         | (Hn & _ & Hl & _ & _ & _ & [[_ Hc] | (info & raw & e & _ & _ & _ & Hr & _)])];
      try discriminate.
    rewrite Hc, Hl, Hlog. auto.
  - intros t st Hn.
    destruct (_get_ticker_exchange w t st) as [r st'] eqn:E. cbn [snd].
    apply ticker_exchange_cases in E
      as [(e & He & _) | (_ & _ & Hl & _)]; [congruence |].
    rewrite Hl, Hlog. reflexivity.
Qed.

End CollectorClaims.

Section RegistryClaim.

Import OptimizedMarketCapFetcher SECDelistingScraperOptimized.

(** C7. When all three registry endpoints fail, [get_company_tickers]
    returns an empty mapping, the collection returns two empty lists, and
    [main] ends without writing any file. *)
Theorem registry_failure_is_fatal (w : World) (st : State) :
  registry_unavailable w st ->
  (exists st', get_company_tickers w st = (Ok [], st'))
  /\ (forall fmp_api_key target_exchanges start_date end_date T,
        is_Some (strptime start_date) ->
        is_Some (strptime end_date) ->
        exists st',
          find_form25_filings_with_market_cap w fmp_api_key target_exchanges
            start_date end_date T st = (Ok ([], []), st')
          /\ files st' = files st)
  /\ (forall output_dir,
        exists st', main w output_dir st = (Ok tt, st') /\ files st' = files st).
Proof.
  intros H. split; [| split].
  - destruct (get_company_tickers_unavailable w st H) as (s & E & _). eauto.
  - intros. apply find_form25_unavailable; assumption.
  - intros. apply main_unavailable. exact H.
Qed.

End RegistryClaim.

(** *** Instances on the sample worlds *)

Lemma market_cap_iff_source_witness :
  Forall cap_iff_source [sample_row] /\ Forall cap_iff_source [sample_row].
Proof.
  apply (proj2 (market_cap_iff_source (world_calculated "NMS" ConnectionError) None
                  SECDelistingScraperOptimized.default_target_exchanges)
           START_DATE END_DATE MAX_MARKET_CAP fresh [sample_row] [sample_row]
           (snd (SECDelistingScraperOptimized.find_form25_filings_with_market_cap
                   (world_calculated "NMS" ConnectionError) None
                   SECDelistingScraperOptimized.default_target_exchanges
                   START_DATE END_DATE MAX_MARKET_CAP fresh))).
  vm_compute. reflexivity.
Defined.

Lemma small_cap_membership_witness :
  [sample_row] = List.filter (is_small_cap MAX_MARKET_CAP) [sample_row]
  /\ (forall e,
        e ∈ [sample_row]
        <-> e ∈ [sample_row]
            /\ exists mc, market_cap e = Some mc
                          /\ PrimFloat.ltb mc MAX_MARKET_CAP = true)
  /\ (forall e, e ∈ [sample_row] -> is_Some (market_cap e)).
Proof.
  apply (small_cap_membership (world_calculated "NMS" ConnectionError) None
           SECDelistingScraperOptimized.default_target_exchanges
           START_DATE END_DATE MAX_MARKET_CAP fresh [sample_row] [sample_row]
           (snd (SECDelistingScraperOptimized.find_form25_filings_with_market_cap
                   (world_calculated "NMS" ConnectionError) None
                   SECDelistingScraperOptimized.default_target_exchanges
                   START_DATE END_DATE MAX_MARKET_CAP fresh))).
  vm_compute. reflexivity.
Defined.

Lemma exchange_hard_filter_witness :
  (forall e, e ∈ [sample_row] \/ e ∈ [sample_row] ->
             exchange e ∈ SECDelistingScraperOptimized.default_target_exchanges)
  /\ (exists acc',
        SECDelistingScraperOptimized.check_filing
          (world_calculated "PCX" ConnectionError) None
          SECDelistingScraperOptimized.default_target_exchanges
          {| year := 2015; month := 1; day := 1 |}
          {| year := 2024; month := 12; day := 31 |}
          MAX_MARKET_CAP "0000000001" sample_company sample_recent 0
          SECDelistingScraperOptimized.acc0 fresh
        = (Ok acc',
           snd (SECDelistingScraperOptimized._get_ticker_exchange
                  (world_calculated "PCX" ConnectionError) "ABCD" fresh))
        /\ SECDelistingScraperOptimized.all_filings acc' = []
        /\ SECDelistingScraperOptimized.filings_with_market_cap acc' = [])
  /\ (exists x s1,
        SECDelistingScraperOptimized._get_ticker_exchange
          (world_calculated "NMS" ConnectionError) "ABCD" fresh = (Ok (Some x), s1)
        /\ x ∈ SECDelistingScraperOptimized.default_target_exchanges).
Proof.
  split; [| split].
  - apply (proj1 (exchange_hard_filter (world_calculated "NMS" ConnectionError) None
                    SECDelistingScraperOptimized.default_target_exchanges)
             START_DATE END_DATE MAX_MARKET_CAP fresh [sample_row] [sample_row]
             (snd (SECDelistingScraperOptimized.find_form25_filings_with_market_cap
                     (world_calculated "NMS" ConnectionError) None
                     SECDelistingScraperOptimized.default_target_exchanges
                     START_DATE END_DATE MAX_MARKET_CAP fresh))).
    vm_compute. reflexivity.
  - apply (proj1 (proj2 (exchange_hard_filter (world_calculated "PCX" ConnectionError) None
                           SECDelistingScraperOptimized.default_target_exchanges))
             {| year := 2015; month := 1; day := 1 |}
             {| year := 2024; month := 12; day := 31 |}
             MAX_MARKET_CAP "0000000001" sample_company sample_recent 0
             SECDelistingScraperOptimized.acc0 fresh
             "25" "2020-06-15" {| year := 2020; month := 6; day := 15 |}
             (Some "NYSE ARCA")).
    + reflexivity.
    + apply list_elem_of_here.
    + reflexivity.
    + reflexivity.
    + reflexivity.
    + vm_compute. reflexivity.
    + unfold SECDelistingScraperOptimized.default_target_exchanges. not_in_list.
  - apply (proj2 (proj2 (exchange_hard_filter (world_calculated "NMS" ConnectionError) None
                           SECDelistingScraperOptimized.default_target_exchanges))
             {| year := 2015; month := 1; day := 1 |}
             {| year := 2024; month := 12; day := 31 |}
             MAX_MARKET_CAP "0000000001" sample_company sample_recent 0
             SECDelistingScraperOptimized.acc0 fresh
             (SECDelistingScraperOptimized.record_filing MAX_MARKET_CAP sample_row
                SECDelistingScraperOptimized.acc0)
             (snd (SECDelistingScraperOptimized.check_filing
                     (world_calculated "NMS" ConnectionError) None
                     SECDelistingScraperOptimized.default_target_exchanges
                     {| year := 2015; month := 1; day := 1 |}
                     {| year := 2024; month := 12; day := 31 |}
                     MAX_MARKET_CAP "0000000001" sample_company sample_recent 0
                     SECDelistingScraperOptimized.acc0 fresh))).
    + vm_compute. reflexivity.
    + left. cbn. discriminate.
Defined.

Lemma exchange_cache_written_on_success_witness :
  cache_ok (snd (SECDelistingScraperOptimized._get_ticker_exchange
                   (world_calculated "NMS" ConnectionError) "ABCD" fresh))
  /\ cache_ok (snd (SECDelistingScraperOptimized.find_form25_filings_with_market_cap
                      (world_calculated "NMS" ConnectionError) None
                      SECDelistingScraperOptimized.default_target_exchanges
                      START_DATE END_DATE MAX_MARKET_CAP fresh))
  /\ info_requests
       (log (snd (SECDelistingScraperOptimized._get_ticker_exchange
                    (world_calculated "OTC" ConnectionError) "ABCD" fresh)))
     = ["ABCD"]
  /\ info_requests
       (log (snd (SECDelistingScraperOptimized._get_ticker_exchange
                    (world_calculated "OTC" ConnectionError) "ABCD"
                    (snd (SECDelistingScraperOptimized._get_ticker_exchange
                            (world_calculated "OTC" ConnectionError) "ABCD" fresh)))))
     = ["ABCD"; "ABCD"].
Proof.
  assert (Hfresh : cache_ok fresh).
  { intros t e H. change ((∅ : gmap string string) !! t = Some e) in H.
    rewrite lookup_empty in H. discriminate H. }
  pose proof (exchange_cache_written_on_success (world_calculated "NMS" ConnectionError)
                None SECDelistingScraperOptimized.default_target_exchanges)
    as (_ & Hone & Hall & _).
  pose proof (exchange_cache_written_on_success (world_calculated "OTC" ConnectionError)
                None SECDelistingScraperOptimized.default_target_exchanges)
    as (_ & _ & _ & _ & Hnone & Hmiss).
  split; [apply Hone; exact Hfresh |].
  split; [apply Hall; exact Hfresh |].
  split.
  - apply (Hmiss "ABCD" fresh). reflexivity.
  - destruct (Hnone "ABCD" fresh
                (snd (SECDelistingScraperOptimized._get_ticker_exchange
                        (world_calculated "OTC" ConnectionError) "ABCD" fresh)))
      as (_ & Hstill & Hreq).
    + vm_compute. reflexivity.
    + rewrite (Hmiss "ABCD" _ Hstill), Hreq. reflexivity.
Defined.

Lemma registry_failure_is_fatal_witness :
  exists st',
    main world_registry_down "/srv/scraper/outputs" fresh = (Ok tt, st')
    /\ files st' = [].
Proof.
  assert (H : registry_unavailable world_registry_down fresh).
  { intros k url Hk.
    destruct k as [| [| [| k]]]; cbn in Hk; inversion Hk; subst; cbn.
    - left. discriminate.
    - right. reflexivity.
    - exact I. }
  apply (proj2 (proj2 (registry_failure_is_fatal world_registry_down fresh H))).
Defined.

(** The end-to-end scenarios of the specification on the sample worlds. *)
Example collection_sample :
  fst (SECDelistingScraperOptimized.find_form25_filings_with_market_cap
         (world_calculated "NMS" ConnectionError) None
         SECDelistingScraperOptimized.default_target_exchanges
         START_DATE END_DATE MAX_MARKET_CAP fresh)
  = Ok ([sample_row], [sample_row]).
Proof. vm_compute. reflexivity. Qed.

Example collection_over_threshold :
  fst (SECDelistingScraperOptimized.find_form25_filings_with_market_cap
         (world_calculated "NMS" ConnectionError) None
         SECDelistingScraperOptimized.default_target_exchanges
         START_DATE END_DATE 50000000%float fresh)
  = Ok ([sample_row], []).
Proof. vm_compute. reflexivity. Qed.

Example collection_other_exchange :
  fst (SECDelistingScraperOptimized.find_form25_filings_with_market_cap
         (world_calculated "OTC" ConnectionError) None
         SECDelistingScraperOptimized.default_target_exchanges
         START_DATE END_DATE MAX_MARKET_CAP fresh)
  = Ok ([], []).
Proof. vm_compute. reflexivity. Qed.

Example main_sample_files :
  map fst (files (snd (main (world_calculated "NMS" ConnectionError) "/srv/outputs" fresh)))
  = [ "/srv/outputs/delisted_all_2015_2024.csv";
      "/srv/outputs/delisted_all_2015_2024_symbols_only.csv";
      "/srv/outputs/delisted_small_caps_2015_2024.csv";
      "/srv/outputs/delisted_small_caps_2015_2024_symbols_only.csv" ].
Proof. vm_compute. reflexivity. Qed.

(** ** Order of strings *)

Lemma string_compare_trans_le s1 :
  forall s2 s3,
    String.compare s1 s2 <> Gt -> String.compare s2 s3 <> Gt ->
    String.compare s1 s3 <> Gt.
Proof.
  induction s1 as [| a s1 IH]; intros [| b s2] [| c s3]; cbn; try congruence.
  unfold Ascii.compare.
  destruct (N.compare_spec (N_of_ascii a) (N_of_ascii b)) as [Hab | Hab | Hab];
    destruct (N.compare_spec (N_of_ascii b) (N_of_ascii c)) as [Hbc | Hbc | Hbc];
    destruct (N.compare_spec (N_of_ascii a) (N_of_ascii c)) as [Hac | Hac | Hac];
    try congruence; try lia.
  apply IH.
Qed.

Lemma string_leb_trans s1 s2 s3 :
  String.leb s1 s2 = true -> String.leb s2 s3 = true -> String.leb s1 s3 = true.
Proof.
  unfold String.leb. intros H1 H2.
  pose proof (string_compare_trans_le s1 s2 s3) as H.
  destruct (String.compare s1 s2), (String.compare s2 s3), (String.compare s1 s3);
    try reflexivity; try discriminate; exfalso; apply H; congruence.
Qed.

Lemma string_ltb_not_leb s1 s2 :
  String.ltb s1 s2 = true -> String.leb s2 s1 = false.
Proof.
  unfold String.ltb, String.leb. rewrite (String.compare_antisym s1 s2).
  destruct (String.compare s2 s1); cbn; congruence.
Qed.

Lemma string_leb_refl s : String.leb s s = true.
Proof. destruct (String.leb_total s s); assumption. Qed.

(** ** Sorting *)

Section Sorting.

Import SECDelistingScraperOptimized.

Context {A : Type} (le : A -> A -> bool).
Hypothesis le_total : forall a b, le a b = true \/ le b a = true.
Hypothesis le_trans : forall a b c, le a b = true -> le b c = true -> le a c = true.

Lemma insert_sorted_perm x l : Permutation (x :: l) (insert_sorted le x l).
Proof.
  induction l as [| y l IH]; cbn; [reflexivity |].
  destruct (le x y); [reflexivity |].
  rewrite perm_swap. constructor. exact IH.
Qed.

Lemma sort_values_perm l : Permutation l (sort_values le l).
Proof.
  induction l as [| x l IH]; cbn; [reflexivity |].
  rewrite <- insert_sorted_perm. constructor. exact IH.
Qed.

Lemma insert_sorted_sorted x l :
  StronglySorted (fun a b => le a b = true) l ->
  StronglySorted (fun a b => le a b = true) (insert_sorted le x l).
Proof.
  induction 1 as [| y l Hl IH Hy]; cbn.
  - repeat constructor.
  - destruct (le x y) eqn:Hxy.
    + constructor; [constructor; assumption |].
      constructor; [exact Hxy |].
      eapply Forall_impl; [exact Hy |]. intros z Hz. eapply le_trans; eauto.
    + constructor; [exact IH |].
      rewrite <- insert_sorted_perm. constructor; [| exact Hy].
      destruct (le_total x y); congruence.
Qed.

Lemma sort_values_sorted l :
  StronglySorted (fun a b => le a b = true) (sort_values le l).
Proof.
  induction l as [| x l IH]; cbn; [constructor |].
  apply insert_sorted_sorted. exact IH.
Qed.

End Sorting.

(** ** Duplicates *)

Section Duplicates.

Import SECDelistingScraperOptimized.

Lemma drop_duplicates_from_elem rows :
  forall seen e,
    e ∈ drop_duplicates_from seen rows
    <-> (exists l1 l2, rows = l1 ++ (e :: l2)
                       /\ (ticker e ∉ seen) /\ (ticker e ∉ map ticker l1)).
Proof.
  induction rows as [| r rest IH]; intros seen e; cbn [drop_duplicates_from].
  - split.
    + intros H. apply elem_of_nil in H. destruct H.
    + intros ([| ? ?] & l2 & H & _); discriminate H.
  - case_bool_decide as Hr.
    + rewrite IH. split.
      * intros (l1 & l2 & -> & Hs & Hl). exists (r :: l1), l2.
        split; [reflexivity |]. split; [exact Hs |].
        cbn [map]. intros Hin. apply elem_of_cons in Hin as [Hin | Hin]; [| auto].
        apply Hs. rewrite Hin. exact Hr.
      * intros ([| r' l1] & l2 & H & Hs & Hl); inversion H; subst.
        -- contradiction.
        -- exists l1, l2. split; [reflexivity |]. split; [exact Hs |].
           intros Hin. apply Hl. cbn [map]. apply elem_of_cons. auto.
    + rewrite elem_of_cons, IH. split.
      * intros [-> | (l1 & l2 & -> & Hs & Hl)].
        -- exists [], rest. split; [reflexivity |]. split; [exact Hr |].
           cbn. apply not_elem_of_nil.
        -- exists (r :: l1), l2. split; [reflexivity |].
           rewrite not_elem_of_cons in Hs. destruct Hs as [Hne Hs].
           split; [exact Hs |]. cbn [map]. rewrite not_elem_of_cons. auto.
      * intros ([| r' l1] & l2 & H & Hs & Hl); inversion H; subst.
        -- left; reflexivity.
        -- right. cbn [map] in Hl. rewrite not_elem_of_cons in Hl.
           destruct Hl as [Hne Hl]. exists l1, l2.
           split; [reflexivity |]. rewrite not_elem_of_cons. auto.
Qed.

Lemma drop_duplicates_from_nodup rows :
  forall seen, NoDup (map ticker (drop_duplicates_from seen rows)).
Proof.
  induction rows as [| r rest IH]; intros seen; cbn [drop_duplicates_from].
  - constructor.
  - case_bool_decide as Hr; [apply IH |].
    cbn [map]. constructor; [| apply IH].
    intros Hin. apply list_elem_of_fmap in Hin as (e & He & Hin).
    apply drop_duplicates_from_elem in Hin as (_ & _ & _ & Hs & _).
    apply Hs. rewrite <- He. apply list_elem_of_here.
Qed.

(** The first row with a given ticker. *)
Lemma first_with_ticker (rows : list Filing) e :
  e ∈ rows ->
  exists e' l1 l2, rows = l1 ++ e' :: l2
                   /\ ticker e' = ticker e
                   /\ ticker e ∉ map ticker l1.
Proof.
  induction rows as [| r rest IH]; intros Hin.
  - apply elem_of_nil in Hin. destruct Hin.
  - destruct (decide (ticker r = ticker e)) as [Heq | Hne].
    + exists r, [], rest. repeat split; [exact Heq | cbn; apply not_elem_of_nil].
    + apply elem_of_cons in Hin as [-> | Hin]; [congruence |].
      destruct (IH Hin) as (e' & l1 & l2 & -> & Ht & Hl).
      exists e', (r :: l1), l2. repeat split; [exact Ht |].
      cbn [map]. rewrite not_elem_of_cons. auto.
Qed.

Section Dedup.

(** Any arrangement of the rows by date, latest first. *)
Variables rows sorted : list Filing.
Hypothesis sorted_perm : Permutation rows sorted.
Hypothesis sorted_desc : StronglySorted (fun a b => date_desc a b = true) sorted.

Lemma sorted_before l1 e l2 x :
  sorted = l1 ++ e :: l2 -> x ∈ l2 -> date_le x e.
Proof.
  intros Hs Hx. rewrite Hs in sorted_desc.
  apply StronglySorted_app_1_r in sorted_desc.
  apply StronglySorted_inv in sorted_desc as [_ Hall].
  rewrite List.Forall_forall in Hall. apply Hall, list_elem_of_In, Hx.
Qed.

Lemma kept_in_rows e : e ∈ drop_duplicates sorted -> e ∈ rows.
Proof.
  intros H. apply drop_duplicates_from_elem in H as (l1 & l2 & Hs & _).
  rewrite sorted_perm, Hs. apply elem_of_app. right. apply list_elem_of_here.
Qed.

Lemma kept_covers e :
  e ∈ rows ->
  exists e', e' ∈ drop_duplicates sorted /\ ticker e' = ticker e /\ date_le e e'.
Proof.
  intros He. rewrite sorted_perm in He.
  destruct (first_with_ticker sorted e He) as (e' & l1 & l2 & Hs & Ht & Hl).
  exists e'. split; [| split; [exact Ht |]].
  - apply drop_duplicates_from_elem. exists l1, l2.
    split; [exact Hs |]. split; [apply not_elem_of_nil | rewrite Ht; exact Hl].
  - rewrite Hs in He. apply elem_of_app in He as [He | He].
    + exfalso. apply Hl. apply list_elem_of_fmap. eauto.
    + apply elem_of_cons in He as [-> | He].
      * apply string_leb_refl.
      * eapply sorted_before; eauto.
Qed.

Lemma older_dropped e1 e2 :
  e1 ∈ rows -> e2 ∈ rows -> ticker e1 = ticker e2 -> date_lt e1 e2 ->
  e1 ∉ drop_duplicates sorted.
Proof.
  intros _ H2 Ht Hlt Hin.
  apply drop_duplicates_from_elem in Hin as (l1 & l2 & Hs & _ & Hl).
  rewrite sorted_perm, Hs in H2.
  apply string_ltb_not_leb in Hlt.
  apply elem_of_app in H2 as [H2 | H2].
  - apply Hl. rewrite Ht. apply list_elem_of_fmap. eauto.
  - apply elem_of_cons in H2 as [-> | H2].
    + rewrite string_leb_refl in Hlt. discriminate Hlt.
    + pose proof (sorted_before _ _ _ _ Hs H2) as Hle.
      unfold date_le in Hle. congruence.
Qed.

Lemma latest_kept e2 :
  e2 ∈ rows ->
  (forall e, e ∈ rows -> ticker e = ticker e2 -> e = e2 \/ date_lt e e2) ->
  e2 ∈ drop_duplicates sorted.
Proof.
  intros H2 Hmax.
  destruct (kept_covers e2 H2) as (e' & Hin & Ht & Hle).
  destruct (Hmax e' (kept_in_rows e' Hin) Ht) as [-> | Hlt]; [exact Hin |].
  apply string_ltb_not_leb in Hlt. unfold date_le in Hle. congruence.
Qed.

End Dedup.

End Duplicates.

(** ** Dates as strings *)

Section IsoDates.

Lemma digit_spec c n :
  digit c = Some n -> nat_of_ascii c = 48 + n /\ n <= 9.
Proof.
  unfold digit.
  destruct (Nat.leb 48 (nat_of_ascii c)) eqn:H1;
    destruct (Nat.leb (nat_of_ascii c) 57) eqn:H2;
    cbn [andb]; try discriminate.
  apply Nat.leb_le in H1, H2. intros Hn. inversion Hn. lia.
Qed.

Lemma digit_compare c c' n n' :
  digit c = Some n -> digit c' = Some n' -> Ascii.compare c c' = Nat.compare n n'.
Proof.
  intros [H1 _]%digit_spec [H2 _]%digit_spec.
  unfold Ascii.compare. rewrite N2Nat.inj_compare.
  change (N.to_nat (N_of_ascii c)) with (nat_of_ascii c).
  change (N.to_nat (N_of_ascii c')) with (nat_of_ascii c').
  rewrite H1, H2.
  destruct (Nat.compare_spec (48 + n) (48 + n'));
    destruct (Nat.compare_spec n n'); try reflexivity; lia.
Qed.

Lemma dv_digit c n : digit c = Some n -> dv c = n.
Proof. unfold dv. intros ->. reflexivity. Qed.

Lemma is_digit_true c : is_digit c = true -> exists n, digit c = Some n.
Proof. unfold is_digit. destruct (digit c); [eauto | discriminate]. Qed.

Lemma alt_some {A} (x y : option A) r : alt x y = Some r -> x = Some r \/ y = Some r.
Proof. unfold alt. destruct x; auto. Qed.

Lemma two_some p q a b rest v cs :
  two p q (a :: b :: rest) = Some (v, cs) -> v = 10 * dv a + dv b /\ cs = rest.
Proof. unfold two. destruct (p a && q b); intros H; inversion H; auto. Qed.

Lemma one_some p a rest v cs :
  one p (a :: rest) = Some (v, cs) -> v = dv a /\ cs = rest.
Proof. unfold one. destruct (p a); intros H; inversion H; auto. Qed.

Lemma parse_month_some a b rest m cs :
  parse_month (a :: b :: rest) = Some (m, cs) ->
  (m = 10 * dv a + dv b /\ cs = rest) \/ (m = dv a /\ cs = b :: rest).
Proof.
  unfold parse_month.
  intros [H | [H | H]%alt_some]%alt_some;
    [apply two_some in H | apply two_some in H | apply one_some in H]; auto.
Qed.

Lemma parse_day_some a b rest d cs :
  parse_day (a :: b :: rest) = Some (d, cs) ->
  (d = 10 * dv a + dv b /\ cs = rest) \/ (d = dv a /\ cs = b :: rest).
Proof.
  unfold parse_day.
  intros [H | [H | [H | [H | H]%alt_some]%alt_some]%alt_some]%alt_some;
    [apply two_some in H | apply two_some in H | apply two_some in H
    | apply one_some in H | apply two_some in H]; auto.
Qed.

Lemma digit_not_dash c n : digit c = Some n -> Ascii.eqb c "-" = false.
Proof.
  intros H. apply Ascii.eqb_neq. intros ->. vm_compute in H. discriminate H.
Qed.

(** The shape of a zero-padded date and what it parses to. *)
Lemma iso_date_shape s d :
  iso_date s = true ->
  strptime s = Some d ->
  exists c0 c1 c2 c3 c5 c6 c8 c9 y0 y1 y2 y3 m0 m1 d0 d1,
    s = String c0 (String c1 (String c2 (String c3 (String "-"
          (String c5 (String c6 (String "-" (String c8 (String c9 "")))))))))
    /\ (digit c0 = Some y0 /\ digit c1 = Some y1 /\ digit c2 = Some y2 /\ digit c3 = Some y3)
    /\ (digit c5 = Some m0 /\ digit c6 = Some m1)
    /\ (digit c8 = Some d0 /\ digit c9 = Some d1)
    /\ d = {| year := 1000 * y0 + 100 * y1 + 10 * y2 + y3;
              month := 10 * m0 + m1; day := 10 * d0 + d1 |}.
Proof.
  unfold iso_date.
  do 11 (destruct s as [| ? s]; cbn [list_ascii_of_string]; try discriminate).
  intros H Hparse. repeat (apply andb_true_iff in H as [H ?]).
  repeat match goal with
         | E : is_digit _ = true |- _ => apply is_digit_true in E as [? E]
         | E : Ascii.eqb _ "-" = true |- _ => apply Ascii.eqb_eq in E; subst
         end.
  unfold strptime, parse_year in Hparse. cbn [list_ascii_of_string] in Hparse.
  repeat match goal with E : digit _ = Some _ |- _ => rewrite E in Hparse end.
  cbn [expect_dash Ascii.eqb Bool.eqb] in Hparse.
  destruct (parse_month _) as [[m cs3] |] eqn:Em; [| discriminate].
  apply parse_month_some in Em as [[-> ->] | [-> ->]].
  - cbn [expect_dash Ascii.eqb Bool.eqb] in Hparse.
    destruct (parse_day _) as [[dd cs5] |] eqn:Ed; [| discriminate].
    apply parse_day_some in Ed as [[-> ->] | [-> ->]]; [| discriminate].
    destruct (_ && _); [| discriminate].
    injection Hparse as Hparse; subst d.
    repeat match goal with E : digit _ = Some _ |- _ => rewrite (dv_digit _ _ E) end.
    do 16 eexists. split; [reflexivity |].
    repeat apply conj; try eassumption. reflexivity.
  - unfold expect_dash in Hparse.
    match goal with E : digit ?c = Some _, G : context [Ascii.eqb ?c "-"] |- _ =>
      rewrite (digit_not_dash _ _ E) in G end.
    discriminate.
Qed.

(** On zero-padded dates the order of the strings is the order of the dates. *)
Lemma iso_date_order s1 s2 d1 d2 :
  iso_date s1 = true -> iso_date s2 = true ->
  strptime s1 = Some d1 -> strptime s2 = Some d2 ->
  String.ltb s1 s2 = datetime_ltb d1 d2.
Proof.
  intros I1 I2 P1 P2.
  destruct (iso_date_shape s1 d1 I1 P1)
    as (a0 & a1 & a2 & a3 & a5 & a6 & a8 & a9 & y0 & y1 & y2 & y3 & m0 & m1 & e0 & e1
        & -> & (A0 & A1 & A2 & A3) & (A5 & A6) & (A8 & A9) & ->).
  destruct (iso_date_shape s2 d2 I2 P2)
    as (b0 & b1 & b2 & b3 & b5 & b6 & b8 & b9 & z0 & z1 & z2 & z3 & n0 & n1 & f0 & f1
        & -> & (B0 & B1 & B2 & B3) & (B5 & B6) & (B8 & B9) & ->).
  unfold String.ltb. cbn [String.compare].
  rewrite (digit_compare _ _ _ _ A0 B0), (digit_compare _ _ _ _ A1 B1),
    (digit_compare _ _ _ _ A2 B2), (digit_compare _ _ _ _ A3 B3),
    (digit_compare _ _ _ _ A5 B5), (digit_compare _ _ _ _ A6 B6),
    (digit_compare _ _ _ _ A8 B8), (digit_compare _ _ _ _ A9 B9).
  change (Ascii.compare "-" "-") with Eq. cbn iota.
  apply digit_spec in A0 as [_ ?], A1 as [_ ?], A2 as [_ ?], A3 as [_ ?],
    A5 as [_ ?], A6 as [_ ?], A8 as [_ ?], A9 as [_ ?],
    B0 as [_ ?], B1 as [_ ?], B2 as [_ ?], B3 as [_ ?],
    B5 as [_ ?], B6 as [_ ?], B8 as [_ ?], B9 as [_ ?].
  unfold datetime_ltb, datetime_leb. cbn [year month day].
  repeat match goal with
         | |- context [Nat.compare ?a ?b] => destruct (Nat.compare_spec a b); subst
         end;
    repeat match goal with
           | |- context [Nat.ltb ?a ?b] => destruct (Nat.ltb_spec a b); try lia
           | |- context [Nat.leb ?a ?b] => destruct (Nat.leb_spec a b); try lia
           end;
    reflexivity.
Qed.

End IsoDates.

(** ** save_to_csv *)

Section OutputClaim.

Import SECDelistingScraperOptimized.

Lemma date_desc_total a b : date_desc a b = true \/ date_desc b a = true.
Proof. unfold date_desc. apply String.leb_total. Qed.

Lemma date_desc_trans a b c :
  date_desc a b = true -> date_desc b c = true -> date_desc a c = true.
Proof. unfold date_desc. intros H1 H2. eapply string_leb_trans; eauto. Qed.

Lemma save_to_csv_nonempty (rows : list Filing) (output_file : string) (st : State) :
  rows <> [] ->
  save_to_csv rows output_file st
  = (Ok tt,
     {| clock := clock st; log := log st; fmp_api_working := fmp_api_working st;
        stats := stats st; ticker_to_exchange := ticker_to_exchange st;
        files :=
          (files st
             ++ [(output_file, CsvRows (drop_duplicates (sort_values date_desc rows)))])
            ++ [(replace ".csv" "_symbols_only.csv" output_file,
                 CsvTickers
                   (sort_values String.leb
                      (map ticker (drop_duplicates (sort_values date_desc rows)))))] |}).
Proof.
  intros Hne. destruct rows as [| r rest]; [congruence | reflexivity].
Qed.

(** C9. For a non-empty list of rows [save_to_csv] writes two files. The
    main file holds one row per ticker, each taken from the input, and for
    every input row a row with the same ticker and a filing date at least as
    late; of two rows with the same ticker and different dates the one with
    the earlier date is not written, and a row later than every other row of
    its ticker is written. The companion file holds the tickers of the main
    file in ascending order. Dates are ordered as the strings of the
    [filing_date] column, which on zero-padded YYYY-MM-DD dates is the order
    of the calendar. *)
Theorem save_to_csv_keeps_latest (rows : list Filing) (output_file : string) (st : State) :
  rows <> [] ->
  exists kept symbols st',
    save_to_csv rows output_file st = (Ok tt, st')
    /\ files st' = files st ++ [ (output_file, CsvRows kept);
                                 (replace ".csv" "_symbols_only.csv" output_file,
                                  CsvTickers symbols) ]
    /\ NoDup (map ticker kept)
    /\ (forall e, e ∈ kept -> e ∈ rows)
    /\ (forall e, e ∈ rows ->
                  exists e', e' ∈ kept /\ ticker e' = ticker e /\ date_le e e')
    /\ (forall e1 e2,
          e1 ∈ rows -> e2 ∈ rows -> ticker e1 = ticker e2 -> date_lt e1 e2 ->
          e1 ∉ kept)
    /\ (forall e2,
          e2 ∈ rows ->
          (forall e, e ∈ rows -> ticker e = ticker e2 -> e = e2 \/ date_lt e e2) ->
          e2 ∈ kept)
    /\ Permutation symbols (map ticker kept)
    /\ StronglySorted (fun a b => String.leb a b = true) symbols
    /\ (forall e1 e2 d1 d2,
          iso_date (filing_date e1) = true ->
          iso_date (filing_date e2) = true ->
          strptime (filing_date e1) = Some d1 ->
          strptime (filing_date e2) = Some d2 ->
          (date_lt e1 e2 <-> datetime_ltb d1 d2 = true)).
Proof.
  intros Hne.
  pose proof (sort_values_perm date_desc rows) as Hperm.
  pose proof (sort_values_sorted date_desc date_desc_total date_desc_trans rows) as Hsorted.
  exists (drop_duplicates (sort_values date_desc rows)),
         (sort_values String.leb (map ticker (drop_duplicates (sort_values date_desc rows)))).
  eexists. split; [apply save_to_csv_nonempty; exact Hne |].
  split; [cbn [files]; rewrite <- app_assoc; reflexivity |].
  split; [apply drop_duplicates_from_nodup |].
  split; [intros e; eapply kept_in_rows; eauto |].
  split; [intros e; eapply kept_covers; eauto |].
  split; [intros e1 e2; eapply older_dropped; eauto |].
  split; [intros e2; eapply latest_kept; eauto |].
  split; [symmetry; apply sort_values_perm |].
  split; [apply sort_values_sorted; [apply String.leb_total | apply string_leb_trans] |].
  intros e1 e2 d1 d2 I1 I2 P1 P2. unfold date_lt.
  rewrite (iso_date_order _ _ _ _ I1 I2 P1 P2). reflexivity.
Qed.

End OutputClaim.

Lemma save_to_csv_keeps_latest_witness :
  exists kept symbols st',
    SECDelistingScraperOptimized.save_to_csv [older_row; sample_row]
      "outputs/delisted_all_2015_2024.csv" fresh = (Ok tt, st')
    /\ files st'
       = files fresh
         ++ [ ("outputs/delisted_all_2015_2024.csv", CsvRows kept);
              (replace ".csv" "_symbols_only.csv" "outputs/delisted_all_2015_2024.csv",
               CsvTickers symbols) ]
    /\ NoDup (map ticker kept)
    /\ (forall e, e ∈ kept -> e ∈ [older_row; sample_row])
    /\ (forall e, e ∈ [older_row; sample_row] ->
                  exists e', e' ∈ kept /\ ticker e' = ticker e /\ date_le e e')
    /\ (forall e1 e2,
          e1 ∈ [older_row; sample_row] -> e2 ∈ [older_row; sample_row] ->
          ticker e1 = ticker e2 -> date_lt e1 e2 -> e1 ∉ kept)
    /\ (forall e2,
          e2 ∈ [older_row; sample_row] ->
          (forall e, e ∈ [older_row; sample_row] ->
                     ticker e = ticker e2 -> e = e2 \/ date_lt e e2) ->
          e2 ∈ kept)
    /\ Permutation symbols (map ticker kept)
    /\ StronglySorted (fun a b => String.leb a b = true) symbols
    /\ (forall e1 e2 d1 d2,
          iso_date (filing_date e1) = true ->
          iso_date (filing_date e2) = true ->
          strptime (filing_date e1) = Some d1 ->
          strptime (filing_date e2) = Some d2 ->
          (date_lt e1 e2 <-> datetime_ltb d1 d2 = true)).
Proof.
  apply (save_to_csv_keeps_latest [older_row; sample_row]
           "outputs/delisted_all_2015_2024.csv" fresh).
  discriminate.
Defined.

(** The two files written for the two sample rows. *)
Example save_to_csv_sample :
  files (snd (SECDelistingScraperOptimized.save_to_csv [older_row; sample_row]
                "outputs/delisted_all_2015_2024.csv" fresh))
  = [ ("outputs/delisted_all_2015_2024.csv", CsvRows [sample_row]);
      ("outputs/delisted_all_2015_2024_symbols_only.csv", CsvTickers ["ABCD"]) ].
Proof. vm_compute. reflexivity. Qed.

(** ** Exceptions that stay inside *)

Section Robustness.

Import OptimizedMarketCapFetcher SECDelistingScraperOptimized.

Variable w : World.
Variable fmp_api_key : option string.

Lemma validate_never_raises st :
  exists b st', _validate_fmp_api_key w st = (Ok b, st').
Proof.
  unfold _validate_fmp_api_key. crunch; eauto.
Qed.

Lemma fetcher_init_never_raises st :
  exists st', OptimizedMarketCapFetcher.init w fmp_api_key st = (Ok tt, st').
Proof.
  unfold OptimizedMarketCapFetcher.init, _validate_fmp_api_key. crunch; eauto.
Qed.

(** X1. No exception leaves the four strategies, the resolver, the key
    validation, the constructor of the scraper, the exchange lookup, the
    registry fetch or the fetch of a filing history: whatever the providers
    answer, each of them returns a value. *)
Theorem no_exception_escapes :
  (forall t date st, exists r st', _get_yahoo_historical w t date st = (Ok r, st'))
  /\ (forall t date st, exists r st', _get_from_fmp w fmp_api_key t date st = (Ok r, st'))
  /\ (forall t date st, exists r st', _calculate_from_yahoo_data w t date st = (Ok r, st'))
  /\ (forall t st, exists r st', _get_yahoo_current w t st = (Ok r, st'))
  /\ (forall t date company st,
        exists r st', get_market_cap w fmp_api_key t date company st = (Ok r, st'))
  /\ (forall st, exists b st', _validate_fmp_api_key w st = (Ok b, st'))
  /\ (forall st, exists st', SECDelistingScraperOptimized.init w fmp_api_key st = (Ok tt, st'))
  /\ (forall t st, exists r st', _get_ticker_exchange w t st = (Ok r, st'))
  /\ (forall st, exists m st', get_company_tickers w st = (Ok m, st'))
  /\ (forall c st, exists r st', get_submissions_for_cik w c st = (Ok r, st')).
Proof.
  repeat apply conj.
  - intros t date st. destruct (yahoo_historical_step w t date st) as (r & s & E & _). eauto.
  - intros t date st. destruct (fmp_step w fmp_api_key t date st) as (r & s & E & _). eauto.
  - intros t date st. destruct (calculated_step w t date st) as (r & s & E & _). eauto.
  - intros t st. destruct (yahoo_current_step w t st) as (r & s & E & _). eauto.
  - intros t date company st.
    destruct (get_market_cap_run w fmp_api_key t date company st) as (r & s & E & _). eauto.
  - apply validate_never_raises.
  - intros st. unfold SECDelistingScraperOptimized.init.
    destruct (fetcher_init_never_raises st) as (s & E).
    erewrite bind_ok by exact E. unfold set_cache. eauto.
  - apply ticker_exchange_never_raises.
  - intros st. destruct (get_company_tickers w st) as [q s] eqn:E.
    apply try_endpoints_frame in E as ([m ->] & _). eauto.
  - intros c st. destruct (get_submissions_for_cik w c st) as [q s] eqn:E.
    apply get_submissions_frame in E as ([v ->] & _). eauto.
Qed.

(** X2. The constructor of the fetcher. Without a key it sends nothing and
    leaves the secondary API disabled. With a key it sends exactly one
    request, the quote of AAPL, and enables the secondary API exactly when
    the answer is a 200 whose body is a non-empty list with a ['marketCap']
    key in its first element. *)
Theorem startup_validation (st : State) :
  (key_supplied fmp_api_key = false ->
   exists st',
     OptimizedMarketCapFetcher.init w fmp_api_key st = (Ok tt, st')
     /\ fmp_api_working st' = false
     /\ log st' = log st /\ clock st' = clock st)
  /\ (key_supplied fmp_api_key = true ->
      exists st',
        OptimizedMarketCapFetcher.init w fmp_api_key st = (Ok tt, st')
        /\ log st' = log st ++ [EvFmpGet (fmp_quote_url "AAPL")]
        /\ (fmp_api_working st' = true
            <-> exists q items,
                  fmp_get w (clock st) (fmp_quote_url "AAPL")
                  = Response 200 (Some (FmpList (q :: items)))
                  /\ is_Some (q !! "marketCap"))).
Proof.
  destruct st as [ck lg fl sts ch fs]. split; intros Hk.
  - unfold OptimizedMarketCapFetcher.init. rewrite Hk. eexists. repeat apply conj; reflexivity.
  - unfold OptimizedMarketCapFetcher.init, _validate_fmp_api_key. rewrite Hk. reduce_m.
    destruct (fmp_get w ck (fmp_quote_url "AAPL")) as [| code [[[| q items] | d] |]] eqn:E;
      [| destruct (Z.eqb_spec code 200) as [-> | Hne]
       | destruct (Z.eqb_spec code 200) as [-> | Hne]
       | destruct (Z.eqb_spec code 200) as [-> | Hne]
       | destruct (Z.eqb_spec code 200) as [-> | Hne] ];
      try destruct (q !! "marketCap") as [v |] eqn:Hq;
      eexists; (split; [reflexivity |]); (split; [reflexivity |]); cbn;
      (split; [try discriminate | ]).
    all: try (intros (q' & items' & Heq & Hs); try discriminate Heq; inversion Heq; subst;
              try contradiction; try (rewrite Hq in Hs; destruct Hs; discriminate)).
    all: try (intros _; eauto).
    all: reflexivity.
Qed.

End Robustness.

(** ** The values the resolver returns *)

Section Values.

Import OptimizedMarketCapFetcher SECDelistingScraperOptimized.

Variable w : World.
Variable fmp_api_key : option string.

Lemma yahoo_historical_sane t d st x st' :
  _get_yahoo_historical w t d st = (Ok (Some x), st') -> sanity_check x = true.
Proof.
  unfold _get_yahoo_historical. destruct st as [ck lg fl sts ch fs].
  crunch; intros H; inversion H; subst; assumption.
Qed.

Lemma calculated_sane t d st x st' :
  _calculate_from_yahoo_data w t d st = (Ok (Some x), st') -> sanity_check x = true.
Proof.
  unfold _calculate_from_yahoo_data. destruct st as [ck lg fl sts ch fs].
  crunch; intros H; inversion H; subst; assumption.
Qed.

Lemma yahoo_current_positive t st x st' :
  _get_yahoo_current w t st = (Ok (Some x), st') -> PrimFloat.ltb 0 x = true.
Proof.
  unfold _get_yahoo_current. destruct st as [ck lg fl sts ch fs].
  crunch; intros H; inversion H; subst; assumption.
Qed.

Lemma fmp_positive t d st x st' :
  _get_from_fmp w fmp_api_key t d st = (Ok (Some x), st') -> PrimFloat.ltb 0 x = true.
Proof.
  unfold _get_from_fmp. destruct st as [ck lg fl sts ch fs].
  crunch; intros H; inversion H; subst; assumption.
Qed.

Lemma cascade_run_value t d st r st' :
  cascade_run w fmp_api_key t d st r st' -> value_ok r.
Proof.
  intros H. inversion H; subst; cbn.
  - left. split; [reflexivity |]. eapply yahoo_historical_sane; eauto.
  - right; left. split; [reflexivity |].
    match goal with E : fmp_if_enabled _ _ _ _ _ = _ |- _ =>
      unfold fmp_if_enabled in E;
      destruct (key_supplied fmp_api_key && fmp_api_working s1); [| discriminate E];
      eapply fmp_positive; eauto end.
  - right; right; left. split; [reflexivity |]. eapply calculated_sane; eauto.
  - right; right; right. split; [reflexivity |]. eapply yahoo_current_positive; eauto.
  - reflexivity.
Qed.

(** X3. What the resolver returns: a value labelled ["yahoo_historical"] or
    ["calculated"] lies strictly between 1,000 and 1,000,000,000,000; a value
    labelled ["fmp_api"] or ["yahoo_current"] is only known to be positive,
    the sanity bounds are not applied to it; and no value comes with the
    label ["none"]. *)
Theorem resolved_value_bounds t d c st r st' :
  get_market_cap w fmp_api_key t d c st = (Ok r, st') -> value_ok r.
Proof.
  intros H. destruct (get_market_cap_run w fmp_api_key t d c st) as (r' & s' & E & Hrun).
  rewrite E in H. inversion H; subst. eapply cascade_run_value; eauto.
Qed.

End Values.

(** ** The requests of a resolution *)

Section Requests.

Import OptimizedMarketCapFetcher SECDelistingScraperOptimized.

Variable w : World.
Variable fmp_api_key : option string.

Ltac solve_sends :=
  let H := fresh in
  intros H; inversion H; subst; clear H; unfold sends;
  cbn [clock log fmp_api_working stats ticker_to_exchange files];
  eexists; split; [repeat rewrite <- app_assoc; cbn [app]; reflexivity |];
  split; [eexists; cbn [app]; reflexivity | cbn [length]; lia].

Lemma yahoo_historical_sends t d st r st' :
  _get_yahoo_historical w t d st = (r, st') ->
  sends "yahoo_historical" [EvHistory t; EvInfo t] st st'.
Proof.
  unfold _get_yahoo_historical. destruct st as [ck lg fl sts ch fs].
  crunch; solve_sends.
Qed.

Lemma calculated_sends t d st r st' :
  _calculate_from_yahoo_data w t d st = (r, st') ->
  sends "calculated" [EvHistory t; EvInfo t] st st'.
Proof.
  unfold _calculate_from_yahoo_data. destruct st as [ck lg fl sts ch fs].
  crunch; solve_sends.
Qed.

Lemma yahoo_current_sends t st r st' :
  _get_yahoo_current w t st = (r, st') ->
  log st' = log st ++ [EvStrategy "yahoo_current"; EvInfo t]
  /\ clock st' = S (clock st).
Proof.
  unfold _get_yahoo_current. destruct st as [ck lg fl sts ch fs].
  crunch; intros H; inversion H; subst; cbn; rewrite <- app_assoc; auto.
Qed.

Lemma fmp_sends t d st r st' :
  _get_from_fmp w fmp_api_key t d st = (r, st') ->
  sends "fmp_api" [EvFmpGet (fmp_quote_url t)] st st'.
Proof.
  unfold _get_from_fmp. destruct st as [ck lg fl sts ch fs].
  crunch; solve_sends.
Qed.

Lemma yahoo_historical_sends_some t d st x st' :
  _get_yahoo_historical w t d st = (Ok (Some x), st') ->
  log st' = log st ++ [EvStrategy "yahoo_historical"; EvHistory t; EvInfo t]
  /\ clock st' = S (S (clock st)).
Proof.
  unfold _get_yahoo_historical. destruct st as [ck lg fl sts ch fs].
  crunch; intros H; inversion H; subst; cbn; repeat rewrite <- app_assoc; auto.
Qed.

Lemma calculated_sends_some t d st x st' :
  _calculate_from_yahoo_data w t d st = (Ok (Some x), st') ->
  log st' = log st ++ [EvStrategy "calculated"; EvHistory t; EvInfo t]
  /\ clock st' = S (S (clock st)).
Proof.
  unfold _calculate_from_yahoo_data. destruct st as [ck lg fl sts ch fs].
  crunch; intros H; inversion H; subst; cbn; repeat rewrite <- app_assoc; auto.
Qed.

Lemma fmp_sends_some t d st x st' :
  _get_from_fmp w fmp_api_key t d st = (Ok (Some x), st') ->
  log st' = log st ++ [EvStrategy "fmp_api"; EvFmpGet (fmp_quote_url t)]
  /\ clock st' = S (clock st).
Proof.
  unfold _get_from_fmp. destruct st as [ck lg fl sts ch fs].
  crunch; intros H; inversion H; subst; cbn; repeat rewrite <- app_assoc; auto.
Qed.

Lemma prefix_of_one {A} (l : list A) a : l `prefix_of` [a] -> l = [] \/ l = [a].
Proof.
  intros [k H]. destruct l as [| x [| y l]]; inversion H; subst; auto.
Qed.

Lemma prefix_of_two {A} (l : list A) a b :
  l `prefix_of` [a; b] -> l = [] \/ l = [a] \/ l = [a; b].
Proof.
  intros [k H]. destruct l as [| x [| y [| z l]]]; inversion H; subst; auto.
Qed.

Lemma fmp_if_enabled_sends t d st r st' :
  fmp_if_enabled w fmp_api_key t d st = (r, st') ->
  (key_supplied fmp_api_key && fmp_api_working st = true
   /\ sends "fmp_api" [EvFmpGet (fmp_quote_url t)] st st')
  \/ (key_supplied fmp_api_key && fmp_api_working st = false /\ st' = st /\ r = Ok None).
Proof.
  unfold fmp_if_enabled. destruct (key_supplied fmp_api_key && fmp_api_working st).
  - intros H. left. split; [reflexivity |]. eapply fmp_sends; eauto.
  - intros H. inversion H; subst. auto.
Qed.

Lemma fmp_if_enabled_sends_some t d st x st' :
  fmp_if_enabled w fmp_api_key t d st = (Ok (Some x), st') ->
  key_supplied fmp_api_key && fmp_api_working st = true
  /\ log st' = log st ++ [EvStrategy "fmp_api"; EvFmpGet (fmp_quote_url t)]
  /\ clock st' = S (clock st).
Proof.
  unfold fmp_if_enabled. destruct (key_supplied fmp_api_key && fmp_api_working st).
  - intros H. split; [reflexivity |]. eapply fmp_sends_some; eauto.
  - discriminate.
Qed.

(** X4. The provider calls of one resolution: the clock advances by their
    number, there are between one and six of them, all of them about the
    ticker being resolved (its price history, its info record, its quote on
    the secondary API); at most five, none of them to the secondary API,
    when no key was supplied or the secondary API is disabled; and exactly
    the price history and the info record when strategy 1 answers. *)
Theorem resolution_request_budget t date company st r st' :
  get_market_cap w fmp_api_key t date company st = (Ok r, st') ->
  exists evs,
    log st' = log st ++ evs
    /\ clock st' = clock st + length (requests evs)
    /\ Forall (fun e => e ∈ [EvHistory t; EvInfo t; EvFmpGet (fmp_quote_url t)])
         (requests evs)
    /\ 1 <= length (requests evs) <= 6
    /\ (key_supplied fmp_api_key && fmp_api_working st = false ->
        length (requests evs) <= 5
        /\ Forall (fun e => e ∈ [EvHistory t; EvInfo t]) (requests evs))
    /\ (snd r = "yahoo_historical" -> requests evs = [EvHistory t; EvInfo t]).
Proof.
  intros H. destruct (get_market_cap_run w fmp_api_key t date company st) as (r' & s' & E & Hrun).
  rewrite E in H. inversion H; subst r' s'; clear H E.
  assert (Hl : forall f s, log (bump f s) = log s) by reflexivity.
  assert (Hc : forall f s, clock (bump f s) = clock s) by reflexivity.
  assert (Hf : forall f s, fmp_api_working (bump f s) = fmp_api_working s) by reflexivity.
  inversion Hrun; subst; clear Hrun;
    repeat match goal with
    | E : _get_yahoo_historical _ _ _ ?s = (_, ?s') |- _ =>
        lazymatch goal with
        | _ : fmp_api_working s' = fmp_api_working s |- _ => fail
        | _ => pose proof (ystep_flag _ _ _ (proj2 (yahoo_historical_inv _ _ _ _ _ _ E)))
        end
    end;
    repeat match goal with
    | E : _get_yahoo_historical _ _ _ _ = (Ok (Some _), _) |- _ =>
        apply yahoo_historical_sends_some in E; destruct E as [? ?]
    | E : _calculate_from_yahoo_data _ _ _ _ = (Ok (Some _), _) |- _ =>
        apply calculated_sends_some in E; destruct E as [? ?]
    | E : fmp_if_enabled _ _ _ _ _ = (Ok (Some _), _) |- _ =>
        apply fmp_if_enabled_sends_some in E; destruct E as (? & ? & ?)
    | E : _get_yahoo_historical _ _ _ _ = _ |- _ =>
        apply yahoo_historical_sends in E;
        destruct E as (? & ? & [-> | [-> | ->]]%prefix_of_two & ?)
    | E : _calculate_from_yahoo_data _ _ _ _ = _ |- _ =>
        apply calculated_sends in E;
        destruct E as (? & ? & [-> | [-> | ->]]%prefix_of_two & ?)
    | E : _get_yahoo_current _ _ _ = _ |- _ =>
        apply yahoo_current_sends in E; destruct E as [? ?]
    | E : fmp_if_enabled _ _ _ _ _ = _ |- _ =>
        apply fmp_if_enabled_sends in E;
        destruct E as [(? & ? & ? & [-> | ->]%prefix_of_one & ?) | (? & -> & _)]
    end;
    rewrite ?Hl, ?Hc, ?Hf in *;
    repeat match goal with
    | H : log ?s = _ |- context [log ?s] => rewrite H
    | H : clock ?s = _ |- context [clock ?s] => rewrite H
    end;
    repeat rewrite <- app_assoc; cbn [app];
    (eexists; split; [reflexivity |]);
    cbn [requests List.filter is_request length snd];
    (split; [lia |]);
    (split; [repeat constructor |]);
    (split; [lia |]);
    (split; [| first [ intros _; reflexivity | intros; discriminate ] ]);
    intros Hg; try congruence;
    (split; [lia | repeat constructor]).
Qed.

End Requests.

(** ** The registry *)

Section RegistryFacts.

Import SECDelistingScraperOptimized.

Lemma append_cons c a b : String c a +:+ b = String c (a +:+ b).
Proof. reflexivity. Qed.

Lemma length_append a b : String.length (a +:+ b) = String.length a + String.length b.
Proof.
  induction a as [| c a IH]; [reflexivity |].
  rewrite append_cons. cbn [String.length]. rewrite IH. reflexivity.
Qed.

Lemma length_zeros n : String.length (zeros n) = n.
Proof. induction n as [| n IH]; cbn; congruence. Qed.

Lemma zfill_length width s :
  String.length (zfill width s) = Nat.max width (String.length s).
Proof.
  unfold zfill. destruct s as [| c s].
  - rewrite length_zeros. cbn. lia.
  - destruct (Ascii.eqb c "+" || Ascii.eqb c "-").
    + cbn [String.length]. rewrite length_append, length_zeros. cbn [String.length]. lia.
    + rewrite length_append, length_zeros. cbn [String.length]. lia.
Qed.

Section DictSet.

Context {V : Type}.

Lemma dict_set_keys (d : list (string * V)) k v :
  map fst (dict_set d k v)
  = if bool_decide (k ∈ map fst d) then map fst d else map fst d ++ [k].
Proof.
  induction d as [| [k' v'] d IH]; cbn [dict_set map fst].
  - rewrite bool_decide_eq_false_2 by apply not_elem_of_nil. reflexivity.
  - destruct (String.eqb_spec k' k) as [-> | Hne].
    + rewrite bool_decide_eq_true_2 by apply list_elem_of_here. reflexivity.
    + cbn [map fst]. rewrite IH.
      destruct (decide (k ∈ map fst d)) as [Hin | Hnin].
      * rewrite !bool_decide_eq_true_2; auto. apply elem_of_cons; auto.
      * rewrite !bool_decide_eq_false_2; auto.
        rewrite not_elem_of_cons. split; auto.
Qed.

Lemma dict_set_nodup (d : list (string * V)) k v :
  NoDup (map fst d) -> NoDup (map fst (dict_set d k v)).
Proof.
  intros H. rewrite dict_set_keys. case_bool_decide as Hk; [exact H |].
  apply NoDup_app. split; [exact H |]. split.
  - intros x Hx Hx'. apply list_elem_of_singleton in Hx'. subst. contradiction.
  - apply NoDup_singleton.
Qed.

End DictSet.

Lemma registry_fold_nodup items d :
  NoDup (map fst d) ->
  NoDup (map fst (fold_left (fun d it => dict_set d (company_key it) (company_of it)) items d)).
Proof.
  revert d. induction items as [| it items IH]; intros d H; cbn [fold_left]; [exact H |].
  apply IH. apply dict_set_nodup. exact H.
Qed.

Section Registry.

Variable w : World.

Lemma add_companies_run data :
  forall acc st,
    for_each data add_company acc st
    = (match mapM id data with
       | Some items =>
           Ok (fold_left (fun d it => dict_set d (company_key it) (company_of it)) items acc)
       | None => Raise TypeError
       end, st).
Proof.
  induction data as [| [it |] data IH]; intros acc st; cbn [for_each mapM].
  - reflexivity.
  - unfold bind, add_company, ret. rewrite IH. cbn [id mbind option_bind mret option_ret].
    destruct (mapM id data); reflexivity.
  - reflexivity.
Qed.

Lemma try_endpoint_run url st :
  try_endpoint w url st
  = (Ok (registry_of <$> endpoint_answer (sec_get w (clock st) url)),
     snd (external (EvSecGet url) (fun _ => tt) st)).
Proof.
  unfold try_endpoint, endpoint_answer, registry_of. destruct st as [ck lg fl sts ch fs].
  reduce_m.
  destruct (sec_get w ck url) as [| code [data |]]; [reflexivity | |].
  - destruct (Z.eqb code 200); [| reflexivity].
    rewrite add_companies_run. destruct (mapM id data); reflexivity.
  - destruct (Z.eqb code 200); reflexivity.
Qed.

Lemma try_endpoints_run urls :
  forall st,
    exists st',
      try_endpoints w urls st
      = (Ok (match first_answer w (clock st) urls with
             | Some (_, items) => registry_of items
             | None => []
             end), st')
      /\ log st'
         = log st ++ map EvSecGet
                       (take (match first_answer w (clock st) urls with
                              | Some (k, _) => S k
                              | None => length urls
                              end) urls).
Proof.
  induction urls as [| url urls IH]; intros st; cbn [try_endpoints first_answer].
  - eexists. split; [reflexivity |]. cbn. rewrite app_nil_r. reflexivity.
  - unfold bind. rewrite try_endpoint_run.
    destruct (endpoint_answer (sec_get w (clock st) url)) as [items |]; cbn [fmap option_fmap option_map].
    + eexists. split; [reflexivity |]. destruct st; reflexivity.
    + destruct (IH (snd (external (EvSecGet url) (fun _ => tt) st))) as (st' & E & L).
      replace (clock (snd (external (EvSecGet url) (fun _ => tt) st))) with (S (clock st))
        in E, L by (destruct st; reflexivity).
      rewrite E. exists st'.
      destruct (first_answer w (S (clock st)) urls) as [[k items] |];
        (split; [reflexivity |]); rewrite L; destruct st; cbn;
        rewrite <- app_assoc; reflexivity.
Qed.

End Registry.

Section DictSetIff.

Context {V : Type}.

Lemma dict_set_elem_iff (d : list (string * V)) k v k' v' :
  NoDup (map fst d) ->
  (k', v') ∈ dict_set d k v <-> (k' = k /\ v' = v) \/ (k' <> k /\ (k', v') ∈ d).
Proof.
  induction d as [| [k0 v0] d IH]; cbn [dict_set map fst]; intros Hnd.
  - rewrite list_elem_of_singleton. split.
    + intros H; inversion H; auto.
    + intros [[-> ->] | [_ H]]; [reflexivity | apply elem_of_nil in H; destruct H].
  - apply NoDup_cons in Hnd as [Hk0 Hnd].
    destruct (String.eqb_spec k0 k) as [-> | Hne].
    + rewrite !elem_of_cons. split.
      * intros [H | H]; [inversion H; auto |].
        right. split; [| auto]. intros ->. apply Hk0.
        apply list_elem_of_fmap. exists (k, v'). auto.
      * intros [[-> ->] | [Hk [H | H]]]; [auto | inversion H; subst; contradiction | auto].
    + rewrite !elem_of_cons, (IH Hnd). split.
      * intros [H | [H | [Hk H]]]; [inversion H; subst; auto | auto | auto].
      * intros [H | [Hk [H | H]]]; auto.
Qed.

End DictSetIff.

Lemma registry_of_snoc items it :
  registry_of (items ++ [it]) = dict_set (registry_of items) (company_key it) (company_of it).
Proof. unfold registry_of. rewrite fold_left_app. reflexivity. Qed.

Lemma registry_of_nodup items : NoDup (map fst (registry_of items)).
Proof. apply registry_fold_nodup. constructor. Qed.

Lemma registry_of_elem items k ci :
  (k, ci) ∈ registry_of items
  <-> exists it, last_of_key items it /\ k = company_key it /\ ci = company_of it.
Proof.
  revert k ci. induction items as [| it items IH] using rev_ind; intros k ci.
  - split.
    + intros H. apply elem_of_nil in H. destruct H.
    + intros (it & (l1 & l2 & H & _) & _). destruct l1; discriminate H.
  - rewrite registry_of_snoc, dict_set_elem_iff by apply registry_of_nodup.
    rewrite IH. split.
    + intros [[-> ->] | [Hk (it' & (l1 & l2 & -> & Hl2) & -> & ->)]].
      * exists it. split; [| auto]. exists items, []. split; [reflexivity | constructor].
      * exists it'. split; [| auto]. exists l1, (l2 ++ [it]).
        split; [rewrite <- app_assoc; reflexivity |].
        apply Forall_app. split; [exact Hl2 |]. constructor; [| constructor]. congruence.
    + intros (it' & (l1 & l2 & Heq & Hl2) & -> & ->).
      destruct l2 as [| x l2 _] using rev_ind.
      * apply app_inj_tail in Heq as [_ ->]. auto.
      * rewrite app_comm_cons, app_assoc in Heq. apply app_inj_tail in Heq as [-> ->].
        apply Forall_app in Hl2 as [Hl2 Hx]. apply Forall_cons in Hx as [Hx _].
        right. split; [congruence |]. exists it'. split; [| auto]. exists l1, l2. auto.
Qed.

Section RegistryTheorems.

Variable w : World.

(** X5. [get_company_tickers] asks the endpoints in order and stops at the
    first one that answers with status 200, a body that parses and records
    that all have their three fields; its result is the mapping built from
    the records of that endpoint alone, and the empty mapping when no
    endpoint answers. An endpoint with one malformed record counts as
    failed: no partial mapping is returned, the next endpoint is asked. *)
Theorem registry_first_answer (st : State) :
  exists st',
    get_company_tickers w st
    = (Ok (match first_answer w (clock st) endpoints with
           | Some (_, items) => registry_of items
           | None => []
           end), st')
    /\ log st'
       = log st ++ map EvSecGet
                     (take (match first_answer w (clock st) endpoints with
                            | Some (k, _) => S k
                            | None => length endpoints
                            end) endpoints).
Proof. apply try_endpoints_run. Qed.

(** X6. The mapping [get_company_tickers] returns: its keys are pairwise
    different and at least ten characters long, the [cik] field of every
    value is its key, and the value kept for a key comes from the last
    record of the answering endpoint with that key: of a company listed
    under several tickers only the last listed ticker is kept. *)
Theorem registry_well_formed (st : State) m st' :
  get_company_tickers w st = (Ok m, st') ->
  NoDup (map fst m)
  /\ (forall k ci, (k, ci) ∈ m -> info_cik ci = k /\ 10 <= String.length k)
  /\ (forall i items,
        first_answer w (clock st) endpoints = Some (i, items) ->
        forall k ci,
          (k, ci) ∈ m
          <-> exists it, last_of_key items it
                         /\ k = zfill 10 (pretty (cik_str it))
                         /\ ci = {| info_ticker := item_ticker it;
                                    info_title := item_title it;
                                    info_cik := k |}).
Proof.
  intros H. destruct (try_endpoints_run w endpoints st) as (s & E & _).
  unfold get_company_tickers in H. rewrite E in H. clear E.
  destruct (first_answer w (clock st) endpoints) as [[i items] |];
    injection H as <- <-.
  - split; [apply registry_of_nodup |]. split.
    + intros k ci Hin. apply registry_of_elem in Hin as (it & _ & -> & ->).
      split; [reflexivity |]. unfold company_key. rewrite zfill_length. lia.
    + intros i' items' Heq. inversion Heq; subst. intros k ci.
      rewrite registry_of_elem. split.
      * intros (it & Hl & -> & ->). exists it. auto.
      * intros (it & Hl & -> & ->). exists it. auto.
  - split; [constructor |]. split.
    + intros k ci Hin. apply elem_of_nil in Hin. destruct Hin.
    + intros i items Heq. discriminate Heq.
Qed.

End RegistryTheorems.

End RegistryFacts.

(** ** Invariants of the collection *)

Lemma for_each_inv {A B} (I : B -> State -> Prop) (body : A -> B -> M B) (l : list A) :
  (forall x acc st acc' st',
     x ∈ l -> I acc st -> body x acc st = (Ok acc', st') -> I acc' st') ->
  forall acc st acc' st',
    I acc st -> for_each l body acc st = (Ok acc', st') -> I acc' st'.
Proof.
  induction l as [| x l IH]; intros Hbody acc st acc' st' HI Hrun.
  - inversion Hrun; subst. exact HI.
  - cbn [for_each] in Hrun. unfold bind in Hrun.
    destruct (body x acc st) as [[acc1 | e] st1] eqn:E; [| discriminate].
    eapply IH; [| | exact Hrun].
    + intros y a s a' s' Hy. apply Hbody. apply elem_of_cons. auto.
    + eapply Hbody; eauto. apply list_elem_of_here.
Qed.

Section RunFrames.

Import OptimizedMarketCapFetcher SECDelistingScraperOptimized.

Variable w : World.
Variable fmp_api_key : option string.
Variable target_exchanges : list string.

Lemma quiet_refl st : quiet st st.
Proof. repeat split; auto. Qed.

Lemma ticker_exchange_quiet t st r st' :
  _get_ticker_exchange w t st = (r, st') -> quiet st st'.
Proof.
  intros H.
  apply ticker_exchange_cases in H
    as [(x & _ & _ & ->)
       | (Hn & _ & _ & _ & Hs & Hf & [[_ Hc] | (info & raw & x & _ & _ & _ & _ & Hc)])].
  - apply quiet_refl.
  - repeat split; auto. intros t' e. rewrite Hc. auto.
  - repeat split; auto. intros t' e He. rewrite Hc.
    rewrite lookup_insert_ne; [exact He |]. intros <-. congruence.
Qed.

Lemma ticker_exchange_some t st e st' :
  _get_ticker_exchange w t st = (Ok (Some e), st') ->
  ticker_to_exchange st' !! t = Some e.
Proof.
  intros H.
  apply ticker_exchange_cases in H
    as [(x & Hx & Hr & ->)
       | (Hn & _ & _ & _ & _ & _ & [[Hr _] | (info & raw & x & _ & _ & _ & Hr & ->)])].
  - inversion Hr; subst. exact Hx.
  - discriminate Hr.
  - inversion Hr; subst. apply lookup_insert_eq.
Qed.

Lemma get_submissions_run c st :
  get_submissions_for_cik w c st
  = (Ok (default {| filings := None |} (sec_submissions w (clock st) (submissions_url c))),
     after_request (EvSubmissions (submissions_url c)) st).
Proof.
  unfold get_submissions_for_cik, submissions_url, after_request.
  destruct st as [ck lg fl sts ch fs]. reduce_m.
  destruct (sec_submissions w ck _); reflexivity.
Qed.

Lemma after_request_quiet e st : quiet st (after_request e st).
Proof. repeat split; auto. Qed.

Lemma run_steps_files st st' :
  run_steps w fmp_api_key st st' -> files st' = files st.
Proof.
  induction 1 as [st | st t d c r s1 s2 Hc _ IH | st t r s1 s2 Hc _ IH
                 | st c r s1 s2 Hc _ IH].
  - reflexivity.
  - rewrite IH. apply get_market_cap_frame in Hc as (_ & _ & ->). reflexivity.
  - rewrite IH. apply ticker_exchange_quiet in Hc as (_ & -> & _). reflexivity.
  - rewrite IH. apply get_submissions_frame in Hc as (_ & _ & ->). reflexivity.
Qed.

(** One round of the inner loop passes over its entry, or appends a row. *)
Lemma check_filing_row start_dt end_dt T c ci recent i acc st acc' st' :
  check_filing w fmp_api_key target_exchanges start_dt end_dt T c ci recent i acc st
    = (Ok acc', st') ->
  (all_filings acc' = all_filings acc
   /\ filings_with_market_cap acc' = filings_with_market_cap acc
   /\ quiet st st')
  \/ (exists e, acc' = record_filing T e acc
                /\ appended w fmp_api_key target_exchanges start_dt end_dt c ci recent i
                     st st' e).
Proof.
  unfold check_filing. reduce_m.
  repeat (match goal with
          | |- context [match ?x with _ => _ end] => destruct_inner x; reduce_m
          end);
    intros H; inversion H; subst; clear H;
    try (left; split; [reflexivity |]; split; [reflexivity |];
         first [ apply quiet_refl | eapply ticker_exchange_quiet; eassumption ]).
  right. eexists. split; [reflexivity |].
  repeat match goal with
         | H : negb _ = false |- _ => apply negb_false_iff in H
         end.
  match goal with
  | H1 : str_truthy ?x && negb (bool_decide (?x ∈ _)) = false,
    H2 : str_truthy ?x = true |- _ =>
      rewrite H2 in H1; cbn [andb] in H1;
      apply negb_false_iff in H1; apply bool_decide_eq_true in H1
  end.
  match goal with
  | H : bool_decide (_ ∈ ["25"; "25-NSE"]) = true |- _ => apply bool_decide_eq_true in H
  end.
  match goal with
  | H : _ && _ = true |- _ => apply andb_true_iff in H as [? ?]
  end.
  constructor; cbn; eauto 10.
Qed.

Section Loop.

Variable I : list Filing -> State -> Prop.
Variables (sd ed : datetime) (T : float).

Hypothesis I_quiet : forall rows st st', I rows st -> quiet st st' -> I rows st'.

Lemma check_company_inv c ci acc st acc' st' :
  (forall rows recent i s s' e,
     sec_submissions w (clock st) (submissions_url c)
     = Some {| filings := Some (Some recent) |} ->
     I rows s ->
     appended w fmp_api_key target_exchanges sd ed c ci recent i s s' e ->
     I (rows ++ [e]) s') ->
  I (all_filings acc) st ->
  check_company w fmp_api_key target_exchanges sd ed T (c, ci) acc st = (Ok acc', st') ->
  I (all_filings acc') st'.
Proof.
  intros Happ Hacc. unfold check_company, bind. cbn [fst snd].
  rewrite get_submissions_run.
  assert (Hq : I (all_filings acc) (after_request (EvSubmissions (submissions_url c)) st)).
  { eapply I_quiet; [exact Hacc | apply after_request_quiet]. }
  destruct (sec_submissions w (clock st) (submissions_url c)) as [[[[recent |] |]] |];
    cbn [default from_option id filings];
    try (intros H; inversion H; subst; exact Hq).
  intros H.
  eapply (for_each_inv (fun a s => I (all_filings a) s)); [| exact Hq | exact H].
  intros x a s a' s' _ Ha Hx.
  apply check_filing_row in Hx as [(-> & _ & Hquiet) | (e & -> & Hrow)].
  - eapply I_quiet; eauto.
  - cbn [record_filing all_filings]. eapply Happ; eauto.
Qed.

Lemma companies_inv m acc st acc' st' :
  (forall rows c ci n recent i s s' e,
     (c, ci) ∈ m ->
     sec_submissions w n (submissions_url c) = Some {| filings := Some (Some recent) |} ->
     I rows s ->
     appended w fmp_api_key target_exchanges sd ed c ci recent i s s' e ->
     I (rows ++ [e]) s') ->
  I (all_filings acc) st ->
  for_each m (check_company w fmp_api_key target_exchanges sd ed T) acc st = (Ok acc', st') ->
  I (all_filings acc') st'.
Proof.
  intros Happ Hacc H.
  eapply (for_each_inv (fun a s => I (all_filings a) s)); [| exact Hacc | exact H].
  intros [c ci] a s a' s' Hin Ha Hx.
  eapply check_company_inv; [| exact Ha | exact Hx].
  intros rows recent i s0 s0' e Hsub. eapply Happ; eauto.
Qed.

End Loop.

(** The collection, taken apart: the registry, the two dates, the loop. *)
Lemma find_form25_inv start_date end_date T st all small st' :
  find_form25_filings_with_market_cap w fmp_api_key target_exchanges
    start_date end_date T st = (Ok (all, small), st') ->
  exists m s1 sd ed acc,
    get_company_tickers w st = (Ok m, s1)
    /\ stats s1 = stats st /\ files s1 = files st
    /\ ticker_to_exchange s1 = ticker_to_exchange st
    /\ strptime start_date = Some sd
    /\ strptime end_date = Some ed
    /\ for_each m (check_company w fmp_api_key target_exchanges sd ed T) acc0 s1
       = (Ok acc, st')
    /\ all = all_filings acc /\ small = filings_with_market_cap acc.
Proof.
  unfold find_form25_filings_with_market_cap, bind, lift_option, ret, raise.
  destruct (get_company_tickers w st) as [[m | e] s1] eqn:Em; [| discriminate].
  destruct (strptime start_date) as [sd |] eqn:Es; [| discriminate].
  destruct (strptime end_date) as [ed |] eqn:Ee; [| discriminate].
  destruct (for_each m _ acc0 s1) as [[acc | e] s2] eqn:E; [| discriminate].
  intros H; inversion H; subst.
  pose proof (try_endpoints_frame _ _ _ _ _ Em) as (_ & Hc & Hf).
  pose proof (try_endpoints_quiet _ _ _ _ _ Em) as (_ & Hs & _).
  exists m, s1, sd, ed, acc. repeat apply conj; auto.
Qed.

End RunFrames.

(** ** What the collection returns *)

Section CollectionFacts.

Import OptimizedMarketCapFetcher SECDelistingScraperOptimized.

Variable w : World.
Variable fmp_api_key : option string.
Variable target_exchanges : list string.

Lemma count_source_snoc src rows e :
  count_source src (rows ++ [e])
  = (count_source src rows + if String.eqb (market_cap_source e) src then 1 else 0)%Z.
Proof.
  unfold count_source. rewrite List.filter_app, length_app. cbn [List.filter].
  destruct (String.eqb (market_cap_source e) src); cbn [length]; lia.
Qed.

Lemma appended_cache sd ed c ci recent i st st' e :
  appended w fmp_api_key target_exchanges sd ed c ci recent i st st' e ->
  (forall t x, ticker_to_exchange st !! t = Some x -> ticker_to_exchange st' !! t = Some x)
  /\ ticker_to_exchange st' !! ticker e = Some (exchange e).
Proof.
  intros [Ht _ _ _ _ _ _ _ _ _ (s1 & r & Hx & Hm & _)].
  apply get_market_cap_frame in Hm as (_ & Hc & _).
  split.
  - intros t x Hin. rewrite Hc. eapply ticker_exchange_quiet; eauto.
  - rewrite Hc, Ht. eapply ticker_exchange_some; eauto.
Qed.

Lemma appended_stats sd ed c ci recent i st st' e :
  appended w fmp_api_key target_exchanges sd ed c ci recent i st st' e ->
  (market_cap_source e = "yahoo_historical"
   /\ stats st' = incr_yahoo_historical (incr_total (stats st)))
  \/ (market_cap_source e = "fmp_api" /\ stats st' = incr_fmp_api (incr_total (stats st)))
  \/ (market_cap_source e = "calculated"
      /\ stats st' = incr_calculated (incr_total (stats st)))
  \/ (market_cap_source e = "yahoo_current"
      /\ stats st' = incr_yahoo_current (incr_total (stats st)))
  \/ (market_cap_source e = "none" /\ stats st' = incr_failed (incr_total (stats st))).
Proof.
  intros [_ _ _ _ _ _ _ _ _ _ (s1 & r & Hx & Hm & _ & Hsrc)].
  apply ticker_exchange_quiet in Hx as (Hs & _).
  destruct (get_market_cap_run w fmp_api_key (info_ticker ci) (filing_date e) (info_title ci) s1)
    as (r' & s' & E & Hrun).
  rewrite E in Hm. inversion Hm; subst r' s'.
  apply cascade_run_stats in Hrun. rewrite Hsrc, <- Hs. exact Hrun.
Qed.

Lemma appended_value sd ed c ci recent i st st' e :
  appended w fmp_api_key target_exchanges sd ed c ci recent i st st' e ->
  value_ok (market_cap e, market_cap_source e).
Proof.
  intros [_ _ _ _ _ _ _ _ _ _ (s1 & r & _ & Hm & Hcap & Hsrc)].
  destruct (get_market_cap_run w fmp_api_key (info_ticker ci) (filing_date e) (info_title ci) s1)
    as (r' & s' & E & Hrun).
  rewrite E in Hm. inversion Hm; subst r' s'.
  apply cascade_run_value in Hrun. rewrite Hcap, Hsrc. destruct r; exact Hrun.
Qed.

(** X7. The exchange of a row is the cached exchange of its ticker: the
    collection never changes or drops an entry of the exchange cache, every
    row it returns carries the exchange cached for its ticker at the end,
    so two rows with the same ticker have the same exchange, and, when the
    cache started with values of the table only, every exchange of a row is
    a value of the table. *)
Theorem rows_carry_cached_exchange start_date end_date T st all small st' :
  find_form25_filings_with_market_cap w fmp_api_key target_exchanges
    start_date end_date T st = (Ok (all, small), st') ->
  (forall t x, ticker_to_exchange st !! t = Some x -> ticker_to_exchange st' !! t = Some x)
  /\ (forall e, e ∈ all -> ticker_to_exchange st' !! ticker e = Some (exchange e))
  /\ (forall e1 e2, e1 ∈ all -> e2 ∈ all -> ticker e1 = ticker e2 -> exchange e1 = exchange e2)
  /\ (cache_ok st -> forall e, e ∈ all -> exchange e ∈ exchange_names).
Proof.
  intros H.
  pose proof (find_form25_cache_ok w fmp_api_key target_exchanges start_date end_date T st)
    as Hok.
  rewrite H in Hok. cbn [snd] in Hok.
  apply find_form25_inv in H
    as (m & s1 & sd & ed & acc & _ & _ & _ & Hc & _ & _ & Hloop & -> & ->).
  assert (Hinv : (forall t x, ticker_to_exchange st !! t = Some x ->
                              ticker_to_exchange st' !! t = Some x)
                 /\ Forall (fun e => ticker_to_exchange st' !! ticker e = Some (exchange e))
                      (all_filings acc)).
  { eapply (companies_inv w fmp_api_key target_exchanges
              (fun rows s =>
                 (forall t x, ticker_to_exchange st !! t = Some x ->
                              ticker_to_exchange s !! t = Some x)
                 /\ Forall (fun e => ticker_to_exchange s !! ticker e = Some (exchange e)) rows));
      [| | | exact Hloop].
    - intros rows s s' [Hm Hr] (_ & _ & Hq). split; [auto |].
      eapply Forall_impl; [exact Hr |]. cbn. auto.
    - intros rows c ci n recent i s s' e _ _ [Hm Hr] Happ.
      apply appended_cache in Happ as [Hq He]. split; [auto |].
      apply Forall_app. split; [| constructor; [exact He | constructor]].
      eapply Forall_impl; [exact Hr |]. cbn. auto.
    - split; [rewrite Hc; auto | constructor]. }
  destruct Hinv as [Hm Hr]. rewrite Forall_forall in Hr.
  repeat apply conj.
  - exact Hm.
  - exact Hr.
  - intros e1 e2 H1 H2 Ht. apply Hr in H1. apply Hr in H2. congruence.
  - intros Hst e He. apply Hr in He. eapply Hok; eauto.
Qed.

Lemma companies_tally sd ed T m s0 acc st acc' st' :
  stats_tally s0 (all_filings acc) (stats st) ->
  for_each m (check_company w fmp_api_key target_exchanges sd ed T) acc st = (Ok acc', st') ->
  stats_tally s0 (all_filings acc') (stats st').
Proof.
  intros Hacc Hloop.
  eapply (companies_inv w fmp_api_key target_exchanges
            (fun rows s => stats_tally s0 rows (stats s))); [| | exact Hacc | exact Hloop].
  - intros rows s s' Hr (Hq & _). rewrite Hq. exact Hr.
  - intros rows c ci n recent i s s' e _ _ (H0 & H1 & H2 & H3 & H4 & H5) Happ.
    unfold stats_tally. rewrite !count_source_snoc, length_app. cbn [length].
    apply appended_stats in Happ
      as [[-> ->] | [[-> ->] | [[-> ->] | [[-> ->] | [-> ->]]]]];
      cbn; repeat apply conj; lia.
Qed.

(** X8. The counters after a collection: the total has grown by the number
    of rows of the all-events list, and the counter of each outcome by the
    number of rows with that source; rows that are skipped, and companies
    without a row, count nothing. *)
Theorem collection_stats_tally start_date end_date T st all small st' :
  find_form25_filings_with_market_cap w fmp_api_key target_exchanges
    start_date end_date T st = (Ok (all, small), st') ->
  total (stats st') = (total (stats st) + Z.of_nat (length all))%Z
  /\ yahoo_historical (stats st')
     = (yahoo_historical (stats st) + count_source "yahoo_historical" all)%Z
  /\ fmp_api (stats st') = (fmp_api (stats st) + count_source "fmp_api" all)%Z
  /\ calculated (stats st') = (calculated (stats st) + count_source "calculated" all)%Z
  /\ yahoo_current (stats st')
     = (yahoo_current (stats st) + count_source "yahoo_current" all)%Z
  /\ failed (stats st') = (failed (stats st) + count_source "none" all)%Z.
Proof.
  intros H.
  apply find_form25_inv in H
    as (m & s1 & sd & ed & acc & _ & Hs & _ & _ & _ & _ & Hloop & -> & ->).
  apply (companies_tally sd ed T m (stats st) acc0 s1 acc st'); [| exact Hloop].
  rewrite Hs. unfold stats_tally, count_source. cbn. repeat apply conj; lia.
Qed.

(** X9. Where the rows of both result lists come from: each row is a Form
    25 or 25-NSE entry of the filing history served for its CIK, with the
    date, accession number and primary document of that entry; its date
    parses and lies within the two bounds, both included; its CIK is a key
    of the registry and its ticker and company name are those of the
    registry entry; its exchange is a target exchange; and its market cap
    and source are a result the resolver may return. *)
Theorem collection_row_provenance start_date end_date T st all small st' :
  find_form25_filings_with_market_cap w fmp_api_key target_exchanges
    start_date end_date T st = (Ok (all, small), st') ->
  exists m s1 sd ed,
    get_company_tickers w st = (Ok m, s1)
    /\ strptime start_date = Some sd
    /\ strptime end_date = Some ed
    /\ Forall (row_origin w target_exchanges sd ed m) all
    /\ Forall (row_origin w target_exchanges sd ed m) small.
Proof.
  intros H.
  pose proof (find_form25_collected w fmp_api_key target_exchanges _ _ _ _ _ _ _ H)
    as [Hsmall _].
  apply find_form25_inv in H
    as (m & s1 & sd & ed & acc & Hm & _ & _ & _ & Hsd & Hed & Hloop & -> & ->).
  exists m, s1, sd, ed. repeat (split; [assumption |]).
  assert (Hall : Forall (row_origin w target_exchanges sd ed m) (all_filings acc)).
  { eapply (companies_inv w fmp_api_key target_exchanges
              (fun rows _ => Forall (row_origin w target_exchanges sd ed m) rows));
      [| | | exact Hloop].
    - auto.
    - intros rows c ci n recent i s s' e Hin Hsub Hr Happ.
      apply Forall_app. split; [exact Hr |]. constructor; [| constructor].
      pose proof (appended_value _ _ _ _ _ _ _ _ _ Happ) as Hv.
      destruct Happ as [Ht Hn Hc Hf H25 Hd Hrange Ha Hp Hx _].
      constructor; auto.
      + exists ci. rewrite Hc. auto.
      + exists n, recent, i. rewrite Hc. auto.
    - constructor. }
  split; [exact Hall |].
  rewrite Hsmall. rewrite Forall_forall in *. intros e He.
  apply list_elem_of_In, List.filter_In in He as [He _].
  apply Hall, list_elem_of_In, He.
Qed.

End CollectionFacts.

(** ** Histories with nothing to collect, and histories that cannot be read *)

Lemma for_each_app {A B} (l1 l2 : list A) (body : A -> B -> M B) acc st :
  for_each (l1 ++ l2) body acc st
  = bind (for_each l1 body acc) (fun a => for_each l2 body a) st.
Proof.
  revert acc st. induction l1 as [| x l1 IH]; intros acc st; cbn [for_each app].
  - reflexivity.
  - unfold bind. destruct (body x acc st) as [[a | e] s]; [| reflexivity].
    rewrite IH. reflexivity.
Qed.

Lemma for_each_skip {A B} (l : list A) (body : A -> B -> M B) acc st :
  (forall x, x ∈ l -> body x acc st = (Ok acc, st)) ->
  for_each l body acc st = (Ok acc, st).
Proof.
  induction l as [| x l IH]; intros H; cbn [for_each]; [reflexivity |].
  unfold bind. rewrite H by apply list_elem_of_here.
  apply IH. intros y Hy. apply H. apply elem_of_cons. auto.
Qed.

Section Histories.

Import OptimizedMarketCapFetcher SECDelistingScraperOptimized.

Variable w : World.
Variable fmp_api_key : option string.
Variable target_exchanges : list string.

Lemma check_filing_passed_over sd ed T c ci recent i acc st :
  passed_over sd ed recent i ->
  check_filing w fmp_api_key target_exchanges sd ed T c ci recent i acc st = (Ok acc, st).
Proof.
  intros (f & d & Hf & Hd & Hskip). unfold check_filing. rewrite Hf, Hd. reduce_m.
  destruct Hskip as [Hn | (dt & Hdt & Hr)].
  - rewrite bool_decide_eq_false_2 by exact Hn. reflexivity.
  - destruct (bool_decide (f ∈ ["25"; "25-NSE"])); [| reflexivity].
    cbn [negb]. rewrite Hdt, Hr. reflexivity.
Qed.

Lemma check_filing_malformed sd ed T c ci recent i acc st e :
  malformed recent i e ->
  check_filing w fmp_api_key target_exchanges sd ed T c ci recent i acc st = (Raise e, st).
Proof.
  intros (f & Hf & [[Hd ->] | (H25 & (d & Hd & Hp) & ->)]);
    unfold check_filing; rewrite Hf, Hd; reduce_m.
  - reflexivity.
  - rewrite bool_decide_eq_true_2 by exact H25. cbn [negb]. rewrite Hp. reflexivity.
Qed.

(** X10. No matching entry is dropped: for a Form 25 or 25-NSE entry whose
    date lies within the bounds, whose ticker has a non-empty exchange of
    the target set and whose accession number and primary document are
    present, the round of the inner loop resolves the market cap and appends
    the row made of the entry, the company and the result. *)
Theorem matching_entry_is_collected sd ed T c ci recent i acc st f d dt x s1 a p :
  form recent !! i = Some f ->
  f ∈ ["25"; "25-NSE"] ->
  filingDate recent !! i = Some d ->
  strptime d = Some dt ->
  datetime_leb sd dt && datetime_leb dt ed = true ->
  _get_ticker_exchange w (info_ticker ci) st = (Ok (Some x), s1) ->
  x <> "" ->
  x ∈ target_exchanges ->
  accessionNumber recent !! i = Some a ->
  primaryDocument recent !! i = Some p ->
  exists r st',
    get_market_cap w fmp_api_key (info_ticker ci) d (info_title ci) s1 = (Ok r, st')
    /\ check_filing w fmp_api_key target_exchanges sd ed T c ci recent i acc st
       = (Ok (record_filing T
                {| ticker := info_ticker ci;
                   company_name := info_title ci;
                   cik := c;
                   exchange := x;
                   form_type := f;
                   filing_date := d;
                   accession_number := a;
                   primary_document := p;
                   market_cap := fst r;
                   market_cap_source := snd r |} acc), st').
Proof.
  intros Hf H25 Hd Hdt Hr Hx Hne Hin Ha Hp.
  destruct (get_market_cap_run w fmp_api_key (info_ticker ci) d (info_title ci) s1)
    as (r & st' & E & _).
  exists r, st'. split; [exact E |].
  unfold check_filing. rewrite Hf, Hd, Ha, Hp. cbn [lift_option].
  unfold bind at 1 2. cbn [ret].
  rewrite bool_decide_eq_true_2 by exact H25. cbn [negb].
  rewrite Hdt. cbn [lift_option]. unfold bind at 1. cbn [ret]. rewrite Hr. cbn [negb].
  unfold bind at 1. rewrite Hx.
  assert (Ht : str_truthy x = true).
  { unfold str_truthy. apply negb_true_iff. apply String.eqb_neq. exact Hne. }
  rewrite Ht, bool_decide_eq_true_2 by exact Hin. cbn [negb andb].
  unfold bind, ret. rewrite E. reflexivity.
Qed.

(** X11. A company with nothing to collect costs one request and changes
    nothing else: when the request for its filing history fails, or the
    document has no filings, or every entry is another form or a Form 25
    dated outside the bounds, [check_company] returns the accumulator it was
    given; no exchange is looked up, no market cap is resolved and the date
    of an entry that is not a Form 25 is never parsed. *)
Theorem company_with_nothing_to_collect sd ed T c ci acc st :
  nothing_to_collect sd ed (sec_submissions w (clock st) (submissions_url c)) ->
  check_company w fmp_api_key target_exchanges sd ed T (c, ci) acc st
  = (Ok acc, after_request (EvSubmissions (submissions_url c)) st).
Proof.
  intros H. unfold check_company, bind. cbn [fst snd]. rewrite get_submissions_run.
  destruct (sec_submissions w (clock st) (submissions_url c)) as [[[[recent |] |]] |];
    cbn [default from_option id filings]; try reflexivity.
  apply for_each_skip. intros i Hi. apply check_filing_passed_over.
  apply H. apply elem_of_seq in Hi. lia.
Qed.

Lemma check_company_malformed sd ed T c ci acc st recent i e :
  sec_submissions w (clock st) (submissions_url c)
  = Some {| filings := Some (Some recent) |} ->
  i < length (form recent) ->
  (forall j, j < i -> passed_over sd ed recent j) ->
  malformed recent i e ->
  check_company w fmp_api_key target_exchanges sd ed T (c, ci) acc st
  = (Raise e, after_request (EvSubmissions (submissions_url c)) st).
Proof.
  intros Hsub Hi Hbefore Hbad. unfold check_company, bind. cbn [fst snd].
  rewrite get_submissions_run, Hsub. cbn [default from_option id filings].
  replace (length (form recent)) with (i + (length (form recent) - i)) by lia.
  rewrite seq_app, for_each_app. unfold bind.
  rewrite for_each_skip.
  - destruct (length (form recent) - i) as [| k] eqn:Hk; [lia |].
    cbn [seq for_each]. unfold bind.
    rewrite (check_filing_malformed _ _ _ _ _ _ _ _ _ _ Hbad). reflexivity.
  - intros j Hj. apply check_filing_passed_over. apply Hbefore.
    apply elem_of_seq in Hj. lia.
Qed.

Lemma companies_files sd ed T m acc st :
  files (snd (for_each m (check_company w fmp_api_key target_exchanges sd ed T) acc st))
  = files st.
Proof.
  apply (for_each_state_inv (fun s => files s = files st)); [| reflexivity].
  intros x a s Hs. rewrite <- Hs.
  eapply run_steps_files. apply check_company_steps.
Qed.

Lemma find_form25_files start_date end_date T st :
  files (snd (find_form25_filings_with_market_cap w fmp_api_key target_exchanges
                start_date end_date T st))
  = files st.
Proof.
  destruct (find_form25_steps w fmp_api_key target_exchanges start_date end_date T st)
    as (s1 & _ & -> & Hrun).
  apply run_steps_files in Hrun. rewrite Hrun.
  destruct (get_company_tickers w st) as [q s1] eqn:E.
  apply try_endpoints_frame in E as (_ & _ & Hf). exact Hf.
Qed.

Lemma for_each_raise {A B} (l : list A) (body : A -> B -> M B) :
  forall acc st e st',
    for_each l body acc st = (Raise e, st') ->
    exists x a s, x ∈ l /\ body x a s = (Raise e, st').
Proof.
  induction l as [| x l IH]; intros acc st e st' H; cbn [for_each] in H.
  - discriminate H.
  - unfold bind in H. destruct (body x acc st) as [[a | e'] s] eqn:E.
    + apply IH in H as (y & a' & s' & Hy & Hb). exists y, a', s'.
      split; [apply elem_of_cons; auto | exact Hb].
    + inversion H; subst. exists x, acc, st. split; [apply list_elem_of_here | exact E].
Qed.

Lemma check_filing_raises sd ed T c ci recent i acc st e st' :
  check_filing w fmp_api_key target_exchanges sd ed T c ci recent i acc st = (Raise e, st') ->
  e = ValueError \/ e = IndexError.
Proof.
  unfold check_filing. reduce_m.
  repeat (match goal with
          | |- context [match ?x with _ => _ end] => destruct_inner x; reduce_m
          end);
    intros H; inversion H; subst; auto;
    repeat match goal with
           | H : _get_ticker_exchange _ _ _ = (Raise _, _) |- _ =>
               apply ticker_exchange_cases in H
                 as [(? & _ & ? & _) | (_ & _ & _ & _ & _ & _ & [[? _] | (? & ? & ? & _ & _ & _ & ? & _)])];
               discriminate
           | H : get_market_cap _ _ _ _ _ _ = (Raise _, _) |- _ =>
               apply get_market_cap_frame in H as ((? & ? & _) & _); discriminate
           end.
Qed.

(** X12. The exceptions that leave the collection: on filing histories made
    of the four lists of strings, [find_form25_filings_with_market_cap]
    raises only [ValueError] (a date that does not parse) or [IndexError] (a
    list shorter than the list of forms); no provider failure aborts it, and
    no file has been written when it raises. *)
Theorem collection_raises_only start_date end_date T st e st' :
  find_form25_filings_with_market_cap w fmp_api_key target_exchanges
    start_date end_date T st = (Raise e, st') ->
  (e = ValueError \/ e = IndexError) /\ files st' = files st.
Proof.
  intros H. split.
  - revert H. unfold find_form25_filings_with_market_cap, bind, lift_option, ret, raise.
    destruct (get_company_tickers w st) as [[m | e0] s1] eqn:Em.
    + destruct (strptime start_date) as [sd |]; [| intros H; inversion H; auto].
      destruct (strptime end_date) as [ed |]; [| intros H; inversion H; auto].
      destruct (for_each m _ acc0 s1) as [[acc | e1] s2] eqn:E; [discriminate |].
      intros H; inversion H; subst.
      apply for_each_raise in E as ([c ci] & a & s & _ & E).
      unfold check_company, bind in E. cbn [fst snd] in E.
      rewrite get_submissions_run in E.
      destruct (filings _) as [[recent |] |]; try discriminate E.
      apply for_each_raise in E as (i & a' & s' & _ & E).
      eapply check_filing_raises; eauto.
    + apply try_endpoints_frame in Em as ([v Hv] & _). discriminate Hv.
  - pose proof (find_form25_files start_date end_date T st) as Hf.
    rewrite H in Hf. exact Hf.
Qed.

(** X13. One unreadable entry aborts the whole collection: when the loop
    reaches a company whose history has, after entries that are passed over,
    an entry without a date or a Form 25 whose date does not parse, the
    collection raises ([IndexError], respectively [ValueError]) right after
    the request for that history; the rows collected so far are not
    returned and no file is written. *)
Theorem malformed_history_aborts start_date end_date T st m s1 sd ed
    m1 c ci m2 acc1 s2 recent i e :
  get_company_tickers w st = (Ok m, s1) ->
  strptime start_date = Some sd ->
  strptime end_date = Some ed ->
  m = m1 ++ (c, ci) :: m2 ->
  for_each m1 (check_company w fmp_api_key target_exchanges sd ed T) acc0 s1
  = (Ok acc1, s2) ->
  sec_submissions w (clock s2) (submissions_url c)
  = Some {| filings := Some (Some recent) |} ->
  i < length (form recent) ->
  (forall j, j < i -> passed_over sd ed recent j) ->
  malformed recent i e ->
  find_form25_filings_with_market_cap w fmp_api_key target_exchanges
    start_date end_date T st
  = (Raise e, after_request (EvSubmissions (submissions_url c)) s2)
  /\ files s2 = files st.
Proof.
  intros Hm Hsd Hed -> Hloop Hsub Hi Hbefore Hbad.
  split.
  - unfold find_form25_filings_with_market_cap, bind. rewrite Hm, Hsd, Hed.
    cbn [lift_option ret]. rewrite for_each_app. unfold bind. rewrite Hloop.
    cbn [for_each]. unfold bind.
    rewrite (check_company_malformed sd ed T c ci acc1 s2 recent i e); auto.
  - pose proof (companies_files sd ed T m1 acc0 s1) as Hf. rewrite Hloop in Hf.
    cbn [snd] in Hf. rewrite Hf.
    apply try_endpoints_frame in Hm as (_ & _ & Hfs). exact Hfs.
Qed.

End Histories.

(** ** The files of a run *)

Section MainFiles.

Import OptimizedMarketCapFetcher SECDelistingScraperOptimized.

Variable w : World.

Lemma save_to_csv_files rows output_file st :
  exists st', save_to_csv rows output_file st = (Ok tt, st')
              /\ files st' = files st ++ csv_files rows output_file.
Proof.
  destruct rows as [| r rows].
  - exists st. split; [reflexivity |]. cbn. rewrite app_nil_r. reflexivity.
  - eexists. split; [apply save_to_csv_nonempty; discriminate |].
    cbn [files csv_files]. rewrite <- app_assoc. reflexivity.
Qed.

(** X14. The files of a run of [main]: nothing is written before the
    collection has returned; if the collection raises, [main] raises the
    same exception and has written nothing; otherwise it writes the pair of
    files of the all-events list followed by the pair of the small-cap list,
    a pair being absent exactly when its list is empty. *)
Theorem main_writes_after_collection (output_dir : string) (st : State) :
  exists s1,
    SECDelistingScraperOptimized.init w FMP_API_KEY st = (Ok tt, s1)
    /\ match find_form25_filings_with_market_cap w FMP_API_KEY
               (resolve_target_exchanges (Some TARGET_EXCHANGES))
               START_DATE END_DATE MAX_MARKET_CAP s1 with
       | (Ok (all, small), s2) =>
           exists s3,
             main w output_dir st = (Ok tt, s3)
             /\ files s3 = files st ++ csv_files all (OUTPUT_ALL output_dir)
                                    ++ csv_files small (OUTPUT_SMALL_CAPS output_dir)
       | (Raise e, s2) =>
           main w output_dir st = (Raise e, s2) /\ files s2 = files st
       end.
Proof.
  eexists. split; [apply init_without_key |].
  match goal with
  | |- match ?c with _ => _ end =>
      pose proof (find_form25_files w FMP_API_KEY
                    (resolve_target_exchanges (Some TARGET_EXCHANGES))
                    START_DATE END_DATE MAX_MARKET_CAP
                    {| clock := clock st; log := log st; fmp_api_working := false;
                       stats := stats0; ticker_to_exchange := ∅; files := files st |})
        as Hf;
      destruct c as [[[all small] | e] s2] eqn:E
  end; cbn [snd files] in Hf.
  - pose proof (find_form25_collected _ _ _ _ _ _ _ _ _ _ E) as [Hsmall _].
    unfold main. erewrite bind_ok by apply init_without_key.
    erewrite bind_ok by exact E. cbn [fst snd].
    destruct all as [| a all].
    + cbn [List.filter] in Hsmall. subst small. exists s2.
      split; [reflexivity |]. cbn [csv_files app]. rewrite app_nil_r. exact Hf.
    + destruct (save_to_csv_files (a :: all) (OUTPUT_ALL output_dir) s2) as (s3 & E1 & F1).
      erewrite bind_ok by exact E1.
      destruct (save_to_csv_files small (OUTPUT_SMALL_CAPS output_dir) s3) as (s4 & E2 & F2).
      exists s4. split.
      * destruct small; [| exact E2]. inversion E2; subst. reflexivity.
      * rewrite F2, F1, Hf, <- app_assoc. reflexivity.
  - split; [| exact Hf].
    unfold main. erewrite bind_ok by apply init_without_key.
    unfold bind. rewrite E. reflexivity.
Qed.

(** X15. A start or end date that does not parse makes the collection
    raise [ValueError], but only after the company registry has been
    requested: at least one registry endpoint has been asked by then. *)
Theorem bad_range_raises_late fmp_api_key target_exchanges start_date end_date T st :
  strptime start_date = None \/ strptime end_date = None ->
  exists st' evs,
    find_form25_filings_with_market_cap w fmp_api_key target_exchanges
      start_date end_date T st = (Raise ValueError, st')
    /\ log st' = log st ++ map EvSecGet evs
    /\ evs `prefix_of` endpoints
    /\ evs <> [].
Proof.
  intros Hbad.
  destruct (try_endpoints_run w endpoints st) as (s1 & E & Hl).
  exists s1. eexists. split; [| split; [exact Hl |]].
  - unfold find_form25_filings_with_market_cap, bind. unfold get_company_tickers. rewrite E.
    destruct (strptime start_date); [| reflexivity].
    destruct Hbad as [Hbad | ->]; [discriminate | reflexivity].
  - split; [apply prefix_take |].
    destruct (first_answer w (clock st) endpoints) as [[k items] |]; discriminate.
Qed.

End MainFiles.

(** ** The requests for filing histories *)

Section HistoryRequests.

Import OptimizedMarketCapFetcher SECDelistingScraperOptimized.

Variable w : World.
Variable fmp_api_key : option string.
Variable target_exchanges : list string.

Lemma submission_requests_app l1 l2 :
  submission_requests (l1 ++ l2) = submission_requests l1 ++ submission_requests l2.
Proof. apply omap_app. Qed.

Lemma sends_no_submission name allowed st st' :
  sends name allowed st st' ->
  submission_requests allowed = [] ->
  submission_requests (log st') = submission_requests (log st).
Proof.
  intros (evs & -> & [k ->] & _) Hall.
  rewrite submission_requests_app in Hall. apply app_eq_nil in Hall as [Hevs _].
  rewrite submission_requests_app. cbn. change (omap submission_request evs)
    with (submission_requests evs). rewrite Hevs. apply app_nil_r.
Qed.

Lemma get_market_cap_no_submission t d c st r st' :
  get_market_cap w fmp_api_key t d c st = (r, st') ->
  submission_requests (log st') = submission_requests (log st).
Proof.
  intros H. destruct (get_market_cap_run w fmp_api_key t d c st) as (r' & s' & E & Hrun).
  rewrite E in H. inversion H; subst r s'; clear H E.
  assert (Hl : forall f s, log (bump f s) = log s) by reflexivity.
  inversion Hrun; subst; clear Hrun; rewrite ?Hl;
    repeat match goal with
    | E : _get_yahoo_historical _ _ _ _ = _ |- _ =>
        apply yahoo_historical_sends, sends_no_submission in E; [| reflexivity]
    | E : _calculate_from_yahoo_data _ _ _ _ = _ |- _ =>
        apply calculated_sends, sends_no_submission in E; [| reflexivity]
    | E : _get_yahoo_current _ _ _ = _ |- _ =>
        apply yahoo_current_sends in E; destruct E as [E _];
        apply (f_equal submission_requests) in E;
        rewrite submission_requests_app in E; cbn in E; rewrite app_nil_r in E
    | E : fmp_if_enabled _ _ _ _ _ = _ |- _ =>
        apply fmp_if_enabled_sends in E;
        destruct E as [(_ & E) | (_ & -> & _)];
        [apply sends_no_submission in E; [| reflexivity] |]
    end;
    rewrite ?Hl in *; congruence.
Qed.

Lemma ticker_exchange_no_submission t st r st' :
  _get_ticker_exchange w t st = (r, st') ->
  submission_requests (log st') = submission_requests (log st).
Proof.
  intros H.
  apply ticker_exchange_cases in H as [(x & _ & _ & ->) | (_ & _ & -> & _)];
    [reflexivity |].
  rewrite submission_requests_app. apply app_nil_r.
Qed.

Lemma check_filing_rel (Q : State -> State -> Prop) sd ed T c ci recent i acc st :
  (forall s, Q s s) ->
  (forall t r s s1 s2, _get_ticker_exchange w t s = (r, s1) -> Q s1 s2 -> Q s s2) ->
  (forall t d n r s s1 s2,
     get_market_cap w fmp_api_key t d n s = (r, s1) -> Q s1 s2 -> Q s s2) ->
  Q st (snd (check_filing w fmp_api_key target_exchanges sd ed T c ci recent i acc st)).
Proof.
  intros Hrefl Hlookup Hresolve.
  unfold check_filing. reduce_m.
  repeat (match goal with
          | |- context [match ?x with _ => _ end] => destruct_inner x; reduce_m
          end);
    repeat match goal with
           | H : _get_ticker_exchange _ _ ?s = _ |- Q ?s _ =>
               apply (Hlookup _ _ _ _ _ H)
           | H : get_market_cap _ _ _ _ _ ?s = _ |- Q ?s _ =>
               apply (Hresolve _ _ _ _ _ _ _ H)
           end;
    apply Hrefl.
Qed.

Lemma check_filing_no_submission sd ed T c ci recent i acc st r st' :
  check_filing w fmp_api_key target_exchanges sd ed T c ci recent i acc st = (r, st') ->
  submission_requests (log st') = submission_requests (log st).
Proof.
  intros H.
  pose proof (check_filing_rel
                (fun s s' => submission_requests (log s') = submission_requests (log s))
                sd ed T c ci recent i acc st) as Hrel.
  rewrite H in Hrel. apply Hrel.
  - reflexivity.
  - intros t x s s1 s2 Hx Hq. apply ticker_exchange_no_submission in Hx. congruence.
  - intros t d n x s s1 s2 Hx Hq. apply get_market_cap_no_submission in Hx. congruence.
Qed.

Lemma check_company_submissions sd ed T c ci acc st acc' st' :
  check_company w fmp_api_key target_exchanges sd ed T (c, ci) acc st = (Ok acc', st') ->
  submission_requests (log st') = submission_requests (log st) ++ [submissions_url c].
Proof.
  unfold check_company, bind. cbn [fst snd]. rewrite get_submissions_run.
  assert (Hq : submission_requests
                 (log (after_request (EvSubmissions (submissions_url c)) st))
               = submission_requests (log st) ++ [submissions_url c]).
  { cbn [after_request log]. apply submission_requests_app. }
  destruct (sec_submissions w (clock st) (submissions_url c)) as [[[[recent |] |]] |];
    cbn [default from_option id filings];
    try (intros H; inversion H; subst; exact Hq).
  intros H. rewrite <- Hq.
  eapply (for_each_inv
            (fun _ s => submission_requests (log s)
                        = submission_requests
                            (log (after_request (EvSubmissions (submissions_url c)) st))));
    [| reflexivity | exact H].
  intros x a s a' s' _ Ha Hx. apply check_filing_no_submission in Hx. congruence.
Qed.

Lemma companies_submissions sd ed T m :
  forall acc st acc' st',
    for_each m (check_company w fmp_api_key target_exchanges sd ed T) acc st = (Ok acc', st') ->
    submission_requests (log st')
    = submission_requests (log st) ++ map (fun kc => submissions_url (fst kc)) m.
Proof.
  induction m as [| [c ci] m IH]; intros acc st acc' st' H; cbn [for_each map] in *.
  - inversion H; subst. rewrite app_nil_r. reflexivity.
  - unfold bind in H.
    destruct (check_company _ _ _ _ _ _ (c, ci) acc st) as [[a | e] s] eqn:E; [| discriminate].
    apply check_company_submissions in E. apply IH in H.
    rewrite H, E, <- app_assoc. reflexivity.
Qed.

(** X16. A collection that returns has requested the filing history of
    every company of the registry exactly once, in the order of the
    registry, whether or not the company has a Form 25. *)
Theorem one_history_request_per_company start_date end_date T st all small st' :
  find_form25_filings_with_market_cap w fmp_api_key target_exchanges
    start_date end_date T st = (Ok (all, small), st') ->
  exists m s1,
    get_company_tickers w st = (Ok m, s1)
    /\ submission_requests (log st')
       = submission_requests (log st) ++ map (fun kc => submissions_url (fst kc)) m.
Proof.
  intros H.
  apply find_form25_inv in H
    as (m & s1 & sd & ed & acc & Hm & _ & _ & _ & _ & _ & Hloop & _ & _).
  exists m, s1. split; [exact Hm |].
  apply companies_submissions in Hloop. rewrite Hloop. f_equal.
  destruct (try_endpoints_run w endpoints st) as (s & E & Hl).
  unfold get_company_tickers in Hm. rewrite E in Hm. inversion Hm; subst s.
  rewrite Hl, submission_requests_app.
  match goal with |- _ ++ submission_requests (map _ ?l) = _ => generalize l end.
  intros l. induction l as [| u l IH]; [apply app_nil_r | exact IH].
Qed.

End HistoryRequests.

(** ** The summaries *)

Section Summaries.

Import OptimizedMarketCapFetcher SECDelistingScraperOptimized.

Variable w : World.
Variable fmp_api_key : option string.
Variable target_exchanges : list string.

Lemma count_known (rows : list Filing) :
  Forall cap_iff_source rows ->
  Z.of_nat (length rows)
  = (Z.of_nat (length (List.filter has_market_cap rows)) + count_source "none" rows)%Z.
Proof.
  unfold count_source.
  induction 1 as [| e rows He _ IH]; [reflexivity |].
  cbn [List.filter length]. unfold has_market_cap at 1. unfold cap_iff_source in He.
  destruct (market_cap e) as [x |].
  - destruct (String.eqb_spec (market_cap_source e) "none") as [Hn | Hn].
    + exfalso. apply (proj1 He); [eexists; reflexivity | exact Hn].
    + cbn [length]. lia.
  - destruct (String.eqb_spec (market_cap_source e) "none") as [Hn | Hn].
    + cbn [length]. lia.
    + exfalso. apply He in Hn. destruct Hn as [x Hx]. discriminate Hx.
Qed.

Lemma count_small_large T (rows : list Filing) :
  Z.of_nat (length (List.filter has_market_cap rows))
  = (Z.of_nat (length (List.filter (is_small_cap T) rows))
     + Z.of_nat (length (List.filter (at_or_above T) rows)))%Z.
Proof.
  induction rows as [| e rows IH]; [reflexivity |].
  cbn [List.filter].
  change (at_or_above T e) with (has_market_cap e && negb (is_small_cap T e)).
  destruct (has_market_cap e) eqn:Hh, (is_small_cap T e) eqn:Hs;
    cbn [andb negb length]; try lia.
  unfold has_market_cap, is_small_cap in Hh, Hs.
  destruct (market_cap e); discriminate.
Qed.

(** X17. The two summaries printed after a collection that started with
    fresh counters agree: both print nothing when there is no row;
    otherwise the total of [print_stats] is the number of rows, its number
    of successes is the number of rows with a market cap that
    [print_summary] reports, its number of failures is the number with an
    unknown market cap, the large-cap count of [print_summary] is the number
    of rows with a market cap that is not below the threshold (so it is
    never negative), and the three classes add up to the total. *)
Theorem summaries_agree start_date end_date T st all small st' :
  stats st = stats0 ->
  find_form25_filings_with_market_cap w fmp_api_key target_exchanges
    start_date end_date T st = (Ok (all, small), st') ->
  match all with
  | [] => print_stats fmp_api_key (stats st') = None /\ print_summary all small = None
  | _ :: _ =>
      exists r1 r2,
        print_stats fmp_api_key (stats st') = Some r1
        /\ print_summary all small = Some r2
        /\ shown_total r1 = summary_total r2
        /\ shown_successful r1 = stocks_with_market_cap r2
        /\ shown_failed r1 = unknown_market_cap r2
        /\ confirmed_large_caps r2 = Z.of_nat (length (List.filter (at_or_above T) all))
        /\ (summary_total r2
            = confirmed_small_caps r2 + confirmed_large_caps r2 + unknown_market_cap r2)%Z
  end.
Proof.
  intros Hs H.
  pose proof (find_form25_collected w fmp_api_key target_exchanges _ _ _ _ _ _ _ H)
    as [Hsmall Hrows].
  assert (Hcap : Forall cap_iff_source all).
  { eapply Forall_impl; [exact Hrows |]. intros e [_ He]. exact He. }
  assert (Htally : stats_tally (stats st) all (stats st')).
  { apply find_form25_inv in H
      as (m & s1 & sd & ed & acc & _ & Hs1 & _ & _ & _ & _ & Hloop & -> & ->).
    apply (companies_tally w fmp_api_key target_exchanges sd ed T m (stats st) acc0 s1 acc st');
      [| exact Hloop].
    rewrite Hs1. unfold stats_tally, count_source. cbn. repeat apply conj; lia. }
  destruct Htally as (Ht & _ & _ & _ & _ & Hf). rewrite Hs in Ht, Hf.
  change (total stats0) with 0%Z in Ht. change (failed stats0) with 0%Z in Hf.
  rewrite Z.add_0_l in Ht, Hf.
  pose proof (count_known all Hcap) as Hk.
  pose proof (count_small_large T all) as Hsl. rewrite <- Hsmall in Hsl.
  destruct all as [| a all].
  - unfold print_stats, print_summary. rewrite Ht. split; reflexivity.
  - unfold print_stats, print_summary. rewrite Ht.
    destruct (Z.eqb_spec (Z.of_nat (length (a :: all))) 0) as [H0 | _];
      [cbn [length] in H0; lia |].
    eexists _, _. split; [reflexivity |]. split; [reflexivity |].
    cbn [shown_total shown_successful shown_failed summary_total confirmed_small_caps
         stocks_with_market_cap unknown_market_cap confirmed_large_caps].
    repeat apply conj; lia.
Qed.

End Summaries.

(** ** Instances of the further properties on the sample worlds *)

Lemma startup_validation_witness :
  exists st',
    OptimizedMarketCapFetcher.init world_fmp_quote (Some "demo") fresh = (Ok tt, st')
    /\ log st' = log fresh ++ [EvFmpGet (OptimizedMarketCapFetcher.fmp_quote_url "AAPL")]
    /\ (fmp_api_working st' = true
        <-> exists q items,
              fmp_get world_fmp_quote (clock fresh)
                (OptimizedMarketCapFetcher.fmp_quote_url "AAPL")
              = Response 200 (Some (FmpList (q :: items)))
              /\ is_Some (q !! "marketCap")).
Proof.
  apply (proj2 (startup_validation world_fmp_quote (Some "demo") fresh)).
  reflexivity.
Defined.

Lemma resolved_value_bounds_witness :
  value_ok (Some 50000000%float, "calculated").
Proof.
  apply (resolved_value_bounds (world_calculated "NMS" ConnectionError) None
           "ABCD" "2020-06-15" "Acme Corp" fresh (Some 50000000%float, "calculated")
           (snd (OptimizedMarketCapFetcher.get_market_cap
                   (world_calculated "NMS" ConnectionError) None
                   "ABCD" "2020-06-15" "Acme Corp" fresh))).
  vm_compute. reflexivity.
Defined.

Lemma resolution_request_budget_witness :
  exists evs,
    log (snd (OptimizedMarketCapFetcher.get_market_cap
                (world_calculated "NMS" ConnectionError) None
                "ABCD" "2020-06-15" "Acme Corp" fresh))
    = log fresh ++ evs
    /\ clock (snd (OptimizedMarketCapFetcher.get_market_cap
                     (world_calculated "NMS" ConnectionError) None
                     "ABCD" "2020-06-15" "Acme Corp" fresh))
       = clock fresh + length (requests evs)
    /\ Forall (fun e => e ∈ [EvHistory "ABCD"; EvInfo "ABCD";
                             EvFmpGet (OptimizedMarketCapFetcher.fmp_quote_url "ABCD")])
         (requests evs)
    /\ 1 <= length (requests evs) <= 6
    /\ (OptimizedMarketCapFetcher.key_supplied None && fmp_api_working fresh = false ->
        length (requests evs) <= 5
        /\ Forall (fun e => e ∈ [EvHistory "ABCD"; EvInfo "ABCD"]) (requests evs))
    /\ (snd (Some 50000000%float, "calculated") = "yahoo_historical" ->
        requests evs = [EvHistory "ABCD"; EvInfo "ABCD"]).
Proof.
  apply (resolution_request_budget (world_calculated "NMS" ConnectionError) None
           "ABCD" "2020-06-15" "Acme Corp" fresh (Some 50000000%float, "calculated")).
  vm_compute. reflexivity.
Defined.

Lemma registry_well_formed_witness :
  NoDup (map fst (registry_of [ {| cik_str := 1; item_ticker := "ABCD";
                                   item_title := "Acme Corp" |};
                                {| cik_str := 2; item_ticker := "WXYZ";
                                   item_title := "Wexford Inc" |};
                                {| cik_str := 1; item_ticker := "ABCD-W";
                                   item_title := "Acme Corp Warrants" |} ]))
  /\ registry_of [ {| cik_str := 1; item_ticker := "ABCD"; item_title := "Acme Corp" |};
                   {| cik_str := 2; item_ticker := "WXYZ"; item_title := "Wexford Inc" |};
                   {| cik_str := 1; item_ticker := "ABCD-W";
                      item_title := "Acme Corp Warrants" |} ]
     = [ ("0000000001",
          {| SECDelistingScraperOptimized.info_ticker := "ABCD-W";
             SECDelistingScraperOptimized.info_title := "Acme Corp Warrants";
             SECDelistingScraperOptimized.info_cik := "0000000001" |});
         ("0000000002",
          {| SECDelistingScraperOptimized.info_ticker := "WXYZ";
             SECDelistingScraperOptimized.info_title := "Wexford Inc";
             SECDelistingScraperOptimized.info_cik := "0000000002" |}) ].
Proof.
  split; [| vm_compute; reflexivity].
  apply (registry_well_formed world_dual_listing fresh _
           (snd (SECDelistingScraperOptimized.get_company_tickers world_dual_listing fresh))).
  vm_compute. reflexivity.
Defined.

Lemma company_with_nothing_to_collect_witness :
  SECDelistingScraperOptimized.check_company
    (world_calculated "NMS" ConnectionError) None
    SECDelistingScraperOptimized.default_target_exchanges
    {| year := 2021; month := 1; day := 1 |} {| year := 2024; month := 12; day := 31 |}
    MAX_MARKET_CAP ("0000000001", sample_company) SECDelistingScraperOptimized.acc0 fresh
  = (Ok SECDelistingScraperOptimized.acc0,
     after_request (EvSubmissions (submissions_url "0000000001")) fresh).
Proof.
  apply (company_with_nothing_to_collect (world_calculated "NMS" ConnectionError) None
           SECDelistingScraperOptimized.default_target_exchanges
           {| year := 2021; month := 1; day := 1 |}
           {| year := 2024; month := 12; day := 31 |}
           MAX_MARKET_CAP "0000000001" sample_company
           SECDelistingScraperOptimized.acc0 fresh).
  intros i Hi. cbn in Hi.
  destruct i as [| [| i]]; [| | lia].
  - exists "25", "2020-06-15". split; [reflexivity |]. split; [reflexivity |].
    right. exists {| year := 2020; month := 6; day := 15 |}.
    split; vm_compute; reflexivity.
  - exists "10-K", "2020-01-01". split; [reflexivity |]. split; [reflexivity |].
    left. not_in_list.
Defined.

Lemma malformed_history_aborts_witness :
  SECDelistingScraperOptimized.find_form25_filings_with_market_cap
    world_bad_date None SECDelistingScraperOptimized.default_target_exchanges
    START_DATE END_DATE MAX_MARKET_CAP fresh
  = (Raise ValueError,
     after_request (EvSubmissions (submissions_url "0000000001"))
       (snd (SECDelistingScraperOptimized.get_company_tickers world_bad_date fresh)))
  /\ files (snd (SECDelistingScraperOptimized.get_company_tickers world_bad_date fresh))
     = files fresh.
Proof.
  apply (malformed_history_aborts world_bad_date None
           SECDelistingScraperOptimized.default_target_exchanges
           START_DATE END_DATE MAX_MARKET_CAP fresh
           [("0000000001", sample_company)]
           (snd (SECDelistingScraperOptimized.get_company_tickers world_bad_date fresh))
           {| year := 2015; month := 1; day := 1 |}
           {| year := 2024; month := 12; day := 31 |}
           [] "0000000001" sample_company [] SECDelistingScraperOptimized.acc0
           (snd (SECDelistingScraperOptimized.get_company_tickers world_bad_date fresh))
           recent_bad_date 1 ValueError).
  - vm_compute. reflexivity.
  - vm_compute. reflexivity.
  - vm_compute. reflexivity.
  - reflexivity.
  - reflexivity.
  - reflexivity.
  - cbn. lia.
  - intros j Hj. assert (j = 0) as -> by lia.
    exists "10-K", "2020-01-01". split; [reflexivity |]. split; [reflexivity |].
    left. not_in_list.
  - exists "25". split; [reflexivity |]. right.
    split; [apply elem_of_cons; left; reflexivity |].
    split; [| reflexivity].
    exists "June 15, 2020". split; [reflexivity | vm_compute; reflexivity].
Defined.

Lemma bad_range_raises_late_witness :
  exists st' evs,
    SECDelistingScraperOptimized.find_form25_filings_with_market_cap
      (world_calculated "NMS" ConnectionError) None
      SECDelistingScraperOptimized.default_target_exchanges
      "01/01/2015" END_DATE MAX_MARKET_CAP fresh = (Raise ValueError, st')
    /\ log st' = log fresh ++ map EvSecGet evs
    /\ evs `prefix_of` SECDelistingScraperOptimized.endpoints
    /\ evs <> [].
Proof.
  apply (bad_range_raises_late (world_calculated "NMS" ConnectionError) None
           SECDelistingScraperOptimized.default_target_exchanges
           "01/01/2015" END_DATE MAX_MARKET_CAP fresh).
  left. vm_compute. reflexivity.
Defined.

Lemma rows_carry_cached_exchange_witness :
  ticker_to_exchange
    (snd (SECDelistingScraperOptimized.find_form25_filings_with_market_cap
            (world_calculated "NMS" ConnectionError) None
            SECDelistingScraperOptimized.default_target_exchanges
            START_DATE END_DATE MAX_MARKET_CAP fresh)) !! ticker sample_row
  = Some (exchange sample_row).
Proof.
  apply (proj1 (proj2
           (rows_carry_cached_exchange (world_calculated "NMS" ConnectionError) None
              SECDelistingScraperOptimized.default_target_exchanges
              START_DATE END_DATE MAX_MARKET_CAP fresh [sample_row] [sample_row]
              (snd (SECDelistingScraperOptimized.find_form25_filings_with_market_cap
                      (world_calculated "NMS" ConnectionError) None
                      SECDelistingScraperOptimized.default_target_exchanges
                      START_DATE END_DATE MAX_MARKET_CAP fresh))
              ltac:(vm_compute; reflexivity)))).
  apply list_elem_of_here.
Defined.

Lemma collection_row_provenance_witness :
  exists m s1 sd ed,
    SECDelistingScraperOptimized.get_company_tickers
      (world_calculated "NMS" ConnectionError) fresh = (Ok m, s1)
    /\ strptime START_DATE = Some sd
    /\ strptime END_DATE = Some ed
    /\ Forall (row_origin (world_calculated "NMS" ConnectionError)
                 SECDelistingScraperOptimized.default_target_exchanges sd ed m)
         [sample_row]
    /\ Forall (row_origin (world_calculated "NMS" ConnectionError)
                 SECDelistingScraperOptimized.default_target_exchanges sd ed m)
         [sample_row].
Proof.
  apply (collection_row_provenance (world_calculated "NMS" ConnectionError) None
           SECDelistingScraperOptimized.default_target_exchanges
           START_DATE END_DATE MAX_MARKET_CAP fresh [sample_row] [sample_row]
           (snd (SECDelistingScraperOptimized.find_form25_filings_with_market_cap
                   (world_calculated "NMS" ConnectionError) None
                   SECDelistingScraperOptimized.default_target_exchanges
                   START_DATE END_DATE MAX_MARKET_CAP fresh))).
  vm_compute. reflexivity.
Defined.

Lemma collection_stats_tally_witness :
  stats (snd (SECDelistingScraperOptimized.find_form25_filings_with_market_cap
                (world_calculated "NMS" ConnectionError) None
                SECDelistingScraperOptimized.default_target_exchanges
                START_DATE END_DATE MAX_MARKET_CAP fresh))
  = {| yahoo_current := 0; yahoo_historical := 0; fmp_api := 0;
       calculated := 1; failed := 0; total := 1 |}
  /\ calculated
       (stats (snd (SECDelistingScraperOptimized.find_form25_filings_with_market_cap
                      (world_calculated "NMS" ConnectionError) None
                      SECDelistingScraperOptimized.default_target_exchanges
                      START_DATE END_DATE MAX_MARKET_CAP fresh)))
     = (calculated (stats fresh) + count_source "calculated" [sample_row])%Z.
Proof.
  split; [vm_compute; reflexivity |].
  apply (collection_stats_tally (world_calculated "NMS" ConnectionError) None
           SECDelistingScraperOptimized.default_target_exchanges
           START_DATE END_DATE MAX_MARKET_CAP fresh [sample_row] [sample_row]
           (snd (SECDelistingScraperOptimized.find_form25_filings_with_market_cap
                   (world_calculated "NMS" ConnectionError) None
                   SECDelistingScraperOptimized.default_target_exchanges
                   START_DATE END_DATE MAX_MARKET_CAP fresh))).
  vm_compute. reflexivity.
Defined.

Lemma one_history_request_per_company_witness :
  exists m s1,
    SECDelistingScraperOptimized.get_company_tickers
      (world_calculated "NMS" ConnectionError) fresh = (Ok m, s1)
    /\ submission_requests
         (log (snd (SECDelistingScraperOptimized.find_form25_filings_with_market_cap
                      (world_calculated "NMS" ConnectionError) None
                      SECDelistingScraperOptimized.default_target_exchanges
                      START_DATE END_DATE MAX_MARKET_CAP fresh)))
       = submission_requests (log fresh) ++ map (fun kc => submissions_url (fst kc)) m.
Proof.
  apply (one_history_request_per_company (world_calculated "NMS" ConnectionError) None
           SECDelistingScraperOptimized.default_target_exchanges
           START_DATE END_DATE MAX_MARKET_CAP fresh [sample_row] [sample_row]).
  vm_compute. reflexivity.
Defined.

Lemma summaries_agree_witness :
  exists r1 r2,
    print_stats None
      (stats (snd (SECDelistingScraperOptimized.find_form25_filings_with_market_cap
                     (world_calculated "NMS" ConnectionError) None
                     SECDelistingScraperOptimized.default_target_exchanges
                     START_DATE END_DATE MAX_MARKET_CAP fresh)))
    = Some r1
    /\ print_summary [sample_row] [sample_row] = Some r2
    /\ shown_total r1 = summary_total r2
    /\ shown_successful r1 = stocks_with_market_cap r2
    /\ shown_failed r1 = unknown_market_cap r2
    /\ confirmed_large_caps r2
       = Z.of_nat (length (List.filter (at_or_above MAX_MARKET_CAP) [sample_row]))
    /\ (summary_total r2
        = confirmed_small_caps r2 + confirmed_large_caps r2 + unknown_market_cap r2)%Z.
Proof.
  apply (summaries_agree (world_calculated "NMS" ConnectionError) None
           SECDelistingScraperOptimized.default_target_exchanges
           START_DATE END_DATE MAX_MARKET_CAP fresh [sample_row] [sample_row]
           (snd (SECDelistingScraperOptimized.find_form25_filings_with_market_cap
                   (world_calculated "NMS" ConnectionError) None
                   SECDelistingScraperOptimized.default_target_exchanges
                   START_DATE END_DATE MAX_MARKET_CAP fresh))).
  - reflexivity.
  - vm_compute. reflexivity.
Defined.

Lemma matching_entry_is_collected_witness :
  exists r st',
    OptimizedMarketCapFetcher.get_market_cap (world_calculated "NMS" ConnectionError) None
      "ABCD" "2020-06-15" "Acme Corp"
      (snd (SECDelistingScraperOptimized._get_ticker_exchange
              (world_calculated "NMS" ConnectionError) "ABCD" fresh))
    = (Ok r, st')
    /\ SECDelistingScraperOptimized.check_filing
         (world_calculated "NMS" ConnectionError) None
         SECDelistingScraperOptimized.default_target_exchanges
         {| year := 2015; month := 1; day := 1 |}
         {| year := 2024; month := 12; day := 31 |}
         MAX_MARKET_CAP "0000000001" sample_company sample_recent 0
         SECDelistingScraperOptimized.acc0 fresh
       = (Ok (SECDelistingScraperOptimized.record_filing MAX_MARKET_CAP
                {| ticker := "ABCD";
                   company_name := "Acme Corp";
                   cik := "0000000001";
                   exchange := "NASDAQ";
                   form_type := "25";
                   filing_date := "2020-06-15";
                   accession_number := "0000000001-20-000001";
                   primary_document := "form25.xml";
                   market_cap := fst r;
                   market_cap_source := snd r |}
                SECDelistingScraperOptimized.acc0), st').
Proof.
  apply (matching_entry_is_collected (world_calculated "NMS" ConnectionError) None
           SECDelistingScraperOptimized.default_target_exchanges
           {| year := 2015; month := 1; day := 1 |}
           {| year := 2024; month := 12; day := 31 |}
           MAX_MARKET_CAP "0000000001" sample_company sample_recent 0
           SECDelistingScraperOptimized.acc0 fresh
           "25" "2020-06-15" {| year := 2020; month := 6; day := 15 |} "NASDAQ"
           (snd (SECDelistingScraperOptimized._get_ticker_exchange
                   (world_calculated "NMS" ConnectionError) "ABCD" fresh))
           "0000000001-20-000001" "form25.xml").
  - reflexivity.
  - apply list_elem_of_here.
  - reflexivity.
  - vm_compute. reflexivity.
  - vm_compute. reflexivity.
  - vm_compute. reflexivity.
  - discriminate.
  - unfold SECDelistingScraperOptimized.default_target_exchanges.
    apply elem_of_cons. right. apply list_elem_of_here.
  - reflexivity.
  - reflexivity.
Defined.

Lemma collection_raises_only_witness :
  (ValueError = ValueError \/ ValueError = IndexError)
  /\ files (snd (SECDelistingScraperOptimized.find_form25_filings_with_market_cap
                   world_bad_date None SECDelistingScraperOptimized.default_target_exchanges
                   START_DATE END_DATE MAX_MARKET_CAP fresh))
     = files fresh.
Proof.
  apply (collection_raises_only world_bad_date None
           SECDelistingScraperOptimized.default_target_exchanges
           START_DATE END_DATE MAX_MARKET_CAP fresh ValueError
           (snd (SECDelistingScraperOptimized.find_form25_filings_with_market_cap
                   world_bad_date None SECDelistingScraperOptimized.default_target_exchanges
                   START_DATE END_DATE MAX_MARKET_CAP fresh))).
  vm_compute. reflexivity.
Defined.
